(** * TraceBench log viewer: the data reconciliation and merge core

    A shallow embedding of [log_viewer/core] (models.py, io_handler.py,
    merge_handler.py, filter_manager.py) together with the properties its
    specification states about it.

    Conventions of the embedding.
    - A Python [float] is a [pyfloat]: an exact rational or one of the three
      special values [+inf], [-inf], [nan].  Arithmetic on finite values is
      exact; rounding is not modelled.
    - A Python [str] is a [string] of bytes (UTF-8), so that the
      lexicographic byte order is Python's code point order.
    - A Python [dict] with string keys is a [gmap string _]; a Python [set]
      of strings is a duplicate-free list, iterated in an order the language
      does not fix (a parameter [set_order] of the functions that iterate
      over one).
    - A raised exception is the [Raise] outcome of the [PyResult] monad.
    - A pandas [DataFrame] is a list of column labels and a list of rows of
      numeric cells (see [Module Pandas]). *)

From Stdlib Require Import Ascii String QArith Qminmax Lqa.
From stdpp Require Import base strings list gmap sorting.

Local Open Scope string_scope.
Local Open Scope list_scope.

Set Warnings "-clear-no-such-hyp".

(** ** Python floats *)

Inductive pyfloat : Type :=
| Fin (q : Q)
| PInf
| NInf
| NaN.

#[global] Instance Q_eq_dec : EqDecision Q.
Proof. solve_decision. Defined.

#[global] Instance pyfloat_eq_dec : EqDecision pyfloat.
Proof. solve_decision. Defined.

#[global] Instance pyfloat_inhabited : Inhabited pyfloat := populate NaN.

Module Float.

Definition zero : pyfloat := Fin 0.
Definition one : pyfloat := Fin 1.

Definition of_Z (z : Z) : pyfloat := Fin (inject_Z z).

Definition isnan (x : pyfloat) : bool :=
  match x with NaN => true | _ => false end.

Definition neg (x : pyfloat) : pyfloat :=
  match x with
  | Fin q => Fin (- q)
  | PInf => NInf
  | NInf => PInf
  | NaN => NaN
  end.

Definition add (x y : pyfloat) : pyfloat :=
  match x, y with
  | NaN, _ | _, NaN => NaN
  | Fin a, Fin b => Fin (a + b)
  | PInf, NInf | NInf, PInf => NaN
  | PInf, _ | _, PInf => PInf
  | NInf, _ | _, NInf => NInf
  end.

Definition sub (x y : pyfloat) : pyfloat := add x (neg y).

(** The sign of a rational, as a comparison with zero. *)
Definition sgn (q : Q) : comparison := (Qnum q ?= 0)%Z.

Definition mul (x y : pyfloat) : pyfloat :=
  match x, y with
  | NaN, _ | _, NaN => NaN
  | Fin a, Fin b => Fin (a * b)
  | Fin a, PInf | PInf, Fin a =>
      match sgn a with Gt => PInf | Lt => NInf | Eq => NaN end
  | Fin a, NInf | NInf, Fin a =>
      match sgn a with Gt => NInf | Lt => PInf | Eq => NaN end
  | PInf, PInf | NInf, NInf => PInf
  | PInf, NInf | NInf, PInf => NInf
  end.

(** [x <= y], [x < y], [x == y]: every comparison with [nan] is false. *)
Definition le (x y : pyfloat) : bool :=
  match x, y with
  | NaN, _ | _, NaN => false
  | Fin a, Fin b => Qle_bool a b
  | NInf, _ => true
  | _, PInf => true
  | _, _ => false
  end.

Definition lt (x y : pyfloat) : bool :=
  match x, y with
  | NaN, _ | _, NaN => false
  | Fin a, Fin b => negb (Qle_bool b a)
  | PInf, _ => false
  | _, NInf => false
  | _, _ => true
  end.

Definition eqb (x y : pyfloat) : bool :=
  match x, y with
  | Fin a, Fin b => Qeq_bool a b
  | PInf, PInf | NInf, NInf => true
  | _, _ => false
  end.

Definition ge (x y : pyfloat) : bool := le y x.
Definition gt (x y : pyfloat) : bool := lt y x.

(** The builtins [min(a, b)] and [max(a, b)]: the first argument is kept
    unless the second compares strictly better. *)
Definition py_min (a b : pyfloat) : pyfloat := if lt b a then b else a.
Definition py_max (a b : pyfloat) : pyfloat := if gt b a then b else a.

(** [numpy.minimum] and [numpy.maximum]: a [nan] operand wins. *)
Definition np_minimum (a b : pyfloat) : pyfloat :=
  if isnan a then a else if isnan b then b else if le a b then a else b.
Definition np_maximum (a b : pyfloat) : pyfloat :=
  if isnan a then a else if isnan b then b else if le b a then a else b.

(** [numpy.min] and [numpy.max] of a non-empty array (the callers test the
    length first); the empty array is given [nan] here. *)
Definition np_min (l : list pyfloat) : pyfloat :=
  match l with
  | [] => NaN
  | x :: l' => foldl np_minimum x l'
  end.
Definition np_max (l : list pyfloat) : pyfloat :=
  match l with
  | [] => NaN
  | x :: l' => foldl np_maximum x l'
  end.

(** [Series.min()] and [Series.max()] of pandas: missing values are skipped,
    and a series with no value left gives [nan]. *)
Definition series_min (l : list pyfloat) : pyfloat :=
  np_min (filter (λ x, isnan x = false) l).
Definition series_max (l : list pyfloat) : pyfloat :=
  np_max (filter (λ x, isnan x = false) l).

End Float.

(** ** Exceptions *)

Inductive PyError : Type :=
| KeyError (key : string)
| ValueError
| TypeError
| MergeError.

Inductive PyResult (A : Type) : Type :=
| Ok (a : A)
| Raise (e : PyError).
Arguments Ok {A} a.
Arguments Raise {A} e.

Definition py_bind {A B} (m : PyResult A) (f : A → PyResult B) : PyResult B :=
  match m with
  | Ok a => f a
  | Raise e => Raise e
  end.

Notation "'let!' x ':=' m 'in' k" := (py_bind m (λ x, k))
  (at level 10, x name, m at level 100, k at level 200,
   format "'let!'  x  ':='  m  'in' '//' k").

Definition is_ok {A} (m : PyResult A) : bool :=
  match m with Ok _ => true | Raise _ => false end.

(** A monadic left fold: the body of a [for] loop that may raise. *)
Fixpoint py_foldl {A B} (f : A → B → PyResult A) (a : A) (l : list B)
    : PyResult A :=
  match l with
  | [] => Ok a
  | x :: l' => let! a' := f a x in py_foldl f a' l'
  end.

(** ** Strings *)

Module Str.

(** [s.endswith(suffix)] *)
Definition endswith (s suffix : string) : bool :=
  let n := String.length s in
  let k := String.length suffix in
  if decide (k ≤ n)%nat
  then bool_decide (String.substring (n - k) k s = suffix)
  else false.

(** [needle in hay] for two strings. *)
Fixpoint contains (needle hay : string) : bool :=
  if String.prefix needle hay then true
  else match hay with
       | EmptyString => false
       | String _ hay' => contains needle hay'
       end.

Definition lower_ascii (c : ascii) : ascii :=
  let n := nat_of_ascii c in
  if decide (65 ≤ n ≤ 90)%nat then ascii_of_nat (n + 32) else c.

(** [s.lower()], on the ASCII letters. *)
Fixpoint lower (s : string) : string :=
  match s with
  | EmptyString => EmptyString
  | String c s' => String (lower_ascii c) (lower s')
  end.

(** Truthiness of a string: the empty string is false. *)
Definition truthy (s : string) : bool :=
  match s with EmptyString => false | _ => true end.

(** The order [sorted] puts strings in. *)
Definition le (s1 s2 : string) : Prop := String.leb s1 s2 = true.
Definition lt (s1 s2 : string) : Prop := String.ltb s1 s2 = true.

#[global] Instance le_dec : RelDecision le.
Proof. intros s1 s2. unfold le. apply _. Defined.

(** [sorted(l)] for a list of strings. *)
Definition sorted (l : list string) : list string := merge_sort le l.

End Str.

(** ** pandas

    The part of pandas the core relies on, over tables of numeric cells.  A
    missing value is [NaN].  Column labels are expected to be distinct and
    every row to have one cell per column; a cell that is not there reads as
    [NaN].  The row index is not modelled ([reset_index(drop=True)] and
    [copy()] are the identity). *)

Module Pandas.

Record DataFrame : Type := mkDataFrame {
  columns : list string;
  rows : list (list pyfloat)
}.

#[global] Instance DataFrame_eq_dec : EqDecision DataFrame.
Proof. solve_decision. Defined.

(** [pd.DataFrame()] *)
Definition empty_frame : DataFrame := mkDataFrame [] [].

(** [df.empty]: no row or no column. *)
Definition empty (df : DataFrame) : bool :=
  bool_decide (columns df = []) || bool_decide (rows df = []).

(** Position of the label [c], when it is one of [cols]. *)
Fixpoint index_of (c : string) (cols : list string) : option nat :=
  match cols with
  | [] => None
  | c' :: cols' =>
      if decide (c' = c) then Some 0%nat else S <$> index_of c cols'
  end.

(** [c in df.columns] *)
Definition has_column (c : string) (df : DataFrame) : bool :=
  bool_decide (c ∈ columns df).

Definition cell (r : list pyfloat) (i : nat) : pyfloat := default NaN (r !! i).

(** The values of the column at position [i]. *)
Definition column_at (df : DataFrame) (i : nat) : list pyfloat :=
  map (λ r, cell r i) (rows df).

(** [df[c]] *)
Definition getitem (df : DataFrame) (c : string) : PyResult (list pyfloat) :=
  match index_of c (columns df) with
  | Some i => Ok (column_at df i)
  | None => Raise (KeyError c)
  end.

(** [df[c] = values]: overwrites the column, or adds it as the last one. *)
Definition setitem (df : DataFrame) (c : string) (values : list pyfloat)
    : PyResult DataFrame :=
  if decide (length values = length (rows df)) then
    match index_of c (columns df) with
    | Some i =>
        Ok (mkDataFrame (columns df)
              (zip_with (λ r v, <[i:=v]> r) (rows df) values))
    | None =>
        Ok (mkDataFrame (columns df ++ [c])
              (zip_with (λ r v, r ++ [v]) (rows df) values))
    end
  else Raise ValueError.

(** A row over the labels [from], laid out over the labels [to]. *)
Definition reindex (from to : list string) (r : list pyfloat) : list pyfloat :=
  map (λ c, match index_of c from with
            | Some i => cell r i
            | None => NaN
            end) to.

(** [df[cols]] for a list of labels. *)
Definition select_columns (df : DataFrame) (cols : list string)
    : PyResult DataFrame :=
  match list_find (λ c, c ∉ columns df) cols with
  | Some (_, c) => Raise (KeyError c)
  | None => Ok (mkDataFrame cols (map (reindex (columns df) cols) (rows df)))
  end.

(** [df[[c for c in df.columns if keep(c)]]] *)
Definition keep_columns (keep : string → bool) (df : DataFrame) : DataFrame :=
  let cols := filter (λ c, keep c = true) (columns df) in
  mkDataFrame cols (map (reindex (columns df) cols) (rows df)).

(** [df[mask]] for a boolean mask over the rows. *)
Definition select_rows (df : DataFrame) (mask : list bool) : DataFrame :=
  mkDataFrame (columns df)
    (fst <$> filter (λ rb, rb.2 = true) (zip (rows df) mask)).

(** [pd.Series(True, index=df.index)] *)
Definition all_true (df : DataFrame) : list bool :=
  replicate (length (rows df)) true.

(** [mask &= series] *)
Definition mask_and (mask series : list bool) : list bool :=
  zip_with andb mask series.

(** [pd.concat([a, b], ignore_index=True)]: the rows of [a], then those of
    [b], over the union of the columns in order of first appearance. *)
Definition concat (a b : DataFrame) : DataFrame :=
  let cols := columns a ++ filter (λ c, c ∉ columns a) (columns b) in
  mkDataFrame cols
    (map (reindex (columns a) cols) (rows a)
     ++ map (reindex (columns b) cols) (rows b)).

(** The order [sort_values] puts keys in: ascending, missing values last. *)
Definition key_le (x y : pyfloat) : bool :=
  if Float.isnan y then true
  else if Float.isnan x then false
  else Float.le x y.

Fixpoint insert_row (i : nat) (r : list pyfloat) (sorted : list (list pyfloat))
    : list (list pyfloat) :=
  match sorted with
  | [] => [r]
  | r' :: sorted' =>
      if key_le (cell r i) (cell r' i) then r :: r' :: sorted'
      else r' :: insert_row i r sorted'
  end.

Definition sort_rows (i : nat) (l : list (list pyfloat)) : list (list pyfloat) :=
  foldr (insert_row i) [] l.

(** [df.sort_values(by)].  pandas does not fix the order of rows with equal
    keys; this is the stable one. *)
Definition sort_values (df : DataFrame) (by_ : string) : PyResult DataFrame :=
  match index_of by_ (columns df) with
  | Some i => Ok (mkDataFrame (columns df) (sort_rows i (rows df)))
  | None => Raise (KeyError by_)
  end.

(** Equality of join keys: as numbers, and a missing key matches a missing
    key. *)
Definition key_eq (x y : pyfloat) : bool :=
  match x, y with
  | NaN, NaN => true
  | _, _ => Float.eqb x y
  end.

(** The labels of the right table's columns in a merge on [on]: the key
    column is not repeated, and a label the left table has too gets the
    suffix. *)
Definition right_columns (right : DataFrame) (on : string) : list string :=
  filter (λ c, c ≠ on) (columns right).

Definition right_labels (left right : DataFrame) (on suffix : string)
    : list string :=
  map (λ c, if bool_decide (c ∈ columns left) then c +:+ suffix else c)
      (right_columns right on).

Definition left_labels (left right : DataFrame) (on suffix : string)
    : list string :=
  map (λ c, if bool_decide (c ∈ right_columns right on)
            then c +:+ suffix else c)
      (columns left).

(** [pd.merge(left, right, on=on, how="outer", suffixes=("", rsuffix))]:
    every left row with each right row of the same key (or with missing
    values when there is none), then the right rows no left row matches.
    A key that is not a column of both tables is a [KeyError]; suffixes
    that make two labels of one side equal are a [MergeError] (pandas 2). *)
Definition merge_outer (left right : DataFrame) (on rsuffix : string)
    : PyResult DataFrame :=
  match index_of on (columns left), index_of on (columns right) with
  | Some i, Some j =>
      let rcols := right_columns right on in
      let rlabels := right_labels left right on rsuffix in
      if bool_decide (NoDup rlabels) then
        let rpart r := reindex (columns right) rcols r in
        let missing := replicate (length rcols) NaN in
        let joined :=
          flat_map (λ l,
            match filter (λ r, key_eq (cell l i) (cell r j) = true) (rows right) with
            | [] => [l ++ missing]
            | ms => map (λ r, l ++ rpart r) ms
            end) (rows left) in
        let right_only :=
          filter (λ r, Forall (λ l, key_eq (cell l i) (cell r j) = false) (rows left))
                 (rows right) in
        let lpart r := map (λ c, if decide (c = on) then cell r j else NaN)
                           (columns left) in
        Ok (mkDataFrame (columns left ++ rlabels)
              (joined ++ map (λ r, lpart r ++ rpart r) right_only))
      else Raise MergeError
  | _, _ => Raise (KeyError on)
  end.

(** The right row an as-of join in direction "nearest" gives the key [k]:
    of the last row at or before [k] and the first row at or after it, the
    closer one (the earlier on a tie), when it is within the tolerance. *)
Definition asof_nearest (j : nat) (tolerance k : pyfloat)
    (sorted_right : list (list pyfloat)) : option (list pyfloat) :=
  let backward := last (filter (λ r, Float.le (cell r j) k = true) sorted_right) in
  let forward := head (filter (λ r, Float.le k (cell r j) = true) sorted_right) in
  let within r := Float.le (Float.sub k (cell r j)) tolerance
                  && Float.le (Float.sub (cell r j) k) tolerance in
  let pick :=
    match backward, forward with
    | Some b, Some f =>
        if Float.le (Float.sub k (cell b j)) (Float.sub (cell f j) k)
        then Some b else Some f
    | Some b, None => Some b
    | None, f => f
    end in
  match pick with
  | Some r => if within r then Some r else None
  | None => None
  end.

(** [pd.merge_asof(left, right, on=on, tolerance=tolerance,
    direction="nearest")] for tables sorted by the key: a left join, with the
    default suffixes ["_x"] and ["_y"].  Missing keys are a [ValueError], a
    negative tolerance a [MergeError]. *)
Definition merge_asof (left right : DataFrame) (on : string) (tolerance : pyfloat)
    : PyResult DataFrame :=
  match index_of on (columns left), index_of on (columns right) with
  | Some i, Some j =>
      if bool_decide (Exists (λ r, Float.isnan (cell r i) = true) (rows left)
                      ∨ Exists (λ r, Float.isnan (cell r j) = true) (rows right))
      then Raise ValueError
      else if Float.lt tolerance Float.zero then Raise MergeError
      else
        let rcols := right_columns right on in
        let llabels := left_labels left right on "_x" in
        let rlabels := right_labels left right on "_y" in
        if bool_decide (NoDup llabels ∧ NoDup rlabels) then
          let rpart r := reindex (columns right) rcols r in
          let missing := replicate (length rcols) NaN in
          Ok (mkDataFrame (llabels ++ rlabels)
                (map (λ l, match asof_nearest j tolerance (cell l i) (rows right) with
                           | Some r => l ++ rpart r
                           | None => l ++ missing
                           end) (rows left)))
        else Raise MergeError
  | _, _ => Raise (KeyError on)
  end.

End Pandas.

(** ** Dynamic values

    What [to_dict] builds and [from_dict] reads: the JSON-like values of the
    persisted layout.  The records below are typed, so [from_dict] gives a
    [TypeError] on an entry of another dynamic type than the field's (Python
    would store the value as it is). *)

#[warnings="-register-all"]
Inductive PyVal : Type :=
| VNone
| VBool (b : bool)
| VFloat (x : pyfloat)
| VStr (s : string)
| VList (l : list PyVal)
| VTuple (l : list PyVal)
| VDict (d : gmap string PyVal).

Module Dyn.

(** [data.get(key, default)] *)
Definition get (data : gmap string PyVal) (key : string) (default_ : PyVal) : PyVal :=
  default default_ (data !! key).

(** [data[key]] *)
Definition item (data : gmap string PyVal) (key : string) : PyResult PyVal :=
  match data !! key with
  | Some v => Ok v
  | None => Raise (KeyError key)
  end.

Definition of_opt_float (o : option pyfloat) : PyVal :=
  match o with Some x => VFloat x | None => VNone end.

Definition of_opt_str (o : option string) : PyVal :=
  match o with Some s => VStr s | None => VNone end.

Definition of_str_list (l : list string) : PyVal := VList (VStr <$> l).

Definition as_float (v : PyVal) : PyResult pyfloat :=
  match v with VFloat x => Ok x | _ => Raise TypeError end.

Definition as_opt_float (v : PyVal) : PyResult (option pyfloat) :=
  match v with
  | VNone => Ok None
  | VFloat x => Ok (Some x)
  | _ => Raise TypeError
  end.

Definition as_str (v : PyVal) : PyResult string :=
  match v with VStr s => Ok s | _ => Raise TypeError end.

Definition as_opt_str (v : PyVal) : PyResult (option string) :=
  match v with
  | VNone => Ok None
  | VStr s => Ok (Some s)
  | _ => Raise TypeError
  end.

Definition as_bool (v : PyVal) : PyResult bool :=
  match v with VBool b => Ok b | _ => Raise TypeError end.

Definition as_dict (v : PyVal) : PyResult (gmap string PyVal) :=
  match v with VDict d => Ok d | _ => Raise TypeError end.

(** A list whose elements are read by [f]. *)
Fixpoint read_all {A} (f : PyVal → PyResult A) (l : list PyVal)
    : PyResult (list A) :=
  match l with
  | [] => Ok []
  | v :: l' =>
      let! a := f v in
      let! rest := read_all f l' in
      Ok (a :: rest)
  end.

Definition as_list {A} (f : PyVal → PyResult A) (v : PyVal) : PyResult (list A) :=
  match v with VList l => read_all f l | _ => Raise TypeError end.

(** Truthiness of a value, as [if data.get(key)] tests it. *)
Definition truthy (v : PyVal) : bool :=
  match v with
  | VNone => false
  | VBool b => b
  | VFloat x => negb (Float.eqb x Float.zero)
  | VStr s => Str.truthy s
  | VList l | VTuple l => bool_decide (l ≠ [])
  | VDict d => bool_decide (d ≠ ∅)
  end.

(** [for k, v in d.items(): target[k] = f(v)], starting from [target]. *)
Definition read_items {A} (f : PyVal → PyResult A) (d : gmap string PyVal)
    (target : gmap string A) : PyResult (gmap string A) :=
  map_fold (λ k v acc,
              let! acc := acc in
              let! a := f v in
              Ok (<[k := a]> acc))
           (Ok target) d.

End Dyn.

(** ** models.py *)

Import Pandas.

Definition PLOT_TIME : string := "_plot_time_".

Module TimeMode.

Inductive t : Type := ABSOLUTE | RELATIVE | CUSTOM_OFFSET.

#[global] Instance eq_dec : EqDecision t.
Proof. solve_decision. Defined.

(** [mode.name] *)
Definition name (m : t) : string :=
  match m with
  | ABSOLUTE => "ABSOLUTE"
  | RELATIVE => "RELATIVE"
  | CUSTOM_OFFSET => "CUSTOM_OFFSET"
  end.

(** [TimeMode[s]] *)
Definition of_name (s : string) : PyResult t :=
  if decide (s = "ABSOLUTE") then Ok ABSOLUTE
  else if decide (s = "RELATIVE") then Ok RELATIVE
  else if decide (s = "CUSTOM_OFFSET") then Ok CUSTOM_OFFSET
  else Raise (KeyError s).

End TimeMode.

Module JoinStrategy.

Inductive t : Type := TIME_NEAREST | TIME_EXACT | ALTERNATIVE_KEY | APPEND_SEGMENT.

#[global] Instance eq_dec : EqDecision t.
Proof. solve_decision. Defined.

Definition name (m : t) : string :=
  match m with
  | TIME_NEAREST => "TIME_NEAREST"
  | TIME_EXACT => "TIME_EXACT"
  | ALTERNATIVE_KEY => "ALTERNATIVE_KEY"
  | APPEND_SEGMENT => "APPEND_SEGMENT"
  end.

Definition of_name (s : string) : PyResult t :=
  if decide (s = "TIME_NEAREST") then Ok TIME_NEAREST
  else if decide (s = "TIME_EXACT") then Ok TIME_EXACT
  else if decide (s = "ALTERNATIVE_KEY") then Ok ALTERNATIVE_KEY
  else if decide (s = "APPEND_SEGMENT") then Ok APPEND_SEGMENT
  else Raise (KeyError s).

End JoinStrategy.

Module CompareMode.

Inductive t : Type := OVERLAY | CONCATENATE.

#[global] Instance eq_dec : EqDecision t.
Proof. solve_decision. Defined.

End CompareMode.

Module ChannelMetadata.

Record t : Type := mk {
  original_name : string;
  display_name : string;
  unit : string;
  category : string;
  description : string
}.

#[global] Instance eq_dec : EqDecision t.
Proof. solve_decision. Defined.

Definition to_dict (self : t) : gmap string PyVal :=
  list_to_map [
    ("original_name", VStr (original_name self));
    ("display_name", VStr (display_name self));
    ("unit", VStr (unit self));
    ("category", VStr (category self));
    ("description", VStr (description self))
  ].

Definition from_dict (data : gmap string PyVal) : PyResult t :=
  let! v_original_name := Dyn.item data "original_name" in
  let! a_original_name := Dyn.as_str v_original_name in
  let! v_display_name := Dyn.item data "display_name" in
  let! a_display_name := Dyn.as_str v_display_name in
  let! a_unit := Dyn.as_str (Dyn.get data "unit" (VStr "")) in
  let! a_category := Dyn.as_str (Dyn.get data "category" (VStr "Unknown")) in
  let! a_description := Dyn.as_str (Dyn.get data "description" (VStr "")) in
  Ok (mk a_original_name a_display_name a_unit a_category a_description).

(** [from_dict] of a dictionary held as a value of another dictionary. *)
Definition of_val (v : PyVal) : PyResult t :=
  let! d := Dyn.as_dict v in from_dict d.

End ChannelMetadata.

Module FilterState.

Record t : Type := mk {
  time_min : option pyfloat;
  time_max : option pyfloat;
  channel_filters : gmap string (option pyfloat * option pyfloat);
  text_search : string;
  category_filter : list string;
  unit_filter : list string;
  enabled : bool
}.

(** [FilterState()] *)
Definition new : t := mk None None ∅ "" [] [] true.

Definition bounds_to_val (b : option pyfloat * option pyfloat) : PyVal :=
  VTuple [Dyn.of_opt_float b.1; Dyn.of_opt_float b.2].

Definition bounds_of_val (v : PyVal) : PyResult (option pyfloat * option pyfloat) :=
  match v with
  | VTuple [lo; hi] =>
      let! a_lo := Dyn.as_opt_float lo in
      let! a_hi := Dyn.as_opt_float hi in
      Ok (a_lo, a_hi)
  | _ => Raise TypeError
  end.

Definition to_dict (self : t) : gmap string PyVal :=
  list_to_map [
    ("time_min", Dyn.of_opt_float (time_min self));
    ("time_max", Dyn.of_opt_float (time_max self));
    ("channel_filters", VDict (bounds_to_val <$> channel_filters self));
    ("text_search", VStr (text_search self));
    ("category_filter", Dyn.of_str_list (category_filter self));
    ("unit_filter", Dyn.of_str_list (unit_filter self));
    ("enabled", VBool (enabled self))
  ].

Definition from_dict (data : gmap string PyVal) : PyResult t :=
  let! a_time_min := Dyn.as_opt_float (Dyn.get data "time_min" VNone) in
  let! a_time_max := Dyn.as_opt_float (Dyn.get data "time_max" VNone) in
  let! d_filters := Dyn.as_dict (Dyn.get data "channel_filters" (VDict ∅)) in
  let! a_filters := Dyn.read_items bounds_of_val d_filters ∅ in
  let! a_text_search := Dyn.as_str (Dyn.get data "text_search" (VStr "")) in
  let! a_category := Dyn.as_list Dyn.as_str (Dyn.get data "category_filter" (VList [])) in
  let! a_unit := Dyn.as_list Dyn.as_str (Dyn.get data "unit_filter" (VList [])) in
  let! a_enabled := Dyn.as_bool (Dyn.get data "enabled" (VBool true)) in
  Ok (mk a_time_min a_time_max a_filters a_text_search a_category a_unit a_enabled).

(** The two steps [if lo is not None: mask &= df[c] >= lo] and
    [if hi is not None: mask &= df[c] <= hi] for the column at position [i]. *)
Definition range_mask (df : DataFrame) (i : nat) (lo hi : option pyfloat)
    (mask : list bool) : list bool :=
  let mask :=
    match lo with
    | Some v => mask_and mask (map (λ x, Float.ge x v) (column_at df i))
    | None => mask
    end in
  match hi with
  | Some v => mask_and mask (map (λ x, Float.le x v) (column_at df i))
  | None => mask
  end.

Definition apply_to_dataframe (self : t) (df : DataFrame) (time_column : string)
    : DataFrame :=
  if negb (enabled self) || Pandas.empty df then df
  else
    let mask := all_true df in
    (* Time range filter *)
    let mask :=
      match index_of time_column (columns df) with
      | Some i => range_mask df i (time_min self) (time_max self) mask
      | None => mask
      end in
    (* Channel value filters *)
    let mask :=
      foldl (λ mask item,
               match index_of item.1 (columns df) with
               | Some i => range_mask df i item.2.1 item.2.2 mask
               | None => mask
               end)
            mask (map_to_list (channel_filters self)) in
    select_rows df mask.

End FilterState.

Module DataFile.

(** [filepath] holds the path as [str(path)] gives it; [Path(str(path))] is
    the same path. *)
Record t : Type := mk {
  id : string;
  filepath : string;
  filename : string;
  delimiter : string;
  encoding : string;
  headers : list string;
  channel_metadata : gmap string ChannelMetadata.t;
  dataframe : option DataFrame;
  time_column : string;
  time_mode : TimeMode.t;
  time_offset : pyfloat;
  time_scale : pyfloat;
  join_strategy : option JoinStrategy.t;
  join_key : option string;
  join_tolerance : pyfloat
}.

Definition with_filename (s : string) (d : t) : t :=
  mk (id d) (filepath d) s (delimiter d) (encoding d) (headers d)
     (channel_metadata d) (dataframe d) (time_column d) (time_mode d)
     (time_offset d) (time_scale d) (join_strategy d) (join_key d)
     (join_tolerance d).

Definition with_dataframe (o : option DataFrame) (d : t) : t :=
  mk (id d) (filepath d) (filename d) (delimiter d) (encoding d) (headers d)
     (channel_metadata d) o (time_column d) (time_mode d)
     (time_offset d) (time_scale d) (join_strategy d) (join_key d)
     (join_tolerance d).

Definition with_channel_metadata (m : gmap string ChannelMetadata.t) (d : t) : t :=
  mk (id d) (filepath d) (filename d) (delimiter d) (encoding d) (headers d)
     m (dataframe d) (time_column d) (time_mode d)
     (time_offset d) (time_scale d) (join_strategy d) (join_key d)
     (join_tolerance d).

Definition with_join (s : option JoinStrategy.t) (k : option string)
    (tol : pyfloat) (d : t) : t :=
  mk (id d) (filepath d) (filename d) (delimiter d) (encoding d) (headers d)
     (channel_metadata d) (dataframe d) (time_column d) (time_mode d)
     (time_offset d) (time_scale d) s k tol.

(** The text after the last ["/"] of a path. *)
Fixpoint last_component (acc s : string) : string :=
  match s with
  | EmptyString => acc
  | String c s' =>
      if decide (c = "/"%char) then last_component "" s'
      else last_component (acc +:+ String c EmptyString) s'
  end.

(** [path.name]: the final component of a path, empty for ["."] and for the
    root. *)
Definition path_name (p : string) : string :=
  let n := last_component "" p in
  if decide (n = ".") then "" else n.

(** [__post_init__]: an empty [filename] defaults to the path's name ([Path]
    objects are always true). *)
Definition __post_init__ (self : t) : t :=
  if negb (Str.truthy (filename self))
  then with_filename (path_name (filepath self)) self
  else self.

(** [DataFile()], given the identifier [uuid.uuid4()] returns. *)
Definition new (uuid : string) : t :=
  __post_init__
    (mk uuid "." "" "," "utf-8" [] ∅ None "" TimeMode.RELATIVE
        Float.zero Float.one None None (Fin (1 # 1000))).

Definition get_time_data (self : t) : option (list pyfloat) :=
  match dataframe self with
  | None => None
  | Some frame =>
      match index_of (time_column self) (columns frame) with
      | None => None
      | Some i =>
          let time_data := column_at frame i in
          let time_data :=
            if decide (time_mode self = TimeMode.RELATIVE) then
              match time_data with
              | t0 :: _ => map (λ x, Float.sub x t0) time_data
              | [] => time_data
              end
            else time_data in
          Some (map (λ x, Float.mul (Float.add x (time_offset self)) (time_scale self))
                    time_data)
      end
  end.

Definition get_plot_time (self : t) : option (list pyfloat) :=
  get_time_data self.

Definition get_time_range (self : t) : pyfloat * pyfloat :=
  match get_time_data self with
  | None => (Float.zero, Float.zero)
  | Some time_data =>
      if decide (length time_data = 0%nat) then (Float.zero, Float.zero)
      else (Float.np_min time_data, Float.np_max time_data)
  end.

Definition to_dict (self : t) : gmap string PyVal :=
  list_to_map [
    ("id", VStr (id self));
    ("filepath", VStr (filepath self));
    ("filename", VStr (filename self));
    ("delimiter", VStr (delimiter self));
    ("encoding", VStr (encoding self));
    ("headers", Dyn.of_str_list (headers self));
    ("channel_metadata",
       VDict ((λ v, VDict (ChannelMetadata.to_dict v)) <$> channel_metadata self));
    ("time_column", VStr (time_column self));
    ("time_mode", VStr (TimeMode.name (time_mode self)));
    ("time_offset", VFloat (time_offset self));
    ("time_scale", VFloat (time_scale self));
    ("join_strategy",
       match join_strategy self with
       | Some s => VStr (JoinStrategy.name s)
       | None => VNone
       end);
    ("join_key", Dyn.of_opt_str (join_key self));
    ("join_tolerance", VFloat (join_tolerance self))
  ].

(** [from_dict], given the identifier a call of [uuid.uuid4()] returns. *)
Definition from_dict (uuid : string) (data : gmap string PyVal) : PyResult t :=
  let! a_id := Dyn.as_str (Dyn.get data "id" (VStr uuid)) in
  let! v_filepath := Dyn.item data "filepath" in
  let! a_filepath := Dyn.as_str v_filepath in
  let! a_filename := Dyn.as_str (Dyn.get data "filename" (VStr "")) in
  let! a_delimiter := Dyn.as_str (Dyn.get data "delimiter" (VStr ",")) in
  let! a_encoding := Dyn.as_str (Dyn.get data "encoding" (VStr "utf-8")) in
  let! a_headers := Dyn.as_list Dyn.as_str (Dyn.get data "headers" (VList [])) in
  let! a_time_column := Dyn.as_str (Dyn.get data "time_column" (VStr "")) in
  let! n_time_mode := Dyn.as_str (Dyn.get data "time_mode" (VStr "RELATIVE")) in
  let! a_time_mode := TimeMode.of_name n_time_mode in
  let! a_time_offset := Dyn.as_float (Dyn.get data "time_offset" (VFloat Float.zero)) in
  let! a_time_scale := Dyn.as_float (Dyn.get data "time_scale" (VFloat Float.one)) in
  let! a_join_strategy :=
    (if Dyn.truthy (Dyn.get data "join_strategy" VNone) then
       let! v := Dyn.item data "join_strategy" in
       let! n := Dyn.as_str v in
       let! s := JoinStrategy.of_name n in
       Ok (Some s)
     else Ok None) in
  let! a_join_key := Dyn.as_opt_str (Dyn.get data "join_key" VNone) in
  let! a_join_tolerance :=
    Dyn.as_float (Dyn.get data "join_tolerance" (VFloat (Fin (1 # 1000)))) in
  let df :=
    __post_init__
      (mk a_id a_filepath a_filename a_delimiter a_encoding a_headers ∅ None
          a_time_column a_time_mode a_time_offset a_time_scale
          a_join_strategy a_join_key a_join_tolerance) in
  (* Restore channel metadata *)
  let! d_meta := Dyn.as_dict (Dyn.get data "channel_metadata" (VDict ∅)) in
  let! a_meta := Dyn.read_items ChannelMetadata.of_val d_meta (channel_metadata df) in
  Ok (with_channel_metadata a_meta df).

End DataFile.

(** A Python [set] of strings: its elements, each once.  The order a loop
    visits them in is not this one: it is [set_order] of this list, for a
    function [set_order] that permutes its argument. *)
Module PySet.

Fixpoint of_list (l : list string) : list string :=
  match l with
  | [] => []
  | x :: l' => x :: filter (λ y, y ≠ x) (of_list l')
  end.

(** [a & b] and [a - b] *)
Definition inter (a b : list string) : list string := filter (λ x, x ∈ b) a.
Definition diff (a b : list string) : list string := filter (λ x, x ∉ b) a.

(** What is asked of an iteration order. *)
Definition is_order (set_order : list string → list string) : Prop :=
  ∀ l, set_order l ≡ₚ l.

End PySet.

Module Test.

Record t : Type := mk {
  id : string;
  name : string;
  description : string;
  data_files : list DataFile.t;
  canonical_headers : list string;
  canonical_metadata : gmap string ChannelMetadata.t;
  primary_time_column : string;
  filter_state : FilterState.t;
  compare_time_offset : pyfloat;
  color : string
}.

(** [Test()], given the identifier [uuid.uuid4()] returns. *)
Definition new (uuid : string) : t :=
  mk uuid "New Test" "" [] [] ∅ "" FilterState.new Float.zero "#1f77b4".

Definition with_data_files (l : list DataFile.t) (self : t) : t :=
  mk (id self) (name self) (description self) l (canonical_headers self)
     (canonical_metadata self) (primary_time_column self) (filter_state self)
     (compare_time_offset self) (color self).

Definition with_canonical (h : list string) (m : gmap string ChannelMetadata.t)
    (self : t) : t :=
  mk (id self) (name self) (description self) (data_files self) h m
     (primary_time_column self) (filter_state self)
     (compare_time_offset self) (color self).

Definition with_filter_state (fs : FilterState.t) (self : t) : t :=
  mk (id self) (name self) (description self) (data_files self)
     (canonical_headers self) (canonical_metadata self)
     (primary_time_column self) fs (compare_time_offset self) (color self).

Section canonical.
Variable set_order : list string → list string.

Definition _update_canonical_headers (self : t) : t :=
  let all_headers :=
    PySet.of_list (List.concat (DataFile.headers <$> data_files self)) in
  (* Preserve order: existing headers first, then new ones *)
  let new_headers :=
    filter (λ h, h ∈ all_headers) (canonical_headers self) in
  let new_headers :=
    foldl (λ acc h, if decide (h ∈ acc) then acc else acc ++ [h])
          new_headers (set_order all_headers) in
  (* Update metadata *)
  let metadata :=
    foldl (λ acc df,
             foldl (λ acc item,
                      match acc !! item.1 with
                      | None => <[item.1 := item.2]> acc
                      | Some _ => acc
                      end)
                   acc (map_to_list (DataFile.channel_metadata df)))
          (canonical_metadata self) (data_files self) in
  with_canonical new_headers metadata self.

Definition add_data_file (self : t) (data_file : DataFile.t) : t :=
  _update_canonical_headers (with_data_files (data_files self ++ [data_file]) self).

(** The list without its first file of the given id, when it has one. *)
Fixpoint pop_first (file_id : string) (l : list DataFile.t)
    : option (list DataFile.t) :=
  match l with
  | [] => None
  | df :: l' =>
      if decide (DataFile.id df = file_id) then Some l'
      else (λ r, df :: r) <$> pop_first file_id l'
  end.

(** [remove_data_file]: the test afterwards, and the value returned. *)
Definition remove_data_file (self : t) (file_id : string) : t * bool :=
  match pop_first file_id (data_files self) with
  | Some l => (_update_canonical_headers (with_data_files l self), true)
  | None => (self, false)
  end.

End canonical.

Definition get_data_file (self : t) (file_id : string) : option DataFile.t :=
  snd <$> list_find (λ df, DataFile.id df = file_id) (data_files self).

(** The copy of a file's table with its plot time. *)
Definition with_plot_time (time_col : string) (df : DataFile.t)
    (frame : DataFrame) : PyResult DataFrame :=
  match index_of time_col (columns frame) with
  | Some i =>
      match DataFile.get_plot_time df with
      | Some plot_time => setitem frame PLOT_TIME plot_time
      | None => setitem frame PLOT_TIME (column_at frame i)
      end
  | None => Ok frame
  end.

(** The default branch: an outer join on the plot time, then the columns
    whose name ends with ["_dup"] are removed. *)
Definition merge_default (result temp_df : DataFrame) : PyResult DataFrame :=
  let! merged := merge_outer result temp_df PLOT_TIME "_dup" in
  Ok (keep_columns (λ c, negb (Str.endswith c "_dup")) merged).

(** Merge based on join strategy *)
Definition merge_step (df : DataFile.t) (result temp_df : DataFrame)
    : PyResult DataFrame :=
  match DataFile.join_strategy df with
  | Some JoinStrategy.APPEND_SEGMENT =>
      Ok (concat result temp_df)
  | Some JoinStrategy.TIME_NEAREST =>
      let! l := sort_values result PLOT_TIME in
      let! r := sort_values temp_df PLOT_TIME in
      merge_asof l r PLOT_TIME (DataFile.join_tolerance df)
  | _ => merge_default result temp_df
  end.

(** One turn of the loop over the files; [result] is [None] until a file
    with a table has been seen. *)
Definition merge_file (time_col : string) (result : option DataFrame)
    (df : DataFile.t) : PyResult (option DataFrame) :=
  match DataFile.dataframe df with
  | None => Ok result
  | Some frame =>
      let! temp_df := with_plot_time time_col df frame in
      match result with
      | None => Ok (Some temp_df)
      | Some res =>
          let! merged := merge_step df res temp_df in
          Ok (Some merged)
      end
  end.

Definition get_merged_dataframe (self : t) (apply_filter : bool)
    : PyResult DataFrame :=
  match data_files self with
  | [] => Ok empty_frame
  | first :: _ =>
      let time_col :=
        if Str.truthy (primary_time_column self) then primary_time_column self
        else DataFile.time_column first in
      let! result := py_foldl (merge_file time_col) None (data_files self) in
      match result with
      | None => Ok empty_frame
      | Some result =>
          (* Sort by time *)
          let! result :=
            (if has_column PLOT_TIME result then sort_values result PLOT_TIME
             else Ok result) in
          (* Apply filter if requested *)
          if apply_filter && FilterState.enabled (filter_state self)
          then Ok (FilterState.apply_to_dataframe (filter_state self) result PLOT_TIME)
          else Ok result
      end
  end.

Definition get_time_range (self : t) : pyfloat * pyfloat :=
  let range :=
    foldl (λ acc df,
             let r := DataFile.get_time_range df in
             (Float.py_min acc.1 r.1, Float.py_max acc.2 r.2))
          (PInf, NInf) (data_files self) in
  if Float.eqb range.1 PInf then (Float.zero, Float.zero) else range.

Definition to_dict (self : t) : gmap string PyVal :=
  list_to_map [
    ("id", VStr (id self));
    ("name", VStr (name self));
    ("description", VStr (description self));
    ("data_files", VList ((λ df, VDict (DataFile.to_dict df)) <$> data_files self));
    ("canonical_headers", Dyn.of_str_list (canonical_headers self));
    ("canonical_metadata",
       VDict ((λ v, VDict (ChannelMetadata.to_dict v)) <$> canonical_metadata self));
    ("primary_time_column", VStr (primary_time_column self));
    ("filter_state", VDict (FilterState.to_dict (filter_state self)));
    ("compare_time_offset", VFloat (compare_time_offset self));
    ("color", VStr (color self))
  ].

(** The files of a persisted test, the [k]-th read with the identifier
    [uuids (S k)] at hand. *)
Fixpoint read_files (uuids : nat → string) (k : nat) (l : list PyVal)
    : PyResult (list DataFile.t) :=
  match l with
  | [] => Ok []
  | v :: l' =>
      let! d := Dyn.as_dict v in
      let! df := DataFile.from_dict (uuids (S k)) d in
      let! rest := read_files uuids (S k) l' in
      Ok (df :: rest)
  end.

(** [from_dict], given the identifiers the calls of [uuid.uuid4()] return:
    [uuids 0] for the test, [uuids (S k)] for its [k]-th file. *)
Definition from_dict (uuids : nat → string) (data : gmap string PyVal)
    : PyResult t :=
  let! a_id := Dyn.as_str (Dyn.get data "id" (VStr (uuids 0%nat))) in
  let! a_name := Dyn.as_str (Dyn.get data "name" (VStr "New Test")) in
  let! a_description := Dyn.as_str (Dyn.get data "description" (VStr "")) in
  let! a_headers :=
    Dyn.as_list Dyn.as_str (Dyn.get data "canonical_headers" (VList [])) in
  let! a_time_column := Dyn.as_str (Dyn.get data "primary_time_column" (VStr "")) in
  let! a_offset :=
    Dyn.as_float (Dyn.get data "compare_time_offset" (VFloat Float.zero)) in
  let! a_color := Dyn.as_str (Dyn.get data "color" (VStr "#1f77b4")) in
  let test :=
    mk a_id a_name a_description [] a_headers ∅ a_time_column FilterState.new
       a_offset a_color in
  (* Restore data files *)
  let! a_files :=
    match Dyn.get data "data_files" (VList []) with
    | VList l => read_files uuids 0 l
    | _ => Raise TypeError
    end in
  let test := with_data_files (data_files test ++ a_files) test in
  (* Restore metadata *)
  let! d_meta := Dyn.as_dict (Dyn.get data "canonical_metadata" (VDict ∅)) in
  let! a_meta :=
    Dyn.read_items ChannelMetadata.of_val d_meta (canonical_metadata test) in
  let test := with_canonical (canonical_headers test) a_meta test in
  (* Restore filter state *)
  match data !! "filter_state" with
  | Some v =>
      let! d := Dyn.as_dict v in
      let! fs := FilterState.from_dict d in
      Ok (with_filter_state fs test)
  | None => Ok test
  end.

End Test.

Module HeaderDiff.

Record t : Type := mk {
  missing : list string;
  extra : list string;
  matched : list string;
  fuzzy_matches : gmap string string
}.

Definition has_differences (self : t) : bool :=
  bool_decide (missing self ≠ []) || bool_decide (extra self ≠ []).

End HeaderDiff.

(** ** io_handler.py *)

Section header_diff.

(** The order a set of headers is iterated in, and
    [rapidfuzz.fuzz.token_sort_ratio], a score between 0 and 100. *)
Variable set_order : list string → list string.
Variable token_sort_ratio : string → string → Q.

Definition Qlt_bool (a b : Q) : bool := negb (Qle_bool b a).

(** The inner loop of [compute_header_diff]: [(best_match, best_score)]
    after the missing headers have been tried in turn. *)
Definition best_candidate (fuzzy_threshold : Z) (extra_h : string)
    (missing : list string) : option string * Q :=
  foldl (λ best missing_h,
           (* Use token sort ratio for better matching *)
           let score := token_sort_ratio (Str.lower extra_h) (Str.lower missing_h) in
           if Qlt_bool best.2 score && Qle_bool (inject_Z fuzzy_threshold) score
           then (Some missing_h, score)
           else best)
        (None, 0%Q) missing.

Definition compute_header_diff (test_headers file_headers : list string)
    (fuzzy_threshold : Z) : HeaderDiff.t :=
  let test_set := PySet.of_list test_headers in
  let file_set := PySet.of_list file_headers in
  let matched := set_order (PySet.inter test_set file_set) in
  let missing := set_order (PySet.diff test_set file_set) in
  let extra := set_order (PySet.diff file_set test_set) in
  (* Find fuzzy matches for extra headers *)
  let fuzzy_matches :=
    foldl (λ acc extra_h,
             match (best_candidate fuzzy_threshold extra_h missing).1 with
             | Some best_match =>
                 if Str.truthy best_match then <[extra_h := best_match]> acc
                 else acc
             | None => acc
             end)
          (∅ : gmap string string) extra in
  HeaderDiff.mk (Str.sorted missing) (Str.sorted extra) (Str.sorted matched)
                fuzzy_matches.

End header_diff.

(** What the inner loop of [compute_header_diff] has found after the
    missing headers [l]: a highest-scoring one, at or above the threshold
    and above zero, or none when no header scores that well. *)
Definition best_found (token_sort_ratio : string → string → Q)
    (fuzzy_threshold : Z) (extra_h : string) (l : list string)
    (best : option string * Q) : Prop :=
  let score m := token_sort_ratio (Str.lower extra_h) (Str.lower m) in
  match best.1 with
  | Some b =>
      b ∈ l ∧ best.2 = score b
      ∧ (inject_Z fuzzy_threshold <= score b)%Q ∧ (0 < score b)%Q
      ∧ ∀ m, m ∈ l → (score m <= score b)%Q
  | None =>
      best.2 = 0%Q
      ∧ ∀ m, m ∈ l → ¬ ((0 < score m)%Q ∧ (inject_Z fuzzy_threshold <= score m)%Q)
  end.

(** ** merge_handler.py *)

Module DataMerger.

(** [merge_on_alternative_key] with the default [how="outer"]. *)
Definition merge_on_alternative_key (base_df new_df : DataFrame)
    (key_column : string) : PyResult DataFrame :=
  (* Handle duplicate columns *)
  let new_cols :=
    key_column
    :: filter (λ col, col ≠ key_column ∧ col ∉ columns base_df) (columns new_df) in
  let! new_df_filtered := select_columns new_df new_cols in
  merge_outer base_df new_df_filtered key_column "_y".

End DataMerger.

(** [enumerate(l)] *)
Definition enumerate {A} (l : list A) : list (nat * A) :=
  zip (seq 0 (length l)) l.

Module TestComparer.

Record t : Type := mk {
  mode : CompareMode.t;
  gap : pyfloat
}.

(** Select only needed columns *)
Definition cols_to_keep (df : DataFrame) (selected_channels : list string)
    : list string :=
  PLOT_TIME :: filter (λ ch, ch ∈ columns df) selected_channels.

(** One turn of the loop of the concatenate mode, on the dictionary built
    so far and the cumulative offset. *)
Definition concatenate_step (self : t) (selected_channels : list string)
    (state : gmap string DataFrame * pyfloat) (item : nat * Test.t)
    : PyResult (gmap string DataFrame * pyfloat) :=
  let '(result, cumulative_offset) := state in
  let '(i, test) := item in
  let! df := Test.get_merged_dataframe test true in
  if Pandas.empty df then Ok (result, cumulative_offset)
  else
    let! df_copy := select_columns df (cols_to_keep df selected_channels) in
    let! df_copy :=
      (if decide (0 < i)%nat then
         (* Apply cumulative offset *)
         let! plot_time := getitem df_copy PLOT_TIME in
         setitem df_copy PLOT_TIME
                 (map (λ x, Float.add x cumulative_offset) plot_time)
       else Ok df_copy) in
    (* Store the prepared dataframe *)
    let result := <[Test.id test := df_copy]> result in
    (* Update cumulative offset for next test *)
    match index_of PLOT_TIME (columns df_copy) with
    | Some k =>
        let end_time := Float.series_max (column_at df_copy k) in
        Ok (result, Float.add end_time (gap self))
    | None => Ok (result, cumulative_offset)
    end.

Definition overlay_step (selected_channels : list string)
    (result : gmap string DataFrame) (test : Test.t)
    : PyResult (gmap string DataFrame) :=
  let! df := Test.get_merged_dataframe test true in
  if Pandas.empty df then Ok result
  else
    let! df_copy := select_columns df (cols_to_keep df selected_channels) in
    Ok (<[Test.id test := df_copy]> result).

Definition prepare_tests_for_comparison (self : t) (tests : list Test.t)
    (selected_channels : list string) : PyResult (gmap string DataFrame) :=
  match mode self with
  | CompareMode.OVERLAY =>
      py_foldl (overlay_step selected_channels) ∅ tests
  | CompareMode.CONCATENATE =>
      let! final :=
        py_foldl (concatenate_step self selected_channels)
                 (∅, Float.zero) (enumerate tests) in
      Ok final.1
  end.

Definition get_combined_time_range (self : t) (tests : list Test.t)
    : pyfloat * pyfloat :=
  match tests with
  | [] => (Float.zero, Float.one)
  | _ =>
      match mode self with
      | CompareMode.OVERLAY =>
          foldl (λ acc test,
                   let r := Test.get_time_range test in
                   (Float.py_min acc.1 r.1, Float.py_max acc.2 r.2))
                (PInf, NInf) tests
      | CompareMode.CONCATENATE =>
          let cumulative :=
            foldl (λ cumulative item,
                     let r := Test.get_time_range item.2 in
                     let duration := Float.sub r.2 r.1 in
                     let cumulative :=
                       if decide (0 < item.1)%nat
                       then Float.add cumulative (gap self)
                       else cumulative in
                     Float.add cumulative duration)
                  Float.zero (enumerate tests) in
          (Float.zero, cumulative)
      end
  end.

End TestComparer.

Section add_headers.
Variable set_order : list string → list string.

Definition add_headers_file_to_test (test : Test.t) (new_file : DataFile.t)
    (join_strategy : JoinStrategy.t) (join_key : option string)
    (join_tolerance : pyfloat) : Test.t :=
  (* Set join parameters on the new file *)
  let new_file :=
    DataFile.with_join (Some join_strategy) join_key join_tolerance new_file in
  (* Add file to test *)
  Test.add_data_file set_order test new_file.

End add_headers.

(** ** filter_manager.py *)

Module FilterManager.

(** The registry of tests; the signals and listeners are not modelled. *)
Record t : Type := mk {
  _tests : gmap string Test.t
}.

Definition register_test (self : t) (test : Test.t) : t :=
  mk (<[Test.id test := test]> (_tests self)).

Definition unregister_test (self : t) (test_id : string) : t :=
  mk (delete test_id (_tests self)).

Definition get_test (self : t) (test_id : string) : option Test.t :=
  _tests self !! test_id.

(** The body of the loop of [get_filtered_channels]: [false] where the
    source runs [continue]. *)
Definition channel_passes (test : Test.t) (ch : string) : bool :=
  let fs := Test.filter_state test in
  let meta := Test.canonical_metadata test !! ch in
  (* Text search filter *)
  let text_continue :=
    if Str.truthy (FilterState.text_search fs) then
      if negb (Str.contains (Str.lower (FilterState.text_search fs)) (Str.lower ch))
      then
        (* Check display name too *)
        match meta with
        | Some m =>
            negb (Str.contains (Str.lower (FilterState.text_search fs))
                               (Str.lower (ChannelMetadata.display_name m)))
        | None => false
        end
      else false
    else false in
  (* Category filter *)
  let category_continue :=
    if bool_decide (FilterState.category_filter fs ≠ []) then
      match meta with
      | Some m =>
          bool_decide (ChannelMetadata.category m ∉ FilterState.category_filter fs)
      | None => false
      end
    else false in
  (* Unit filter *)
  let unit_continue :=
    if bool_decide (FilterState.unit_filter fs ≠ []) then
      match meta with
      | Some m =>
          bool_decide (ChannelMetadata.unit m ∉ FilterState.unit_filter fs)
      | None => false
      end
    else false in
  negb text_continue && negb category_continue && negb unit_continue.

Definition get_filtered_channels (self : t) (test_id : string)
    (all_channels : list string) : list string :=
  match _tests self !! test_id with
  | None => all_channels
  | Some test => filter (λ ch, channel_passes test ch = true) all_channels
  end.

End FilterManager.

(** ** The specification's wording

    Definitions that follow the specification's sentences, to be compared
    with the functions above. *)

Module Spec.

(** Step (1) of the time pipeline: the mode transform. *)
Definition mode_transform (mode : TimeMode.t) (raw : list pyfloat) : list pyfloat :=
  match mode with
  | TimeMode.ABSOLUTE => raw
  | TimeMode.RELATIVE =>
      match raw with
      | [] => []
      | first :: _ => map (λ x, Float.sub x first) raw
      end
  | TimeMode.CUSTOM_OFFSET => raw
  end.

(** Steps (2) and (3): add the offset, multiply by the scale. *)
Definition add_offset (offset : pyfloat) (l : list pyfloat) : list pyfloat :=
  map (λ x, Float.add x offset) l.
Definition apply_scale (scale : pyfloat) (l : list pyfloat) : list pyfloat :=
  map (λ x, Float.mul x scale) l.

Definition time_pipeline (mode : TimeMode.t) (offset scale : pyfloat)
    (raw : list pyfloat) : list pyfloat :=
  apply_scale scale (add_offset offset (mode_transform mode raw)).

(** No value of [l] is missing. *)
Definition no_nan (l : list pyfloat) : Prop :=
  Forall (λ x, Float.isnan x = false) l.

(** [lo] is a least and [hi] a greatest element of [l]. *)
Definition is_min_max (l : list pyfloat) (lo hi : pyfloat) : Prop :=
  lo ∈ l ∧ hi ∈ l ∧ ∀ x, x ∈ l → Float.le lo x = true ∧ Float.le x hi = true.

(** [value >= lo] if [lo] is set, and [value <= hi] if [hi] is set. *)
Definition in_range (lo hi : option pyfloat) (value : pyfloat) : bool :=
  match lo with Some v => Float.ge value v | None => true end
  && match hi with Some v => Float.le value v | None => true end.

(** The conjunction a row has to satisfy to survive the filter: the time
    window on the time column, and the range of every declared channel
    filter whose channel is a column of the table. *)
Definition row_passes (fs : FilterState.t) (cols : list string)
    (time_column : string) (r : list pyfloat) : Prop :=
  (∀ i, index_of time_column cols = Some i →
        in_range (FilterState.time_min fs) (FilterState.time_max fs) (cell r i) = true)
  ∧ (∀ channel lo hi i,
        FilterState.channel_filters fs !! channel = Some (lo, hi) →
        index_of channel cols = Some i →
        in_range lo hi (cell r i) = true).

(** The same conjunction, as the test the filter runs on a row. *)
Definition row_passes_b (fs : FilterState.t) (cols : list string)
    (time_column : string) (r : list pyfloat) : bool :=
  match index_of time_column cols with
  | Some i => in_range (FilterState.time_min fs) (FilterState.time_max fs) (cell r i)
  | None => true
  end
  && forallb (λ item : string * (option pyfloat * option pyfloat),
                match index_of item.1 cols with
                | Some i => in_range item.2.1 item.2.2 (cell r i)
                | None => true
                end)
             (map_to_list (FilterState.channel_filters fs)).

(** The three predicates of the channel picker. *)
Definition text_ok (test : Test.t) (ch : string) : bool :=
  let text := FilterState.text_search (Test.filter_state test) in
  if decide (text = "") then true
  else Str.contains (Str.lower text) (Str.lower ch)
       || match Test.canonical_metadata test !! ch with
          | Some m => Str.contains (Str.lower text)
                                   (Str.lower (ChannelMetadata.display_name m))
          | None => false
          end.

Definition category_ok (test : Test.t) (ch : string) : bool :=
  let allowed := FilterState.category_filter (Test.filter_state test) in
  if decide (allowed = []) then true
  else match Test.canonical_metadata test !! ch with
       | Some m => bool_decide (ChannelMetadata.category m ∈ allowed)
       | None => false
       end.

Definition unit_ok (test : Test.t) (ch : string) : bool :=
  let allowed := FilterState.unit_filter (Test.filter_state test) in
  if decide (allowed = []) then true
  else match Test.canonical_metadata test !! ch with
       | Some m => bool_decide (ChannelMetadata.unit m ∈ allowed)
       | None => false
       end.

Definition channel_ok (test : Test.t) (ch : string) : bool :=
  text_ok test ch && category_ok test ch && unit_ok test ch.

(** The headers of the member files, each once, in first-seen order. *)
Definition first_seen (files : list DataFile.t) : list string :=
  PySet.of_list (List.concat (DataFile.headers <$> files)).

(** [h] is a header of one of the files. *)
Definition in_union (files : list DataFile.t) (h : string) : Prop :=
  ∃ df, df ∈ files ∧ h ∈ DataFile.headers df.

End Spec.


(** The time column of a merge: the primary one of the test, or that of the
    first file when the test has none. *)
Definition time_col_of (t : Test.t) (first : DataFile.t) : string :=
  if Str.truthy (Test.primary_time_column t) then Test.primary_time_column t
  else DataFile.time_column first.

(** The table of a file as the merge sees it: its table, with the plot
    time when the time column is there. *)
Definition plot_table (time_col : string) (df : DataFile.t) : option DataFrame :=
  match DataFile.dataframe df with
  | Some frame =>
      match Test.with_plot_time time_col df frame with
      | Ok temp_df => Some temp_df
      | Raise _ => None
      end
  | None => None
  end.

Definition plot_tables (t : Test.t) : list DataFrame :=
  match Test.data_files t with
  | [] => []
  | first :: _ => omap (plot_table (time_col_of t first)) (Test.data_files t)
  end.

(** What a file brings to the merge, in the words of the statement about
    the merge: its own table, which gets a [_plot_time_] column only when the
    time column of the merge is a column of the table.  The column then
    holds the times of the file after its time pipeline, or the values of
    the time column of the merge as they are when the file's own time column
    is not a column of the table.  Nothing here goes through
    [Test.with_plot_time]. *)
Module MergeSpec.





End MergeSpec.


(** The value a row over the labels [cols] has under the label [c]: missing
    when there is no such column. *)
Definition value (cols : list string) (r : list pyfloat) (c : string) : pyfloat :=
  match index_of c cols with
  | Some i => cell r i
  | None => NaN
  end.



(** The test with the join key of each file replaced by [key_of] of it. *)
Definition with_join_keys (key_of : DataFile.t → option string) (t : Test.t)
    : Test.t :=
  Test.with_data_files
    ((λ df, DataFile.with_join (DataFile.join_strategy df) (key_of df)
                               (DataFile.join_tolerance df) df)
       <$> Test.data_files t) t.

(** [enumerate(l, start=k)] *)
Definition enumerate_from {A} (k : nat) (l : list A) : list (nat * A) :=
  zip (seq k (length l)) l.

(** A membership change of a test, and a sequence of them. *)
Inductive TestOp : Type :=
| AddFile (data_file : DataFile.t)
| RemoveFile (file_id : string).

Definition apply_op (set_order : list string → list string) (t : Test.t)
    (op : TestOp) : Test.t :=
  match op with
  | AddFile data_file => Test.add_data_file set_order t data_file
  | RemoveFile file_id => (Test.remove_data_file set_order t file_id).1
  end.

Definition run_ops (set_order : list string → list string) (t : Test.t)
    (ops : list TestOp) : Test.t :=
  foldl (apply_op set_order) t ops.

(** The canonical headers are the union of the headers of the member files,
    each once. *)
Definition canonical_invariant (t : Test.t) : Prop :=
  NoDup (Test.canonical_headers t)
  ∧ ∀ h, h ∈ Test.canonical_headers t ↔ Spec.in_union (Test.data_files t) h.

(** The headers that stay keep their order and come first; the headers
    after them are new ones. *)
Definition keeps_order (before after : Test.t) : Prop :=
  ∃ added,
    Test.canonical_headers after
    = filter (λ h, h ∈ Spec.first_seen (Test.data_files after))
             (Test.canonical_headers before) ++ added
    ∧ ∀ h, h ∈ added → h ∉ Test.canonical_headers before.

(** ** rapidfuzz

    [rapidfuzz.fuzz.token_sort_ratio], for the places that need a scorer to
    run: the words of each string are sorted and joined by a space, and the
    score is [100 * 2 * lcs / (len1 + len2)], the normalized Indel
    similarity of the two results (100 for two empty strings). *)

Module RapidFuzz.

Definition is_space (c : ascii) : bool :=
  let n := nat_of_ascii c in
  bool_decide (n = 32 ∨ 9 ≤ n ≤ 13)%nat.

(** [s.split()] *)
Fixpoint split_from (word s : string) : list string :=
  match s with
  | EmptyString => if Str.truthy word then [word] else []
  | String c s' =>
      if is_space c then
        if Str.truthy word then word :: split_from "" s' else split_from "" s'
      else split_from (word +:+ String c EmptyString) s'
  end.

Definition split (s : string) : list string := split_from "" s.

(** One row of the table of longest common subsequences: from the row of
    a prefix to the row of the prefix extended by [x]. *)
Fixpoint next_row (x : ascii) (b : list ascii) (prev : list nat) (left : nat)
    : list nat :=
  match b, prev with
  | y :: b', up_left :: ((up :: _) as prev') =>
      let v := if decide (x = y) then S up_left else Nat.max up left in
      v :: next_row x b' prev' v
  | _, _ => []
  end.

Definition lcs (a b : list ascii) : nat :=
  List.last (foldl (λ row x, 0%nat :: next_row x b row 0)
                   (replicate (S (length b)) 0%nat) a) 0%nat.

Definition ratio (s1 s2 : string) : Q :=
  let total := (String.length s1 + String.length s2)%nat in
  if decide (total = 0%nat) then 100%Q
  else Qmake (200 * Z.of_nat (lcs (list_ascii_of_string s1) (list_ascii_of_string s2)))
             (Pos.of_nat total).

Definition token_sort_ratio (s1 s2 : string) : Q :=
  ratio (String.concat " " (Str.sorted (split s1)))
        (String.concat " " (Str.sorted (split s2))).

End RapidFuzz.

(** ** Concrete inputs

    The tests, files and tables the examples below are run on. *)

Module Examples.

Definition tolerance : pyfloat := Fin (1 # 1000).

(** A file with the default settings of [DataFile()] around a table. *)
Definition file (id_ : string) (headers : list string) (frame : option DataFrame)
    (time_column : string) (mode : TimeMode.t)
    (strategy : option JoinStrategy.t) (key : option string) : DataFile.t :=
  DataFile.mk id_ (id_ +:+ ".csv") (id_ +:+ ".csv") "," "utf-8" headers ∅ frame
              time_column mode Float.zero Float.one strategy key tolerance.

(** A test holding [files], with the default filter. *)
Definition test (id_ : string) (files : list DataFile.t) (time_column : string)
    : Test.t :=
  Test.mk id_ "Test" "" files [] ∅ time_column FilterState.new Float.zero "#1f77b4".

(** *** Time and filter *)

(** A file whose time runs from 100 to 102, read relative to its start,
    moved by 2 and scaled by 1000. *)
Definition clock_table : DataFrame :=
  mkDataFrame ["Time"; "Temp"]
    [[Float.of_Z 100; Float.of_Z 20]; [Float.of_Z 101; Float.of_Z 21];
     [Float.of_Z 102; Float.of_Z 22]].
Definition clock_file : DataFile.t :=
  DataFile.mk "clock" "clock.csv" "clock.csv" "," "utf-8" ["Time"; "Temp"] ∅
    (Some clock_table) "Time" TimeMode.RELATIVE (Float.of_Z 2) (Float.of_Z 1000)
    None None tolerance.

(** A time window from 101 on, a temperature of at most 21, and a range
    for a channel the table does not have. *)
Definition window : FilterState.t :=
  FilterState.mk (Some (Float.of_Z 101)) None
    (list_to_map [("Temp", (None, Some (Float.of_Z 21)));
                  ("Volt", (Some (Float.of_Z 5), None))])
    "" [] [] true.

(** *** The channel picker *)

Definition search (text : string) (categories units : list string) : FilterState.t :=
  FilterState.mk None None ∅ text categories units true.

(** A test with no channel metadata, searched for ["xyz"]. *)
Definition bare_test : Test.t :=
  Test.mk "t1" "Test" "" [] ["abc"] ∅ "" (search "xyz" [] []) Float.zero "#1f77b4".

Definition bare_manager : FilterManager.t :=
  FilterManager.register_test (FilterManager.mk ∅) bare_test.

(** A test whose two channels have metadata, searched for ["temp"] among
    the temperatures. *)
Definition described_test : Test.t :=
  Test.mk "t2" "Test" "" [] ["TC_1 [C]"; "P_in [bar]"]
    (list_to_map [
       ("TC_1 [C]", ChannelMetadata.mk "TC_1 [C]" "Temp 1" "degC" "Temperature" "");
       ("P_in [bar]", ChannelMetadata.mk "P_in [bar]" "P in" "bar" "Pressure" "")])
    "" (search "TEMP" ["Temperature"] []) Float.zero "#1f77b4".

Definition described_manager : FilterManager.t :=
  FilterManager.register_test (FilterManager.mk ∅) described_test.

(** *** Membership changes *)

Definition file_a : DataFile.t :=
  file "f1" ["a"] None "" TimeMode.RELATIVE None None.
Definition file_ca : DataFile.t :=
  file "f2" ["c"; "a"] None "" TimeMode.RELATIVE None None.

Definition add_add_remove : list TestOp :=
  [AddFile file_a; AddFile file_ca; RemoveFile "f1"].

(** *** Merging *)

Definition q (z : Z) : pyfloat := Float.of_Z z.

(** A base file with a time column and a temperature. *)
Definition base_table : DataFrame :=
  mkDataFrame ["Time"; "Temp"] [[q 0; q 20]; [q 1; q 21]; [q 2; q 22]].
Definition base_file : DataFile.t :=
  file "base" ["Time"; "Temp"] (Some base_table) "Time" TimeMode.ABSOLUTE None None.

(** A file whose table has no time column. *)
Definition untimed_table : DataFrame :=
  mkDataFrame ["Volt"] [[q 12]; [q 13]].
Definition untimed_file (strategy : option JoinStrategy.t) : DataFile.t :=
  file "untimed" ["Volt"] (Some untimed_table) "Time" TimeMode.ABSOLUTE strategy None.




(** Two files that share a key column ["ID"], the second one added with
    the strategy ALTERNATIVE_KEY on it. *)
Definition keyed_base_table : DataFrame :=
  mkDataFrame ["ID"; "Time"; "A"] [[q 1; q 0; q 10]; [q 2; q 1; q 20]].
Definition keyed_new_table : DataFrame :=
  mkDataFrame ["ID"; "Time"; "B"] [[q 2; q 5; q 200]; [q 1; q 6; q 100]].
Definition keyed_base_file : DataFile.t :=
  file "k1" ["ID"; "Time"; "A"] (Some keyed_base_table) "Time" TimeMode.ABSOLUTE
       None None.
Definition keyed_new_file : DataFile.t :=
  file "k2" ["ID"; "Time"; "B"] (Some keyed_new_table) "Time" TimeMode.ABSOLUTE
       (Some JoinStrategy.ALTERNATIVE_KEY) (Some "ID").

Definition keyed_test : Test.t :=
  test "t5" [keyed_base_file; keyed_new_file] "Time".

(** The two tables with their plot time, as the merge sees them. *)
Definition keyed_base_plot : DataFrame :=
  mkDataFrame ["ID"; "Time"; "A"; "_plot_time_"]
    [[q 1; q 0; q 10; q 0]; [q 2; q 1; q 20; q 1]].
Definition keyed_new_plot : DataFrame :=
  mkDataFrame ["ID"; "Time"; "B"; "_plot_time_"]
    [[q 2; q 5; q 200; q 5]; [q 1; q 6; q 100; q 6]].

(** *** Comparison *)

Definition run_table (duration : Z) : DataFrame :=
  mkDataFrame ["Time"; "Channel_A"] [[q 0; q 1]; [q duration; q 2]].
Definition run_test (id_ : string) (duration : Z) : Test.t :=
  test id_ [file (id_ +:+ "_file") ["Time"; "Channel_A"]
                 (Some (run_table duration)) "Time" TimeMode.RELATIVE None None]
       "Time".

(** A test of 10 seconds, a test with no file, a test of 8 seconds. *)
Definition test_10 : Test.t := run_test "A" 10.
Definition test_none : Test.t := test "E" [] "".
Definition test_8 : Test.t := run_test "B" 8.

Definition concatenate_gap_1 : TestComparer.t :=
  TestComparer.mk CompareMode.CONCATENATE (q 1).

End Examples.
(** ** models.py, continued

    The methods of [DataFile] and [Test] that read a channel or group the
    channels. *)

Module DataFileData.

(** [get_channel_data]: the values of a channel, as they are in the table. *)
Definition get_channel_data (self : DataFile.t) (channel : string)
    : option (list pyfloat) :=
  match DataFile.dataframe self with
  | None => None
  | Some frame =>
      match index_of channel (columns frame) with
      | Some i => Some (column_at frame i)
      | None => None
      end
  end.

End DataFileData.

Module TestChannels.

(** The category and the unit [get_channels_by_category] files a header
    under: those of its metadata, with ["Unknown"] and ["No Unit"] for an
    empty one and for a header without metadata. *)
Definition group_of (self : Test.t) (header : string) : string * string :=
  match Test.canonical_metadata self !! header with
  | Some meta =>
      (if Str.truthy (ChannelMetadata.category meta)
       then ChannelMetadata.category meta else "Unknown",
       if Str.truthy (ChannelMetadata.unit meta)
       then ChannelMetadata.unit meta else "No Unit")
  | None => ("Unknown", "No Unit")
  end.

(** One turn of the loop over the canonical headers. *)
Definition file_header (self : Test.t)
    (result : gmap string (gmap string (list string))) (header : string)
    : gmap string (gmap string (list string)) :=
  let '(category, unit) := group_of self header in
  let result :=
    if decide (result !! category = None) then <[category := ∅]> result
    else result in
  let units := default ∅ (result !! category) in
  let units :=
    if decide (units !! unit = None) then <[unit := []]> units else units in
  let units := <[unit := default [] (units !! unit) ++ [header]]> units in
  <[category := units]> result.

(** [get_channels_by_category]: category -> unit -> channel names. *)
Definition get_channels_by_category (self : Test.t)
    : gmap string (gmap string (list string)) :=
  foldl (file_header self) ∅ (Test.canonical_headers self).

End TestChannels.

(** The channels [get_channels_by_category] lists under a category and a
    unit. *)
Definition channels_under (groups : gmap string (gmap string (list string)))
    (category unit : string) : option (list string) :=
  groups !! category ≫= λ units, units !! unit.

(** [get_data_file] on a list of files: the first file of the given id. *)
Definition find_file (file_id : string) (l : list DataFile.t) : option DataFile.t :=
  snd <$> list_find (λ df, DataFile.id df = file_id) l.

(** Both ends of a time range are finite numbers. *)
Definition finite_range (r : pyfloat * pyfloat) : Prop :=
  ∃ a b, r = (Fin a, Fin b).

(** The rows are in the order [sort_values] gives them by the column at
    position [i]: ascending, missing values last. *)
Definition sorted_by (i : nat) (l : list (list pyfloat)) : Prop :=
  StronglySorted (λ a b, key_le (cell a i) (cell b i) = true) l.

(** ** merge_handler.py, continued *)

Module TimeAligner.

(** [compute_relative_time]: the times counted from [reference_start], or
    from the first value when [reference_start] is 0.0 (the default). *)
Definition compute_relative_time (time_data : list pyfloat)
    (reference_start : pyfloat) : list pyfloat :=
  match time_data with
  | [] => time_data
  | first :: _ =>
      let start :=
        if negb (Float.eqb reference_start Float.zero) then reference_start
        else first in
      map (λ x, Float.sub x start) time_data
  end.

Definition apply_offset (time_data : list pyfloat) (offset : pyfloat)
    : list pyfloat :=
  map (λ x, Float.add x offset) time_data.

Definition apply_scale (time_data : list pyfloat) (scale : pyfloat)
    : list pyfloat :=
  map (λ x, Float.mul x scale) time_data.

End TimeAligner.

(** The time-based merges of [DataMerger], and the append. *)
Module DataMergerTime.

(** [merge_on_time_nearest] with the default [direction="nearest"]. *)
Definition merge_on_time_nearest (base_df new_df : DataFrame)
    (time_column : string) (tolerance : pyfloat) : PyResult DataFrame :=
  (* Ensure both dataframes are sorted by time *)
  let! base_sorted := sort_values base_df time_column in
  let! new_sorted := sort_values new_df time_column in
  (* Handle duplicate columns (except time) *)
  let new_cols :=
    filter (λ col, col = time_column ∨ col ∉ columns base_sorted)
           (columns new_sorted) in
  let! new_sorted := select_columns new_sorted new_cols in
  (* Perform merge_asof *)
  merge_asof base_sorted new_sorted time_column tolerance.

Definition merge_on_time_exact (base_df new_df : DataFrame)
    (time_column : string) : PyResult DataFrame :=
  (* Handle duplicate columns *)
  let new_cols :=
    time_column
    :: filter (λ col, col ≠ time_column ∧ col ∉ columns base_df) (columns new_df) in
  let! new_df_filtered := select_columns new_df new_cols in
  let! merged := merge_outer base_df new_df_filtered time_column "_y" in
  sort_values merged time_column.


End DataMergerTime.

(** The columns a merge that lets the base win adds to those of the base:
    the columns of the new table the base does not have, the key apart. *)
Definition added_columns (base_df new_df : DataFrame) (key : string)
    : list string :=
  filter (λ c, c ≠ key ∧ c ∉ columns base_df) (columns new_df).


(** The table [prepare_tests_for_comparison] makes of a merged table: the
    plot time and the selected channels the table has. *)
Definition prepared_table (df : DataFrame) (selected_channels : list string)
    : DataFrame :=
  let cols := TestComparer.cols_to_keep df selected_channels in
  mkDataFrame cols (map (reindex (columns df) cols) (rows df)).

(** ** filter_manager.py, continued

    The methods of [FilterManager] that read and change the filter of a
    registered test.  A change emits the Qt signals [filter_changed] and
    [any_filter_changed] and then calls the listeners, in the order they
    were added; what is emitted is returned beside the new state.  The
    slots and listeners are taken to return normally and to leave the
    manager alone.  A listener is a value of a type [L] with a decidable
    equality (the [==] of the callables). *)

Module FilterSignals.

Section listeners.
Context {L : Type} `{EqDecision L}.

Inductive Emitted : Type :=
| filter_changed (test_id : string)
| any_filter_changed
| called (listener : L) (test_id : string).

(** A manager: the registry of tests and the listeners. *)
Record t : Type := mk {
  manager : FilterManager.t;
  _listeners : list L
}.

Definition get_filter_state (self : t) (test_id : string)
    : option FilterState.t :=
  match FilterManager._tests (manager self) !! test_id with
  | Some test => Some (Test.filter_state test)
  | None => None
  end.

Definition _emit_change (self : t) (test_id : string) : list Emitted :=
  [filter_changed test_id; any_filter_changed]
  ++ map (λ listener, called listener test_id) (_listeners self).

(** The shape of the setters: the filter state of the test is changed,
    when the test is registered, and the change is emitted. *)
Definition change_filter (self : t) (test_id : string)
    (change : FilterState.t → FilterState.t) : t * list Emitted :=
  match FilterManager._tests (manager self) !! test_id with
  | Some test =>
      let test := Test.with_filter_state (change (Test.filter_state test)) test in
      (mk (FilterManager.mk (<[test_id := test]> (FilterManager._tests (manager self))))
          (_listeners self),
       _emit_change self test_id)
  | None => (self, [])
  end.

Definition set_time_range (self : t) (test_id : string)
    (time_min time_max : option pyfloat) : t * list Emitted :=
  change_filter self test_id (λ fs,
    FilterState.mk time_min time_max (FilterState.channel_filters fs)
      (FilterState.text_search fs) (FilterState.category_filter fs)
      (FilterState.unit_filter fs) (FilterState.enabled fs)).

Definition set_channel_filter (self : t) (test_id : string) (channel : string)
    (min_val max_val : option pyfloat) : t * list Emitted :=
  change_filter self test_id (λ fs,
    let channel_filters :=
      match min_val, max_val with
      | None, None =>
          (* Remove filter if both are None *)
          delete channel (FilterState.channel_filters fs)
      | _, _ => <[channel := (min_val, max_val)]> (FilterState.channel_filters fs)
      end in
    FilterState.mk (FilterState.time_min fs) (FilterState.time_max fs)
      channel_filters (FilterState.text_search fs)
      (FilterState.category_filter fs) (FilterState.unit_filter fs)
      (FilterState.enabled fs)).

Definition set_text_search (self : t) (test_id : string) (search_text : string)
    : t * list Emitted :=
  change_filter self test_id (λ fs,
    FilterState.mk (FilterState.time_min fs) (FilterState.time_max fs)
      (FilterState.channel_filters fs) search_text
      (FilterState.category_filter fs) (FilterState.unit_filter fs)
      (FilterState.enabled fs)).

Definition set_category_filter (self : t) (test_id : string)
    (categories : list string) : t * list Emitted :=
  change_filter self test_id (λ fs,
    FilterState.mk (FilterState.time_min fs) (FilterState.time_max fs)
      (FilterState.channel_filters fs) (FilterState.text_search fs)
      categories (FilterState.unit_filter fs) (FilterState.enabled fs)).

Definition set_unit_filter (self : t) (test_id : string) (units : list string)
    : t * list Emitted :=
  change_filter self test_id (λ fs,
    FilterState.mk (FilterState.time_min fs) (FilterState.time_max fs)
      (FilterState.channel_filters fs) (FilterState.text_search fs)
      (FilterState.category_filter fs) units (FilterState.enabled fs)).

Definition set_filter_enabled (self : t) (test_id : string) (enabled : bool)
    : t * list Emitted :=
  change_filter self test_id (λ fs,
    FilterState.mk (FilterState.time_min fs) (FilterState.time_max fs)
      (FilterState.channel_filters fs) (FilterState.text_search fs)
      (FilterState.category_filter fs) (FilterState.unit_filter fs) enabled).

Definition clear_filters (self : t) (test_id : string) : t * list Emitted :=
  change_filter self test_id (λ _, FilterState.new).

Definition apply_filter_to_dataframe (self : t) (test_id : string)
    (df : DataFrame) (time_column : string) : DataFrame :=
  match get_filter_state self test_id with
  | None => df
  | Some filter_state =>
      if negb (FilterState.enabled filter_state) then df
      else FilterState.apply_to_dataframe filter_state df time_column
  end.

Definition add_listener (self : t) (callback : L) : t :=
  mk (manager self) (_listeners self ++ [callback]).

(** [list.remove]: the list without the first element equal to [x]. *)
Fixpoint remove_first (x : L) (l : list L) : list L :=
  match l with
  | [] => []
  | y :: l' => if decide (y = x) then l' else y :: remove_first x l'
  end.

Definition remove_listener (self : t) (callback : L) : t :=
  if decide (callback ∈ _listeners self)
  then mk (manager self) (remove_first callback (_listeners self))
  else self.

(** A call of one of the setters, and its effect. *)
Inductive Setter : Type :=
| SetTimeRange (time_min time_max : option pyfloat)
| SetChannelFilter (channel : string) (min_val max_val : option pyfloat)
| SetTextSearch (search_text : string)
| SetCategoryFilter (categories : list string)
| SetUnitFilter (units : list string)
| SetFilterEnabled (enabled : bool)
| ClearFilters.

Definition call (self : t) (test_id : string) (setter : Setter)
    : t * list Emitted :=
  match setter with
  | SetTimeRange time_min time_max => set_time_range self test_id time_min time_max
  | SetChannelFilter channel min_val max_val =>
      set_channel_filter self test_id channel min_val max_val
  | SetTextSearch search_text => set_text_search self test_id search_text
  | SetCategoryFilter categories => set_category_filter self test_id categories
  | SetUnitFilter units => set_unit_filter self test_id units
  | SetFilterEnabled enabled => set_filter_enabled self test_id enabled
  | ClearFilters => clear_filters self test_id
  end.

End listeners.

Arguments Emitted : clear implicits.
Arguments t : clear implicits.
Arguments Setter : clear implicits.

End FilterSignals.

(** ** More sample data *)

Module Samples.

Definition q (z : Z) : pyfloat := Float.of_Z z.

(** A file whose samples are not in time order. *)
Definition unordered_table : DataFrame :=
  mkDataFrame ["Time"; "Temp"] [[q 5; q 25]; [q 1; q 21]; [q 3; q 23]].
Definition unordered_file : DataFile.t :=
  Examples.file "late" ["Time"; "Temp"] (Some unordered_table) "Time"
                TimeMode.ABSOLUTE None None.
Definition unordered_test : Test.t := Examples.test "t6" [unordered_file] "Time".

(** A file of voltages on its own clock, to be merged by nearest time. *)
Definition volt_table : DataFrame :=
  mkDataFrame ["Time"; "Volt"] [[q 0; q 12]; [q 2; q 14]].
Definition volt_file : DataFile.t :=
  Examples.file "volt" ["Time"; "Volt"] (Some volt_table) "Time"
                TimeMode.ABSOLUTE (Some JoinStrategy.TIME_NEAREST) None.
Definition nearest_test : Test.t :=
  Examples.test "t7" [Examples.base_file; volt_file] "Time".

(** A test whose only table does not have the time column of the test. *)
Definition untimed_only : Test.t :=
  Examples.test "t8" [Examples.untimed_file None] "Time".

Definition overlay : TestComparer.t :=
  TestComparer.mk CompareMode.OVERLAY Float.zero.

(** A manager with one test and two listeners, named by strings. *)
Definition manager : FilterSignals.t string :=
  FilterSignals.mk Examples.described_manager ["plot"; "table"].

End Samples.

(** * Properties *)

(** ** Floats *)

Lemma Q_add_0_r (q : Q) : (q + 0)%Q = q.
Proof.
  destruct q as [n d]. unfold Qplus. simpl.
  f_equal; [lia | apply Pos.mul_1_r].
Qed.

Lemma Q_mul_1_r (q : Q) : (q * 1)%Q = q.
Proof.
  destruct q as [n d]. unfold Qmult. simpl.
  f_equal; [lia | apply Pos.mul_1_r].
Qed.

Lemma Float_add_zero (x : pyfloat) : Float.add x Float.zero = x.
Proof. destruct x; simpl; try done. by rewrite Q_add_0_r. Qed.

Lemma Float_mul_one (x : pyfloat) : Float.mul x Float.one = x.
Proof. destruct x; simpl; try done. by rewrite Q_mul_1_r. Qed.

Lemma Float_le_refl (x : pyfloat) : Float.isnan x = false → Float.le x x = true.
Proof.
  destruct x; simpl; try done. intros _. apply Qle_bool_iff, Qle_refl.
Qed.

Lemma Float_le_trans (x y z : pyfloat) :
  Float.le x y = true → Float.le y z = true → Float.le x z = true.
Proof.
  destruct x, y, z; simpl; try done.
  rewrite !Qle_bool_iff. apply Qle_trans.
Qed.

Lemma Float_le_total (x y : pyfloat) :
  Float.isnan x = false → Float.isnan y = false →
  Float.le x y = true ∨ Float.le y x = true.
Proof.
  destruct x, y; simpl; try done; auto.
  intros _ _. rewrite !Qle_bool_iff.
  destruct (Qlt_le_dec q q0) as [H|H]; [left; by apply Qlt_le_weak | by right].
Qed.

Lemma Float_le_notnan (x y : pyfloat) :
  Float.le x y = true → Float.isnan x = false ∧ Float.isnan y = false.
Proof. by destruct x, y. Qed.

Lemma np_minimum_fold (l : list pyfloat) (acc : pyfloat) :
  Float.isnan acc = false → Spec.no_nan l →
  let m := foldl Float.np_minimum acc l in
  m ∈ acc :: l ∧ Float.le m acc = true ∧ ∀ y, y ∈ l → Float.le m y = true.
Proof.
  revert acc. induction l as [|x l IH]; intros acc Hacc Hl; simpl.
  - split; [by left|]. split; [by apply Float_le_refl|].
    by intros y Hy%elem_of_nil.
  - apply Forall_cons in Hl as [Hx Hl].
    assert (Hstep : Float.np_minimum acc x = acc ∧ Float.le acc x = true
                    ∨ Float.np_minimum acc x = x ∧ Float.le x acc = true).
    { unfold Float.np_minimum. rewrite Hacc, Hx.
      destruct (Float.le acc x) eqn:E; [by left|right].
      split; [done|]. destruct (Float_le_total acc x) as [H|H]; congruence. }
    destruct Hstep as [[-> Hle]|[-> Hle]].
    + destruct (IH acc Hacc Hl) as (Hin & Hm & Hall).
      split; [by apply elem_of_cons in Hin as [->|Hin]; [left|right; right]|].
      split; [done|].
      intros y [->|Hy]%elem_of_cons; [by eapply Float_le_trans|by apply Hall].
    + destruct (IH x Hx Hl) as (Hin & Hm & Hall).
      split; [by right|]. split; [by eapply Float_le_trans|].
      intros y [->|Hy]%elem_of_cons; [done|by apply Hall].
Qed.

Lemma np_maximum_fold (l : list pyfloat) (acc : pyfloat) :
  Float.isnan acc = false → Spec.no_nan l →
  let m := foldl Float.np_maximum acc l in
  m ∈ acc :: l ∧ Float.le acc m = true ∧ ∀ y, y ∈ l → Float.le y m = true.
Proof.
  revert acc. induction l as [|x l IH]; intros acc Hacc Hl; simpl.
  - split; [by left|]. split; [by apply Float_le_refl|].
    by intros y Hy%elem_of_nil.
  - apply Forall_cons in Hl as [Hx Hl].
    assert (Hstep : Float.np_maximum acc x = acc ∧ Float.le x acc = true
                    ∨ Float.np_maximum acc x = x ∧ Float.le acc x = true).
    { unfold Float.np_maximum. rewrite Hacc, Hx.
      destruct (Float.le x acc) eqn:E; [by left|right].
      split; [done|]. destruct (Float_le_total acc x) as [H|H]; congruence. }
    destruct Hstep as [[-> Hle]|[-> Hle]].
    + destruct (IH acc Hacc Hl) as (Hin & Hm & Hall).
      split; [by apply elem_of_cons in Hin as [->|Hin]; [left|right; right]|].
      split; [done|].
      intros y [->|Hy]%elem_of_cons; [by eapply Float_le_trans|by apply Hall].
    + destruct (IH x Hx Hl) as (Hin & Hm & Hall).
      split; [by right|]. split; [by eapply Float_le_trans|].
      intros y [->|Hy]%elem_of_cons; [done|by apply Hall].
Qed.

Lemma np_min_max_spec (l : list pyfloat) :
  l ≠ [] → Spec.no_nan l → Spec.is_min_max l (Float.np_min l) (Float.np_max l).
Proof.
  destruct l as [|x l]; [done|]. intros _ [Hx Hl]%Forall_cons.
  destruct (np_minimum_fold l x Hx Hl) as (H1 & H2 & H3).
  destruct (np_maximum_fold l x Hx Hl) as (H4 & H5 & H6).
  repeat split; simpl; try done.
  - apply elem_of_cons in H as [->|H]; auto.
  - apply elem_of_cons in H as [->|H]; auto.
Qed.

(** ** Tables *)

Lemma index_of_Some_elem (c : string) (cols : list string) (i : nat) :
  index_of c cols = Some i → c ∈ cols.
Proof.
  revert i. induction cols as [|c' cols IH]; intros i; simpl; [done|].
  destruct (decide (c' = c)) as [->|Hne]; [intros _; by left|].
  destruct (index_of c cols) as [j|]; [|done].
  intros _. right. by eapply IH.
Qed.

Lemma index_of_None_iff (c : string) (cols : list string) :
  index_of c cols = None ↔ c ∉ cols.
Proof.
  induction cols as [|c' cols IH]; simpl.
  - split; [intros _; apply not_elem_of_nil|done].
  - rewrite not_elem_of_cons. destruct (decide (c' = c)) as [->|Hne].
    + split; [done|by intros [? _]].
    + destruct (index_of c cols) as [j|]; simpl.
      * split; [done|]. intros [_ H]. by apply IH in H.
      * split; [|done]. intros _. split; [done|by apply IH].
Qed.

Lemma index_of_elem (c : string) (cols : list string) :
  c ∈ cols → ∃ i, index_of c cols = Some i.
Proof.
  intros Hin. destruct (index_of c cols) as [i|] eqn:E; [by exists i|].
  by apply index_of_None_iff in E.
Qed.

(** ** The time pipeline *)

Lemma get_time_data_pipeline (d : DataFile.t) (frame : DataFrame) (raw : list pyfloat) :
  DataFile.dataframe d = Some frame →
  getitem frame (DataFile.time_column d) = Ok raw →
  DataFile.get_time_data d
  = Some (Spec.time_pipeline (DataFile.time_mode d) (DataFile.time_offset d)
                             (DataFile.time_scale d) raw).
Proof.
  intros Hf Hraw. unfold DataFile.get_time_data, getitem in *. rewrite Hf.
  destruct (index_of _ _) as [i|]; [|done]. injection Hraw as <-.
  f_equal. unfold Spec.time_pipeline, Spec.apply_scale, Spec.add_offset.
  rewrite map_map. f_equal.
  unfold Spec.mode_transform.
  destruct (DataFile.time_mode d); simpl; try done.
  by destruct (column_at frame i).
Qed.

Lemma time_pipeline_identity (raw : list pyfloat) :
  Spec.time_pipeline TimeMode.ABSOLUTE Float.zero Float.one raw = raw.
Proof.
  unfold Spec.time_pipeline, Spec.apply_scale, Spec.add_offset. simpl.
  rewrite map_map. induction raw as [|x raw IH]; [done|]. simpl.
  by rewrite Float_add_zero, Float_mul_one, IH.
Qed.

Lemma time_pipeline_nil (mode : TimeMode.t) (offset scale : pyfloat) :
  Spec.time_pipeline mode offset scale [] = [].
Proof. by destruct mode. Qed.

(** C4.  For a DataFile with a loaded table that has its time column, the
    transformed time series is the fixed pipeline (mode transform, then add
    [time_offset], then multiply by [time_scale]); with ABSOLUTE mode, offset
    0 and scale 1 the values are unchanged; an empty series stays empty; and
    [get_time_range] is [(0, 0)] for an empty series, [(min, max)] of the
    transformed series otherwise (a least and a greatest element of it when
    it has no missing value).  Without a table, or without the time column
    in it, [get_time_range] is [(0, 0)]. *)
Theorem time_pipeline_and_range (d : DataFile.t) :
  (∀ frame raw,
     DataFile.dataframe d = Some frame →
     getitem frame (DataFile.time_column d) = Ok raw →
     let ts := Spec.time_pipeline (DataFile.time_mode d) (DataFile.time_offset d)
                                  (DataFile.time_scale d) raw in
     DataFile.get_time_data d = Some ts
     ∧ (DataFile.time_mode d = TimeMode.ABSOLUTE →
        DataFile.time_offset d = Float.zero →
        DataFile.time_scale d = Float.one → ts = raw)
     ∧ (raw = [] → ts = [])
     ∧ (ts = [] → DataFile.get_time_range d = (Float.zero, Float.zero))
     ∧ (ts ≠ [] →
        DataFile.get_time_range d = (Float.np_min ts, Float.np_max ts)
        ∧ (Spec.no_nan ts →
           Spec.is_min_max ts (DataFile.get_time_range d).1
                              (DataFile.get_time_range d).2)))
  ∧ (DataFile.dataframe d = None → DataFile.get_time_range d = (Float.zero, Float.zero))
  ∧ (∀ frame, DataFile.dataframe d = Some frame →
              DataFile.time_column d ∉ columns frame →
              DataFile.get_time_range d = (Float.zero, Float.zero)).
Proof.
  split; [|split].
  - intros frame raw Hf Hraw ts.
    pose proof (get_time_data_pipeline d frame raw Hf Hraw) as Hdata.
    fold ts in Hdata.
    split; [done|]. split.
    { intros Hm Ho Hs. subst ts. rewrite Hm, Ho, Hs. apply time_pipeline_identity. }
    split.
    { intros ->. apply time_pipeline_nil. }
    unfold DataFile.get_time_range. rewrite Hdata.
    split.
    { intros ->. done. }
    intros Hne. destruct (decide (length ts = 0%nat)) as [H0|_].
    { by apply length_zero_iff_nil in H0. }
    split; [done|]. intros Hnan. simpl. by apply np_min_max_spec.
  - intros Hf. unfold DataFile.get_time_range, DataFile.get_time_data. by rewrite Hf.
  - intros frame Hf Hc. unfold DataFile.get_time_range, DataFile.get_time_data.
    rewrite Hf.
    destruct (index_of _ _) as [i|] eqn:E; [|done].
    by apply index_of_Some_elem in E.
Qed.

(** The theorem at a file whose time runs from 100 to 102, relative, moved
    by 2 and scaled by 1000. *)
Lemma time_pipeline_and_range_witness :
  DataFile.get_time_data Examples.clock_file
  = Some [Float.of_Z 2000; Float.of_Z 3000; Float.of_Z 4000]
  ∧ DataFile.get_time_range Examples.clock_file
    = (Float.of_Z 2000, Float.of_Z 4000).
Proof.
  destruct (time_pipeline_and_range Examples.clock_file) as [H _].
  destruct (H Examples.clock_table
              [Float.of_Z 100; Float.of_Z 101; Float.of_Z 102] eq_refl eq_refl)
    as (Hdata & _ & _ & _ & Hrange).
  split.
  - rewrite Hdata. vm_compute. reflexivity.
  - destruct Hrange as [-> _]; [by vm_compute|]. vm_compute. reflexivity.
Defined.

(** ** The filter *)

Lemma all_true_map (df : DataFrame) :
  all_true df = map (λ _, true) (rows df).
Proof.
  unfold all_true. induction (rows df) as [|r l IH]; simpl; [done|].
  by rewrite IH.
Qed.

Lemma mask_and_map {A} (p q : A → bool) (l : list A) :
  mask_and (map p l) (map q l) = map (λ r, p r && q r) l.
Proof.
  unfold mask_and. induction l as [|r l IH]; simpl; [done|]. by rewrite IH.
Qed.

Lemma range_mask_map (df : DataFrame) (i : nat) (lo hi : option pyfloat)
    (p : list pyfloat → bool) :
  FilterState.range_mask df i lo hi (map p (rows df))
  = map (λ r, p r && Spec.in_range lo hi (cell r i)) (rows df).
Proof.
  unfold FilterState.range_mask, Spec.in_range, column_at.
  destruct lo as [lo|], hi as [hi|]; rewrite ?map_map, ?mask_and_map;
    apply map_ext; intros r; simpl.
  - by rewrite andb_assoc.
  - by rewrite andb_true_r.
  - done.
  - by rewrite andb_true_r.
Qed.

Lemma channel_masks_map (df : DataFrame) (p : list pyfloat → bool)
    (items : list (string * (option pyfloat * option pyfloat))) :
  foldl (λ mask item,
           match index_of item.1 (columns df) with
           | Some i => FilterState.range_mask df i item.2.1 item.2.2 mask
           | None => mask
           end)
        (map p (rows df)) items
  = map (λ r, p r && forallb (λ item : string * (option pyfloat * option pyfloat),
                                match index_of item.1 (columns df) with
                                | Some i => Spec.in_range item.2.1 item.2.2 (cell r i)
                                | None => true
                                end) items)
        (rows df).
Proof.
  revert p. induction items as [|item items IH]; intros p; simpl.
  - apply map_ext. intros r. by rewrite andb_true_r.
  - destruct (index_of item.1 (columns df)) as [i|].
    + rewrite range_mask_map, IH. apply map_ext. intros r. by rewrite andb_assoc.
    + rewrite IH. done.
Qed.

Lemma select_rows_map (df : DataFrame) (p : list pyfloat → bool) :
  select_rows df (map p (rows df))
  = mkDataFrame (columns df) (filter (λ r, p r = true) (rows df)).
Proof.
  unfold select_rows. f_equal.
  induction (rows df) as [|r l IH]; simpl; [done|].
  rewrite !filter_cons. simpl.
  destruct (p r) eqn:E; repeat case_decide; try done.
  rewrite fmap_cons. simpl. by rewrite IH.
Qed.

Lemma row_passes_b_spec (fs : FilterState.t) (cols : list string)
    (time_column : string) (r : list pyfloat) :
  Spec.row_passes_b fs cols time_column r = true
  ↔ Spec.row_passes fs cols time_column r.
Proof.
  unfold Spec.row_passes_b, Spec.row_passes.
  rewrite andb_true_iff, forallb_forall. split.
  - intros [Ht Hc]. split.
    + intros i Hi. by rewrite Hi in Ht.
    + intros channel lo hi i Hlook Hi.
      specialize (Hc (channel, (lo, hi))). simpl in Hc. rewrite Hi in Hc.
      apply Hc. apply list_elem_of_In. by apply elem_of_map_to_list.
  - intros [Ht Hc]. split.
    + destruct (index_of time_column cols) as [i|]; [by apply Ht|done].
    + intros [channel [lo hi]] Hin%list_elem_of_In%elem_of_map_to_list. simpl.
      destruct (index_of channel cols) as [i|] eqn:Hi; [|done].
      by eapply Hc.
Qed.

(** C6.  A disabled filter and an empty table give the table back as it
    is.  Otherwise the result has the columns of the table and, in their
    original order, exactly the rows that satisfy the conjunction of the
    time window (on the time column) and the range of every declared channel
    filter whose channel is a column of the table. *)
Theorem apply_to_dataframe_spec (fs : FilterState.t) (df : DataFrame)
    (time_column : string) :
  (FilterState.enabled fs = false ∨ Pandas.empty df = true →
   FilterState.apply_to_dataframe fs df time_column = df)
  ∧ (FilterState.enabled fs = true → Pandas.empty df = false →
     FilterState.apply_to_dataframe fs df time_column
     = mkDataFrame (columns df)
         (filter (λ r, Spec.row_passes_b fs (columns df) time_column r = true)
                 (rows df)))
  ∧ (∀ r, Spec.row_passes_b fs (columns df) time_column r = true
          ↔ Spec.row_passes fs (columns df) time_column r).
Proof.
  split; [|split].
  - unfold FilterState.apply_to_dataframe.
    intros [->| ->]; [done|]. by rewrite orb_true_r.
  - intros He Hd. unfold FilterState.apply_to_dataframe.
    rewrite He, Hd. simpl. rewrite all_true_map.
    unfold Spec.row_passes_b.
    destruct (index_of time_column (columns df)) as [i|].
    + rewrite range_mask_map, channel_masks_map, select_rows_map. done.
    + rewrite channel_masks_map, select_rows_map. done.
  - intros r. apply row_passes_b_spec.
Qed.

(** The theorem at a table of three rows and a filter with a time window
    from 101 on, a temperature of at most 21 and a range for a channel the
    table does not have: the middle row is left. *)
Lemma apply_to_dataframe_spec_witness :
  FilterState.apply_to_dataframe Examples.window Examples.clock_table "Time"
  = mkDataFrame ["Time"; "Temp"] [[Float.of_Z 101; Float.of_Z 21]].
Proof.
  destruct (apply_to_dataframe_spec Examples.window Examples.clock_table "Time")
    as (_ & H & _).
  rewrite H by reflexivity. vm_compute. reflexivity.
Defined.

(** ** The channel picker *)

Lemma filter_ext_elem {A} (P Q : A → Prop) `{∀ x, Decision (P x)}
    `{∀ x, Decision (Q x)} (l : list A) :
  (∀ x, x ∈ l → P x ↔ Q x) → filter P l = filter Q l.
Proof.
  induction l as [|x l IH]; intros Hext; [done|].
  rewrite !filter_cons.
  destruct (decide (P x)) as [HP|HP], (decide (Q x)) as [HQ|HQ].
  - f_equal. apply IH. intros y Hy. apply Hext. by right.
  - exfalso. apply HQ, Hext; [by left|done].
  - exfalso. apply HP, Hext; [by left|done].
  - apply IH. intros y Hy. apply Hext. by right.
Qed.

Lemma truthy_empty (s : string) : Str.truthy s = false ↔ s = "".
Proof. destruct s; simpl; split; done. Qed.

(** With metadata at hand, the loop body is the three predicates. *)
Lemma channel_passes_described (test : Test.t) (ch : string) :
  is_Some (Test.canonical_metadata test !! ch) →
  FilterManager.channel_passes test ch = Spec.channel_ok test ch.
Proof.
  intros [m Hm].
  unfold FilterManager.channel_passes, Spec.channel_ok, Spec.text_ok,
    Spec.category_ok, Spec.unit_ok.
  rewrite Hm. f_equal; [f_equal|].
  - destruct (decide (FilterState.text_search (Test.filter_state test) = "")) as [E|E].
    + by rewrite (proj2 (truthy_empty _) E).
    + destruct (Str.truthy _) eqn:Et; [|by apply truthy_empty in Et].
      destruct (Str.contains _ (Str.lower ch)); simpl; [done|].
      by rewrite negb_involutive.
  - destruct (decide (FilterState.category_filter (Test.filter_state test) = [])) as [E|E].
    + rewrite bool_decide_false; [done|]. by intros H.
    + rewrite bool_decide_true by done.
      destruct (decide (ChannelMetadata.category m
                        ∈ FilterState.category_filter (Test.filter_state test))).
      * rewrite bool_decide_false, bool_decide_true by auto. done.
      * rewrite bool_decide_true, bool_decide_false by auto. done.
  - destruct (decide (FilterState.unit_filter (Test.filter_state test) = [])) as [E|E].
    + rewrite bool_decide_false; [done|]. by intros H.
    + rewrite bool_decide_true by done.
      destruct (decide (ChannelMetadata.unit m
                        ∈ FilterState.unit_filter (Test.filter_state test))).
      * rewrite bool_decide_false, bool_decide_true by auto. done.
      * rewrite bool_decide_true, bool_decide_false by auto. done.
Qed.

(** A channel without metadata is never left out by the category and unit
    filters, nor by the text search. *)
Lemma channel_passes_bare (test : Test.t) (ch : string) :
  Test.canonical_metadata test !! ch = None →
  FilterManager.channel_passes test ch = true.
Proof.
  intros Hm. unfold FilterManager.channel_passes. rewrite Hm.
  by repeat match goal with |- context [if ?b then _ else _] => destruct b end.
Qed.

(** C9, as the code has it.  For a registered test whose canonical metadata
    describes every listed channel, [get_filtered_channels] returns, in the
    order of the list, exactly the channels that pass the text search (on
    the raw header or the display name, case-insensitive), the category
    allow-list and the unit allow-list, an empty text or list being no
    constraint. *)
Theorem get_filtered_channels_described (self : FilterManager.t)
    (test_id : string) (test : Test.t) (all_channels : list string) :
  FilterManager._tests self !! test_id = Some test →
  (∀ ch, ch ∈ all_channels → is_Some (Test.canonical_metadata test !! ch)) →
  FilterManager.get_filtered_channels self test_id all_channels
  = filter (λ ch, Spec.channel_ok test ch = true) all_channels.
Proof.
  intros Hreg Hmeta. unfold FilterManager.get_filtered_channels. rewrite Hreg.
  apply filter_ext_elem. intros ch Hch.
  by rewrite channel_passes_described by auto.
Qed.

(** The theorem at a test with two described channels: only the
    temperature channel, found by its display name, is kept. *)
Lemma get_filtered_channels_described_witness :
  FilterManager.get_filtered_channels Examples.described_manager "t2"
    ["TC_1 [C]"; "P_in [bar]"]
  = ["TC_1 [C]"].
Proof.
  rewrite (get_filtered_channels_described Examples.described_manager "t2"
             Examples.described_test ["TC_1 [C]"; "P_in [bar]"]).
  - vm_compute. reflexivity.
  - vm_compute. reflexivity.
  - intros ch Hch.
    apply elem_of_cons in Hch as [->|Hch]; [by eexists|].
    apply elem_of_cons in Hch as [->|Hch]; [by eexists|].
    by apply elem_of_nil in Hch.
Defined.

(** The claim as stated fails where a channel has no metadata: searched for
    ["xyz"], the channel ["abc"] is returned, though the text is neither in
    its header nor in a display name. *)
Lemma get_filtered_channels_bare_counterexample :
  FilterManager.get_filtered_channels Examples.bare_manager "t1" ["abc"] = ["abc"]
  ∧ filter (λ ch, Spec.channel_ok Examples.bare_test ch = true) ["abc"] = [].
Proof. split; vm_compute; reflexivity. Qed.

(** ** Canonical headers *)

Lemma of_list_elem (l : list string) (x : string) :
  x ∈ PySet.of_list l ↔ x ∈ l.
Proof.
  induction l as [|y l IH]; simpl; [done|].
  rewrite !elem_of_cons, list_elem_of_filter, IH.
  destruct (decide (x = y)); naive_solver.
Qed.

Lemma of_list_NoDup (l : list string) : NoDup (PySet.of_list l).
Proof.
  induction l as [|y l IH]; simpl; [constructor|].
  constructor; [|by apply NoDup_filter].
  rewrite list_elem_of_filter. naive_solver.
Qed.

Lemma concat_elem (ls : list (list string)) (x : string) :
  x ∈ List.concat ls ↔ ∃ l, l ∈ ls ∧ x ∈ l.
Proof.
  rewrite list_elem_of_In, in_concat. split.
  - intros (l & Hl & Hx). exists l. by rewrite !list_elem_of_In.
  - intros (l & Hl & Hx). exists l. by rewrite <- !list_elem_of_In.
Qed.

Lemma first_seen_elem (files : list DataFile.t) (h : string) :
  h ∈ Spec.first_seen files ↔ Spec.in_union files h.
Proof.
  unfold Spec.first_seen, Spec.in_union. rewrite of_list_elem, concat_elem. split.
  - intros (l & (df & -> & Hdf)%list_elem_of_fmap & Hh). by exists df.
  - intros (df & Hdf & Hh). exists (DataFile.headers df).
    split; [|done]. apply list_elem_of_fmap. by exists df.
Qed.

(** The loop that appends the headers not seen yet. *)
Lemma append_new_spec (l init : list string) :
  ∃ added,
    foldl (λ acc h, if decide (h ∈ acc) then acc else acc ++ [h]) init l
    = init ++ added
    ∧ NoDup added
    ∧ ∀ x, x ∈ added ↔ x ∈ l ∧ x ∉ init.
Proof.
  revert init. induction l as [|h l IH]; intros init; simpl.
  - exists []. rewrite app_nil_r. split; [done|]. split; [constructor|].
    intros x. rewrite !elem_of_nil. naive_solver.
  - destruct (decide (h ∈ init)) as [Hin|Hin].
    + destruct (IH init) as (added & -> & Hnd & Hadded).
      exists added. split; [done|]. split; [done|].
      intros x. rewrite Hadded, elem_of_cons. naive_solver.
    + destruct (IH (init ++ [h])) as (added & -> & Hnd & Hadded).
      exists (h :: added). rewrite <- app_assoc. split; [done|]. split.
      * constructor; [|done]. rewrite Hadded, elem_of_app, list_elem_of_singleton.
        naive_solver.
      * intros x. rewrite !elem_of_cons, Hadded, elem_of_app, list_elem_of_singleton.
        destruct (decide (x = h)); naive_solver.
Qed.

Lemma update_canonical_headers_eq (set_order : list string → list string)
    (t : Test.t) :
  Test.canonical_headers (Test._update_canonical_headers set_order t)
  = foldl (λ acc h, if decide (h ∈ acc) then acc else acc ++ [h])
          (filter (λ h, h ∈ Spec.first_seen (Test.data_files t))
                  (Test.canonical_headers t))
          (set_order (Spec.first_seen (Test.data_files t))).
Proof. reflexivity. Qed.

Lemma update_canonical_headers_files (set_order : list string → list string)
    (t : Test.t) :
  Test.data_files (Test._update_canonical_headers set_order t) = Test.data_files t.
Proof. reflexivity. Qed.

Section canonical_headers.
Variable set_order : list string → list string.
Hypothesis set_order_perm : PySet.is_order set_order.

(** What one recomputation does to the canonical headers. *)
Lemma update_canonical_headers_spec (t : Test.t) :
  let t' := Test._update_canonical_headers set_order t in
  Test.data_files t' = Test.data_files t
  ∧ (∀ h, h ∈ Test.canonical_headers t' ↔ Spec.in_union (Test.data_files t) h)
  ∧ (NoDup (Test.canonical_headers t) → NoDup (Test.canonical_headers t'))
  ∧ keeps_order t t'.
Proof.
  unfold Test._update_canonical_headers, keeps_order. simpl.
  fold (Spec.first_seen (Test.data_files t)).
  set (kept := filter (λ h, h ∈ Spec.first_seen (Test.data_files t))
                      (Test.canonical_headers t)).
  destruct (append_new_spec (set_order (Spec.first_seen (Test.data_files t))) kept)
    as (added & -> & Hnd & Hadded).
  assert (Hkept : ∀ h, h ∈ kept → Spec.in_union (Test.data_files t) h).
  { intros h [Hh _]%list_elem_of_filter. by apply first_seen_elem. }
  assert (Hadded' : ∀ h, h ∈ added ↔ Spec.in_union (Test.data_files t) h ∧ h ∉ kept).
  { intros h. by rewrite Hadded, (set_order_perm _), first_seen_elem. }
  split; [done|]. split; [|split].
  - intros h. rewrite elem_of_app, Hadded'.
    destruct (decide (h ∈ kept)); naive_solver.
  - intros Hc. apply NoDup_app. split; [by apply NoDup_filter|].
    split; [|done]. intros h Hh. rewrite Hadded'. naive_solver.
  - exists added. split; [done|].
    intros h [Hu Hk]%Hadded' Hc. apply Hk.
    apply list_elem_of_filter. split; [|done]. by apply first_seen_elem.
Qed.

Lemma filter_all {A} (P : A → Prop) `{∀ x, Decision (P x)} (l : list A) :
  (∀ x, x ∈ l → P x) → filter P l = l.
Proof.
  induction l as [|x l IH]; intros HP; [done|].
  rewrite filter_cons_True by (apply HP; by left).
  f_equal. apply IH. intros y Hy. apply HP. by right.
Qed.

Lemma keeps_order_refl (t : Test.t) : canonical_invariant t → keeps_order t t.
Proof.
  intros [_ Hu]. exists []. rewrite app_nil_r. split; [|by intros h Hh%elem_of_nil].
  symmetry. apply filter_all. intros h Hh. by apply first_seen_elem, Hu.
Qed.

Lemma apply_op_invariant (t : Test.t) (op : TestOp) :
  canonical_invariant t →
  canonical_invariant (apply_op set_order t op)
  ∧ keeps_order t (apply_op set_order t op).
Proof.
  intros Hinv. destruct op as [data_file|file_id]; simpl.
  - unfold Test.add_data_file.
    destruct (update_canonical_headers_spec
                (Test.with_data_files (Test.data_files t ++ [data_file]) t))
      as (Hfiles & Hu & Hnd & Hord).
    split; [split|].
    + apply Hnd. apply Hinv.
    + intros h. rewrite Hu, Hfiles. done.
    + done.
  - unfold Test.remove_data_file.
    destruct (Test.pop_first file_id (Test.data_files t)) as [l|]; simpl.
    + destruct (update_canonical_headers_spec (Test.with_data_files l t))
        as (Hfiles & Hu & Hnd & Hord).
      split; [split|].
      * apply Hnd. apply Hinv.
      * intros h. rewrite Hu, Hfiles. done.
      * done.
    + split; [done|by apply keeps_order_refl].
Qed.

(** C3, as the code has it.  From a test whose canonical headers are the
    union of its files' headers without duplicates (a new test is one),
    after every sequence of [add_data_file] and [remove_data_file] the
    canonical headers are again exactly that union, without duplicates; and
    each further operation keeps the headers that stay in their previous
    order, ahead of the headers it adds. *)
Theorem canonical_headers_union (t : Test.t) (ops : list TestOp) :
  canonical_invariant t →
  canonical_invariant (run_ops set_order t ops)
  ∧ ∀ op, keeps_order (run_ops set_order t ops)
                      (run_ops set_order t (ops ++ [op])).
Proof.
  intros Hinv.
  assert (Hrun : canonical_invariant (run_ops set_order t ops)).
  { revert t Hinv. induction ops as [|op ops IH]; intros t Hinv; [done|].
    simpl. apply IH. by apply apply_op_invariant. }
  split; [done|]. intros op. unfold run_ops at 2. rewrite foldl_app. simpl.
  by apply apply_op_invariant.
Qed.

End canonical_headers.

Lemma new_test_invariant (uuid : string) : canonical_invariant (Test.new uuid).
Proof.
  split; [constructor|]. intros h. simpl. split.
  - by intros ?%elem_of_nil.
  - by intros (df & ?%elem_of_nil & _).
Qed.

Lemma id_is_order : PySet.is_order (λ l, l).
Proof. by intros l. Qed.

(** The theorem for a new test and three operations, the set iterated in
    the order of insertion. *)
Lemma canonical_headers_union_witness :
  canonical_invariant (run_ops (λ l, l) (Test.new "t") Examples.add_add_remove)
  ∧ ∀ op, keeps_order (run_ops (λ l, l) (Test.new "t") Examples.add_add_remove)
                      (run_ops (λ l, l) (Test.new "t") (Examples.add_add_remove ++ [op])).
Proof.
  exact (canonical_headers_union (λ l, l) id_is_order (Test.new "t")
           Examples.add_add_remove (new_test_invariant "t")).
Defined.

(** The claim as stated fails on the order: after adding a file with the
    header ["a"], adding one with ["c"; "a"] and removing the first, the
    canonical headers are ["a"; "c"] whatever the order sets are iterated
    in, while the first-seen order across the member files is ["c"; "a"]. *)
Lemma canonical_headers_order_counterexample :
  (∀ set_order, PySet.is_order set_order →
     Test.canonical_headers
       (run_ops set_order (Test.new "t") Examples.add_add_remove) = ["a"; "c"])
  ∧ Spec.first_seen
      (Test.data_files (run_ops (λ l, l) (Test.new "t") Examples.add_add_remove))
    = ["c"; "a"].
Proof.
  split; [|vm_compute; reflexivity].
  intros so Hso.
  pose proof (Hso ["a"]) as H1. apply Permutation_singleton_r in H1.
  pose proof (Hso ["a"; "c"]) as H2. symmetry in H2.
  apply Permutation_length_2_inv in H2.
  pose proof (Hso ["c"; "a"]) as H3. symmetry in H3.
  apply Permutation_length_2_inv in H3.
  change (run_ops so (Test.new "t") Examples.add_add_remove)
    with (Test.remove_data_file so
            (Test.add_data_file so
               (Test.add_data_file so (Test.new "t") Examples.file_a)
               Examples.file_ca) "f1").1.
  assert (F1 : Test.data_files (Test.add_data_file so (Test.new "t") Examples.file_a)
               = [Examples.file_a]) by reflexivity.
  assert (E1 : Test.canonical_headers
                 (Test.add_data_file so (Test.new "t") Examples.file_a) = ["a"]).
  { unfold Test.add_data_file. rewrite update_canonical_headers_eq.
    change (Spec.first_seen _) with ["a"]. rewrite H1. vm_compute. reflexivity. }
  generalize dependent (Test.add_data_file so (Test.new "t") Examples.file_a).
  intros t1 F1 E1.
  assert (F2 : Test.data_files (Test.add_data_file so t1 Examples.file_ca)
               = [Examples.file_a; Examples.file_ca]).
  { unfold Test.add_data_file. rewrite update_canonical_headers_files.
    simpl. by rewrite F1. }
  assert (E2 : Test.canonical_headers (Test.add_data_file so t1 Examples.file_ca)
               = ["a"; "c"]).
  { unfold Test.add_data_file. rewrite update_canonical_headers_eq.
    simpl Test.data_files. simpl Test.canonical_headers. rewrite F1, E1.
    change (Spec.first_seen _) with ["a"; "c"].
    destruct H2 as [-> | ->]; vm_compute; reflexivity. }
  generalize dependent (Test.add_data_file so t1 Examples.file_ca).
  intros t2 F2 E2.
  unfold Test.remove_data_file. rewrite F2.
  change (Test.pop_first "f1" _) with (Some [Examples.file_ca]).
  simpl fst. rewrite update_canonical_headers_eq.
  simpl Test.data_files. simpl Test.canonical_headers. rewrite E2.
  change (Spec.first_seen _) with ["c"; "a"].
  destruct H3 as [-> | ->]; vm_compute; reflexivity.
Qed.

(** ** Header reconciliation *)

Lemma ascii_compare_lt_trans (a b c : ascii) :
  Ascii.compare a b = Lt → Ascii.compare b c = Lt → Ascii.compare a c = Lt.
Proof.
  unfold Ascii.compare. rewrite !N.compare_lt_iff. lia.
Qed.

Lemma string_compare_lt_trans (x y z : string) :
  String.compare x y = Lt → String.compare y z = Lt → String.compare x z = Lt.
Proof.
  revert y z. induction x as [|a x IH]; intros [|b y] [|c z]; simpl; try done.
  destruct (Ascii.compare a b) eqn:Eab; try done;
    destruct (Ascii.compare b c) eqn:Ebc; try done.
  - apply Ascii.compare_eq_iff in Eab as ->. rewrite Ebc. apply IH.
  - apply Ascii.compare_eq_iff in Eab as ->. by rewrite Ebc.
  - apply Ascii.compare_eq_iff in Ebc as <-. by rewrite Eab.
  - by rewrite (ascii_compare_lt_trans a b c).
Qed.

Lemma string_compare_refl (x : string) : String.compare x x = Eq.
Proof.
  induction x as [|a x IH]; simpl; [done|].
  unfold Ascii.compare. by rewrite N.compare_refl.
Qed.

Lemma str_le_iff (x y : string) : Str.le x y ↔ Str.lt x y ∨ x = y.
Proof.
  unfold Str.le, Str.lt, String.leb, String.ltb.
  destruct (String.compare x y) eqn:E.
  - apply String.compare_eq_iff in E. naive_solver.
  - naive_solver.
  - split; [done|]. intros [?| ->]; [done|]. by rewrite string_compare_refl in E.
Qed.

Lemma str_lt_trans (x y z : string) : Str.lt x y → Str.lt y z → Str.lt x z.
Proof.
  unfold Str.lt, String.ltb. intros Hxy Hyz.
  destruct (String.compare x y) eqn:E1; try done.
  destruct (String.compare y z) eqn:E2; try done.
  by rewrite (string_compare_lt_trans x y z).
Qed.

#[local] Instance str_le_transitive : Transitive Str.le.
Proof.
  intros x y z. rewrite !str_le_iff.
  intros [Hxy| ->] [Hyz| ->]; auto. left. by eapply str_lt_trans.
Qed.

#[local] Instance str_le_total : Total Str.le.
Proof. intros x y. apply String.leb_total. Qed.

Lemma sorted_perm (l : list string) : Str.sorted l ≡ₚ l.
Proof. apply merge_sort_Permutation. Qed.

Lemma strictly_sorted (l : list string) :
  NoDup l → StronglySorted Str.le l → StronglySorted Str.lt l.
Proof.
  induction 2 as [|x l Hl IH Hx]; [constructor|].
  apply NoDup_cons in H as [Hnot Hnd].
  constructor; [by apply IH|].
  apply Forall_forall. intros y Hy.
  rewrite Forall_forall in Hx. destruct (proj1 (str_le_iff x y) (Hx y Hy)) as [?| ->];
    [done|by destruct Hnot].
Qed.

(** [sorted(list(s))] for a set [s]: its elements, strictly ascending. *)
Lemma sorted_set (set_order : list string → list string) (s : list string) :
  PySet.is_order set_order → NoDup s →
  StronglySorted Str.lt (Str.sorted (set_order s))
  ∧ ∀ h, h ∈ Str.sorted (set_order s) ↔ h ∈ s.
Proof.
  intros Hso Hnd. split.
  - apply strictly_sorted.
    + by rewrite sorted_perm, (Hso s).
    + apply StronglySorted_merge_sort; apply _.
  - intros h. by rewrite sorted_perm, (Hso s).
Qed.

Lemma Qlt_bool_iff (a b : Q) : Qlt_bool a b = true ↔ (a < b)%Q.
Proof.
  unfold Qlt_bool. rewrite negb_true_iff. split.
  - intros H. apply Qnot_le_lt. intros Hle. apply Qle_bool_iff in Hle. congruence.
  - intros H. destruct (Qle_bool b a) eqn:E; [|done].
    apply Qle_bool_iff in E. by apply Qlt_not_le in H.
Qed.

Section fuzzy.
Variable token_sort_ratio : string → string → Q.
Variable fuzzy_threshold : Z.
Variable extra_h : string.

Local Abbreviation sc m := (token_sort_ratio (Str.lower extra_h) (Str.lower m)).

Lemma best_candidate_step (missing done_ : list string) (best : option string * Q) :
  best_found token_sort_ratio fuzzy_threshold extra_h done_ best →
  best_found token_sort_ratio fuzzy_threshold extra_h (done_ ++ missing)
    (foldl (λ best missing_h,
              let score := token_sort_ratio (Str.lower extra_h) (Str.lower missing_h) in
              if Qlt_bool best.2 score && Qle_bool (inject_Z fuzzy_threshold) score
              then (Some missing_h, score)
              else best)
           best missing).
Proof.
  revert done_ best.
  induction missing as [|m missing IH]; intros done_ best Hbest; simpl.
  - by rewrite app_nil_r.
  - replace (done_ ++ m :: missing) with ((done_ ++ [m]) ++ missing)
      by by rewrite <- app_assoc.
    apply IH.
    destruct (Qlt_bool best.2 (sc m) && Qle_bool (inject_Z fuzzy_threshold) (sc m))
      eqn:E.
    + apply andb_true_iff in E as [Hlt%Qlt_bool_iff Hle%Qle_bool_iff].
      unfold best_found in *. simpl.
      split; [apply elem_of_app; right; by left|]. split; [done|]. split; [done|].
      destruct best as [[b|] bs]; simpl in *.
      * destruct Hbest as (Hb & -> & Hthr & Hpos & Hmax).
        split; [by eapply Qlt_trans|].
        intros m' [Hm'|Hm']%elem_of_app.
        -- eapply Qle_trans; [by apply Hmax|by apply Qlt_le_weak].
        -- apply list_elem_of_singleton in Hm' as ->. apply Qle_refl.
      * destruct Hbest as (-> & Hnone). split; [done|].
        intros m' [Hm'|Hm']%elem_of_app.
        -- destruct (Qlt_le_dec (sc m) (sc m')) as [Hc|Hc]; [|done].
           exfalso. apply (Hnone m' Hm'). split.
           ++ by eapply Qlt_trans.
           ++ eapply Qle_trans; [done|by apply Qlt_le_weak].
        -- apply list_elem_of_singleton in Hm' as ->. apply Qle_refl.
    + assert (Hm : ¬ ((best.2 < sc m)%Q ∧ (inject_Z fuzzy_threshold <= sc m)%Q)).
      { intros [H1%Qlt_bool_iff H2%Qle_bool_iff]. by rewrite H1, H2 in E. }
      unfold best_found in *.
      destruct best as [[b|] bs]; simpl in *.
      * destruct Hbest as (Hb & -> & Hthr & Hpos & Hmax).
        split; [apply elem_of_app; by left|]. do 3 (split; [done|]).
        intros m' [Hm'|Hm']%elem_of_app; [by apply Hmax|].
        apply list_elem_of_singleton in Hm' as ->.
        destruct (Qlt_le_dec (sc b) (sc m)) as [Hc|Hc]; [|done].
        destruct (Qlt_le_dec (sc m) (inject_Z fuzzy_threshold)) as [Hd|Hd].
        -- apply Qlt_le_weak. by eapply Qlt_le_trans.
        -- exfalso. by apply Hm.
      * destruct Hbest as (-> & Hnone). split; [done|].
        intros m' [Hm'|Hm']%elem_of_app; [by apply Hnone|].
        by apply list_elem_of_singleton in Hm' as ->.
Qed.

Lemma best_candidate_found (missing : list string) :
  best_found token_sort_ratio fuzzy_threshold extra_h missing
    (best_candidate token_sort_ratio fuzzy_threshold extra_h missing).
Proof.
  apply (best_candidate_step missing [] (None, 0%Q)).
  split; [done|]. by intros m Hm%elem_of_nil.
Qed.

End fuzzy.

(** The suggestion recorded for [e]: the best candidate, unless its name is
    the empty string. *)
Lemma fuzzy_matches_lookup (suggest : string → option string)
    (l : list string) (acc : gmap string string) (e : string) :
  foldl (λ acc extra_h,
           match suggest extra_h with
           | Some best_match =>
               if Str.truthy best_match then <[extra_h := best_match]> acc else acc
           | None => acc
           end) acc l !! e
  = if decide (e ∈ l) then
      match suggest e with
      | Some b => if Str.truthy b then Some b else acc !! e
      | None => acc !! e
      end
    else acc !! e.
Proof.
  revert acc. induction l as [|x l IH]; intros acc; simpl; [done|].
  rewrite IH. destruct (decide (e = x)) as [->|Hne].
  - rewrite (decide_True (P := x ∈ x :: l)) by by left.
    destruct (suggest x) as [b|] eqn:Eb.
    + destruct (Str.truthy b) eqn:Et.
      * destruct (decide (x ∈ l)); [done|]. by rewrite lookup_insert_eq.
      * by destruct (decide (x ∈ l)).
    + by destruct (decide (x ∈ l)).
  - assert (Hacc : ∀ acc' : gmap string string, match suggest x with
            | Some best_match =>
                if Str.truthy best_match then <[x := best_match]> acc' else acc'
            | None => acc'
            end !! e = acc' !! e).
    { intros acc'. destruct (suggest x) as [b|]; [|done].
      destruct (Str.truthy b); [|done]. by rewrite lookup_insert_ne. }
    rewrite Hacc. destruct (decide (e ∈ l)) as [Hl|Hl].
    + rewrite decide_True by by right. done.
    + rewrite decide_False; [done|]. rewrite elem_of_cons. naive_solver.
Qed.

Section header_diff_properties.
Variable set_order : list string → list string.
Variable token_sort_ratio : string → string → Q.
Hypothesis set_order_perm : PySet.is_order set_order.

(** C5, as the code has it.  [matched], [missing] and [extra] are the
    intersection and the two differences of the header lists, each sorted
    (strictly ascending); [has_differences] holds iff [missing] or [extra] is
    non-empty; an extra header has at most one suggestion, which is then a
    highest-scoring missing header, not the empty string, whose score is at
    least the threshold and above zero; when a missing header scores at
    least the threshold and above zero (and no canonical header is the empty
    string) the extra header has a suggestion; when every missing header
    scores below the threshold, or no missing header scores both at least
    the threshold and above zero, it has none. *)
Theorem compute_header_diff_spec (test_headers file_headers : list string)
    (fuzzy_threshold : Z) :
  let d := compute_header_diff set_order token_sort_ratio
             test_headers file_headers fuzzy_threshold in
  let score e m := token_sort_ratio (Str.lower e) (Str.lower m) in
  (StronglySorted Str.lt (HeaderDiff.matched d)
   ∧ ∀ h, h ∈ HeaderDiff.matched d ↔ h ∈ test_headers ∧ h ∈ file_headers)
  ∧ (StronglySorted Str.lt (HeaderDiff.missing d)
     ∧ ∀ h, h ∈ HeaderDiff.missing d ↔ h ∈ test_headers ∧ h ∉ file_headers)
  ∧ (StronglySorted Str.lt (HeaderDiff.extra d)
     ∧ ∀ h, h ∈ HeaderDiff.extra d ↔ h ∈ file_headers ∧ h ∉ test_headers)
  ∧ (HeaderDiff.has_differences d = true
     ↔ HeaderDiff.missing d ≠ [] ∨ HeaderDiff.extra d ≠ [])
  ∧ (∀ e m, HeaderDiff.fuzzy_matches d !! e = Some m →
       e ∈ HeaderDiff.extra d ∧ m ∈ HeaderDiff.missing d
       ∧ (inject_Z fuzzy_threshold <= score e m)%Q
       ∧ (0 < score e m)%Q
       ∧ m ≠ ""
       ∧ ∀ m', m' ∈ HeaderDiff.missing d → (score e m' <= score e m)%Q)
  ∧ (∀ e m, e ∈ HeaderDiff.extra d → m ∈ HeaderDiff.missing d →
       (inject_Z fuzzy_threshold <= score e m)%Q → (0 < score e m)%Q →
       "" ∉ test_headers →
       is_Some (HeaderDiff.fuzzy_matches d !! e))
  ∧ (∀ e, (∀ m, m ∈ HeaderDiff.missing d → (score e m < inject_Z fuzzy_threshold)%Q) →
       HeaderDiff.fuzzy_matches d !! e = None)
  ∧ (∀ e, (∀ m, m ∈ HeaderDiff.missing d →
             ¬ ((0 < score e m)%Q ∧ (inject_Z fuzzy_threshold <= score e m)%Q)) →
       HeaderDiff.fuzzy_matches d !! e = None).
Proof.
  intros d score.
  set (test_set := PySet.of_list test_headers).
  set (file_set := PySet.of_list file_headers).
  assert (Hmatched := sorted_set set_order (PySet.inter test_set file_set)
            set_order_perm (NoDup_filter _ _ (of_list_NoDup test_headers))).
  assert (Hmissing := sorted_set set_order (PySet.diff test_set file_set)
            set_order_perm (NoDup_filter _ _ (of_list_NoDup test_headers))).
  assert (Hextra := sorted_set set_order (PySet.diff file_set test_set)
            set_order_perm (NoDup_filter _ _ (of_list_NoDup file_headers))).
  destruct Hmatched as [Hs1 He1], Hmissing as [Hs2 He2], Hextra as [Hs3 He3].
  assert (Ematched : HeaderDiff.matched d
            = Str.sorted (set_order (PySet.inter test_set file_set))) by reflexivity.
  assert (Emissing : HeaderDiff.missing d
            = Str.sorted (set_order (PySet.diff test_set file_set))) by reflexivity.
  assert (Eextra : HeaderDiff.extra d
            = Str.sorted (set_order (PySet.diff file_set test_set))) by reflexivity.
  assert (Hmiss : ∀ h, h ∈ HeaderDiff.missing d ↔ h ∈ test_headers ∧ h ∉ file_headers).
  { intros h. rewrite Emissing, He2.
    unfold PySet.diff, test_set, file_set.
    rewrite list_elem_of_filter, !of_list_elem. naive_solver. }
  assert (Hext : ∀ h, h ∈ HeaderDiff.extra d ↔ h ∈ file_headers ∧ h ∉ test_headers).
  { intros h. rewrite Eextra, He3.
    unfold PySet.diff, test_set, file_set.
    rewrite list_elem_of_filter, !of_list_elem. naive_solver. }
  (* the list the inner loop runs over has the elements of [missing] *)
  set (missing_iter := set_order (PySet.diff test_set file_set)).
  set (extra_iter := set_order (PySet.diff file_set test_set)).
  assert (Hmi : ∀ h, h ∈ missing_iter ↔ h ∈ HeaderDiff.missing d).
  { intros h. rewrite Emissing, He2.
    unfold missing_iter. by rewrite (set_order_perm _). }
  assert (Hei : ∀ h, h ∈ extra_iter ↔ h ∈ HeaderDiff.extra d).
  { intros h. rewrite Eextra, He3.
    unfold extra_iter. by rewrite (set_order_perm _). }
  assert (Hfm : ∀ e, HeaderDiff.fuzzy_matches d !! e
            = if decide (e ∈ extra_iter) then
                match (best_candidate token_sort_ratio fuzzy_threshold e missing_iter).1 with
                | Some b => if Str.truthy b then Some b else None
                | None => None
                end
              else None).
  { intros e.
    change (HeaderDiff.fuzzy_matches d)
      with (foldl (λ acc extra_h,
                     match (best_candidate token_sort_ratio fuzzy_threshold
                              extra_h missing_iter).1 with
                     | Some best_match =>
                         if Str.truthy best_match
                         then <[extra_h := best_match]> acc else acc
                     | None => acc
                     end) (∅ : gmap string string) extra_iter).
    rewrite (fuzzy_matches_lookup
               (λ e, (best_candidate token_sort_ratio fuzzy_threshold e missing_iter).1)).
    by rewrite lookup_empty. }
  split; [|split; [|split; [|split; [|split; [|split; [|split]]]]]].
  - rewrite Ematched. split; [done|]. intros h. rewrite He1.
    unfold PySet.inter, test_set, file_set.
    rewrite list_elem_of_filter, !of_list_elem. naive_solver.
  - by rewrite Emissing in *.
  - by rewrite Eextra in *.
  - unfold HeaderDiff.has_differences. rewrite orb_true_iff, !bool_decide_eq_true. done.
  - intros e m Hlook. rewrite Hfm in Hlook.
    destruct (decide (e ∈ extra_iter)) as [He|]; [|done].
    pose proof (best_candidate_found token_sort_ratio fuzzy_threshold e missing_iter) as Hb.
    unfold best_found in Hb.
    destruct (best_candidate _ _ _ _).1 as [b|]; [|done].
    destruct (Str.truthy b) eqn:Etruthy; [|done]. injection Hlook as ->.
    destruct Hb as (Hb & _ & Hthr & Hpos & Hmax).
    split; [by apply Hei|]. split; [by apply Hmi|]. split; [done|].
    split; [done|]. split; [by intros ->|].
    intros m' Hm'. by apply Hmax, Hmi.
  - intros e m He Hm Hthr Hpos Hempty. rewrite Hfm.
    rewrite decide_True by by apply Hei.
    pose proof (best_candidate_found token_sort_ratio fuzzy_threshold e missing_iter) as Hb.
    unfold best_found in Hb.
    destruct (best_candidate _ _ _ _).1 as [b|].
    + destruct Hb as (Hb & _).
      destruct (Str.truthy b) eqn:Et; [by eexists|].
      apply truthy_empty in Et as ->. exfalso. apply Hempty.
      by apply Hmi, Hmiss in Hb as [? _].
    + destruct Hb as (_ & Hnone). exfalso. apply (Hnone m); [by apply Hmi|done].
  - intros e Hlow. rewrite Hfm.
    destruct (decide (e ∈ extra_iter)) as [He|]; [|done].
    pose proof (best_candidate_found token_sort_ratio fuzzy_threshold e missing_iter) as Hb.
    unfold best_found in Hb.
    destruct (best_candidate _ _ _ _).1 as [b|]; [|done].
    destruct Hb as (Hb & _ & Hthr & _). exfalso.
    apply Hmi, Hlow in Hb. by apply Qlt_not_le in Hb.
  - intros e Hnone. rewrite Hfm.
    destruct (decide (e ∈ extra_iter)) as [He|]; [|done].
    pose proof (best_candidate_found token_sort_ratio fuzzy_threshold e missing_iter) as Hb.
    unfold best_found in Hb.
    destruct (best_candidate _ _ _ _).1 as [b|]; [|done].
    destruct Hb as (Hb & _ & Hthr & Hpos & _). exfalso.
    apply Hmi in Hb. by apply (Hnone b).
Qed.

End header_diff_properties.

(** The theorem on the headers of the test suite, scored by
    [token_sort_ratio] with the threshold 80: the renamed header is
    suggested for the header that differs from it by case. *)
Lemma compute_header_diff_spec_witness :
  is_Some (HeaderDiff.fuzzy_matches
             (compute_header_diff (λ l, l) RapidFuzz.token_sort_ratio
                ["Temperature_1"; "Pressure_Main"]
                ["Temperature_1"; "Pressure_main"] 80)
           !! "Pressure_main").
Proof.
  destruct (compute_header_diff_spec (λ l, l) RapidFuzz.token_sort_ratio id_is_order
              ["Temperature_1"; "Pressure_Main"]
              ["Temperature_1"; "Pressure_main"] 80)
    as (_ & _ & _ & _ & _ & Haccept & _).
  apply (Haccept "Pressure_main" "Pressure_Main").
  - vm_compute. by left.
  - vm_compute. by left.
  - vm_compute. by intros ?.
  - vm_compute. reflexivity.
  - intros Hin. apply elem_of_cons in Hin as [?|Hin]; [done|].
    apply elem_of_cons in Hin as [?|Hin]; [done|]. by apply elem_of_nil in Hin.
Defined.

(** The claim as stated fails at the threshold 0: ["abc"] and ["xyz"] have
    no character in common, the score 0 equals the threshold, and no
    suggestion is made. *)
Lemma compute_header_diff_zero_counterexample :
  let d := compute_header_diff (λ l, l) RapidFuzz.token_sort_ratio
             ["abc"] ["xyz"] 0 in
  HeaderDiff.missing d = ["abc"]
  ∧ HeaderDiff.extra d = ["xyz"]
  ∧ Qeq_bool (RapidFuzz.token_sort_ratio (Str.lower "xyz") (Str.lower "abc"))
             (inject_Z 0) = true
  ∧ HeaderDiff.fuzzy_matches d !! "xyz" = None.
Proof. repeat split; vm_compute; reflexivity. Qed.

(** ** Serialization *)

Lemma read_all_strs (l : list string) :
  Dyn.read_all Dyn.as_str (VStr <$> l) = Ok l.
Proof.
  induction l as [|x l IH]; [done|].
  rewrite fmap_cons. cbn [Dyn.read_all Dyn.as_str py_bind]. by rewrite IH.
Qed.

Lemma as_str_list_of_str_list (l : list string) :
  Dyn.as_list Dyn.as_str (Dyn.of_str_list l) = Ok l.
Proof. apply read_all_strs. Qed.

Lemma time_mode_of_name (m : TimeMode.t) : TimeMode.of_name (TimeMode.name m) = Ok m.
Proof. by destruct m. Qed.

Lemma join_strategy_of_name (s : JoinStrategy.t) :
  JoinStrategy.of_name (JoinStrategy.name s) = Ok s.
Proof. by destruct s. Qed.

Lemma join_strategy_name_truthy (s : JoinStrategy.t) :
  Str.truthy (JoinStrategy.name s) = true.
Proof. by destruct s. Qed.

Lemma as_opt_float_of_opt_float (o : option pyfloat) :
  Dyn.as_opt_float (Dyn.of_opt_float o) = Ok o.
Proof. by destruct o. Qed.

Lemma as_opt_str_of_opt_str (o : option string) :
  Dyn.as_opt_str (Dyn.of_opt_str o) = Ok o.
Proof. by destruct o. Qed.

(** Reading back the entries of a dictionary written by [g]. *)
Lemma read_items_fmap {A} (f : PyVal → PyResult A) (g : A → PyVal)
    (m target : gmap string A) :
  (∀ a, f (g a) = Ok a) →
  Dyn.read_items f (g <$> m) target = Ok (m ∪ target).
Proof.
  intros Hfg. unfold Dyn.read_items.
  generalize (eq_refl (g <$> m)). generalize (g <$> m) at 1 3 as d. intros d.
  revert m.
  apply (map_fold_weak_ind
           (λ r d, ∀ m, d = g <$> m → r = Ok (m ∪ target))).
  - intros m Hm. symmetry in Hm. apply fmap_empty_inv in Hm as ->.
    by rewrite (left_id_L ∅ (∪)).
  - intros k v d' r Hk IH m Hm.
    assert (Hv : (g <$> m) !! k = Some v) by by rewrite <- Hm, lookup_insert_eq.
    rewrite lookup_fmap in Hv.
    destruct (m !! k) as [a|] eqn:Ha; [|done]. injection Hv as <-.
    rewrite (IH (delete k m)).
    + simpl. rewrite Hfg. simpl. f_equal.
      rewrite insert_union_l, insert_delete_id; done.
    + apply map_eq. intros j. rewrite lookup_fmap.
      destruct (decide (j = k)) as [->|Hne].
      * by rewrite lookup_delete_eq.
      * rewrite lookup_delete_ne by done.
        rewrite <- lookup_fmap, <- Hm. by rewrite lookup_insert_ne.
Qed.

(** The entries of the dictionaries [to_dict] builds. *)
Lemma channel_dict_entries (v1 v2 v3 v4 v5 : PyVal) :
  let data : gmap string PyVal :=
    list_to_map [("original_name", v1); ("display_name", v2); ("unit", v3);
                 ("category", v4); ("description", v5)] in
  data !! "original_name" = Some v1 ∧ data !! "display_name" = Some v2
  ∧ data !! "unit" = Some v3 ∧ data !! "category" = Some v4
  ∧ data !! "description" = Some v5.
Proof. vm_compute. by repeat split. Qed.

Lemma filter_dict_entries (v1 v2 v3 v4 v5 v6 v7 : PyVal) :
  let data : gmap string PyVal :=
    list_to_map [("time_min", v1); ("time_max", v2); ("channel_filters", v3);
                 ("text_search", v4); ("category_filter", v5);
                 ("unit_filter", v6); ("enabled", v7)] in
  data !! "time_min" = Some v1 ∧ data !! "time_max" = Some v2
  ∧ data !! "channel_filters" = Some v3 ∧ data !! "text_search" = Some v4
  ∧ data !! "category_filter" = Some v5 ∧ data !! "unit_filter" = Some v6
  ∧ data !! "enabled" = Some v7.
Proof. vm_compute. by repeat split. Qed.

Lemma file_dict_entries (v1 v2 v3 v4 v5 v6 v7 v8 v9 v10 v11 v12 v13 v14 : PyVal) :
  let data : gmap string PyVal :=
    list_to_map [("id", v1); ("filepath", v2); ("filename", v3);
                 ("delimiter", v4); ("encoding", v5); ("headers", v6);
                 ("channel_metadata", v7); ("time_column", v8);
                 ("time_mode", v9); ("time_offset", v10); ("time_scale", v11);
                 ("join_strategy", v12); ("join_key", v13);
                 ("join_tolerance", v14)] in
  data !! "id" = Some v1 ∧ data !! "filepath" = Some v2
  ∧ data !! "filename" = Some v3 ∧ data !! "delimiter" = Some v4
  ∧ data !! "encoding" = Some v5 ∧ data !! "headers" = Some v6
  ∧ data !! "channel_metadata" = Some v7 ∧ data !! "time_column" = Some v8
  ∧ data !! "time_mode" = Some v9 ∧ data !! "time_offset" = Some v10
  ∧ data !! "time_scale" = Some v11 ∧ data !! "join_strategy" = Some v12
  ∧ data !! "join_key" = Some v13 ∧ data !! "join_tolerance" = Some v14.
Proof. vm_compute. by repeat split. Qed.

Lemma test_dict_entries (v1 v2 v3 v4 v5 v6 v7 v8 v9 v10 : PyVal) :
  let data : gmap string PyVal :=
    list_to_map [("id", v1); ("name", v2); ("description", v3);
                 ("data_files", v4); ("canonical_headers", v5);
                 ("canonical_metadata", v6); ("primary_time_column", v7);
                 ("filter_state", v8); ("compare_time_offset", v9);
                 ("color", v10)] in
  data !! "id" = Some v1 ∧ data !! "name" = Some v2
  ∧ data !! "description" = Some v3 ∧ data !! "data_files" = Some v4
  ∧ data !! "canonical_headers" = Some v5 ∧ data !! "canonical_metadata" = Some v6
  ∧ data !! "primary_time_column" = Some v7 ∧ data !! "filter_state" = Some v8
  ∧ data !! "compare_time_offset" = Some v9 ∧ data !! "color" = Some v10.
Proof. vm_compute. by repeat split. Qed.

Lemma channel_metadata_roundtrip (c : ChannelMetadata.t) :
  ChannelMetadata.from_dict (ChannelMetadata.to_dict c) = Ok c.
Proof.
  destruct c as [n dn u cat desc].
  unfold ChannelMetadata.from_dict, ChannelMetadata.to_dict, Dyn.item, Dyn.get.
  simpl ChannelMetadata.original_name. simpl ChannelMetadata.display_name.
  simpl ChannelMetadata.unit. simpl ChannelMetadata.category.
  simpl ChannelMetadata.description.
  destruct (channel_dict_entries (VStr n) (VStr dn) (VStr u) (VStr cat) (VStr desc))
    as (-> & -> & -> & -> & ->).
  reflexivity.
Qed.

Lemma channel_metadata_of_val (c : ChannelMetadata.t) :
  ChannelMetadata.of_val (VDict (ChannelMetadata.to_dict c)) = Ok c.
Proof. unfold ChannelMetadata.of_val. simpl. apply channel_metadata_roundtrip. Qed.

Lemma bounds_roundtrip (b : option pyfloat * option pyfloat) :
  FilterState.bounds_of_val (FilterState.bounds_to_val b) = Ok b.
Proof. by destruct b as [[lo|] [hi|]]. Qed.

Lemma filter_state_roundtrip (fs : FilterState.t) :
  FilterState.from_dict (FilterState.to_dict fs) = Ok fs.
Proof.
  destruct fs as [tmin tmax cf text cat unit_ en].
  unfold FilterState.from_dict, FilterState.to_dict, Dyn.get.
  simpl FilterState.time_min. simpl FilterState.time_max.
  simpl FilterState.channel_filters. simpl FilterState.text_search.
  simpl FilterState.category_filter. simpl FilterState.unit_filter.
  simpl FilterState.enabled.
  destruct (filter_dict_entries (Dyn.of_opt_float tmin) (Dyn.of_opt_float tmax)
              (VDict (FilterState.bounds_to_val <$> cf)) (VStr text)
              (Dyn.of_str_list cat) (Dyn.of_str_list unit_) (VBool en))
    as (-> & -> & -> & -> & -> & -> & ->).
  simpl default. rewrite !as_opt_float_of_opt_float. simpl.
  rewrite (read_items_fmap _ _ cf ∅ bounds_roundtrip). simpl.
  rewrite !read_all_strs. simpl.
  by rewrite (right_id_L ∅ (∪)).
Qed.

Lemma post_init_named (d : DataFile.t) :
  DataFile.filename d ≠ "" → DataFile.__post_init__ d = d.
Proof.
  intros Hn. unfold DataFile.__post_init__.
  destruct (Str.truthy (DataFile.filename d)) eqn:E; [done|].
  by apply truthy_empty in E.
Qed.

Lemma post_init_idempotent (d : DataFile.t) :
  DataFile.__post_init__ (DataFile.__post_init__ d) = DataFile.__post_init__ d.
Proof.
  unfold DataFile.__post_init__ at 2.
  destruct (Str.truthy (DataFile.filename d)) eqn:E; simpl.
  - unfold DataFile.__post_init__. by rewrite E.
  - unfold DataFile.__post_init__. simpl. rewrite E. simpl.
    by destruct (Str.truthy (DataFile.path_name (DataFile.filepath d))).
Qed.

Lemma data_file_roundtrip (uuid : string) (d : DataFile.t) :
  DataFile.from_dict uuid (DataFile.to_dict d)
  = Ok (DataFile.__post_init__ (DataFile.with_dataframe None d)).
Proof.
  destruct d as [i fp fn dl en hs meta frame tc tm toff tsc js jk jt].
  unfold DataFile.from_dict, DataFile.to_dict, Dyn.item, Dyn.get.
  cbn [DataFile.id DataFile.filepath DataFile.filename DataFile.delimiter
       DataFile.encoding DataFile.headers DataFile.channel_metadata
       DataFile.dataframe DataFile.time_column DataFile.time_mode
       DataFile.time_offset DataFile.time_scale DataFile.join_strategy
       DataFile.join_key DataFile.join_tolerance].
  destruct (file_dict_entries (VStr i) (VStr fp) (VStr fn) (VStr dl) (VStr en)
              (Dyn.of_str_list hs)
              (VDict ((λ v, VDict (ChannelMetadata.to_dict v)) <$> meta))
              (VStr tc) (VStr (TimeMode.name tm)) (VFloat toff) (VFloat tsc)
              (match js with Some s => VStr (JoinStrategy.name s) | None => VNone end)
              (Dyn.of_opt_str jk) (VFloat jt))
    as (-> & -> & -> & -> & -> & -> & -> & -> & -> & -> & -> & -> & -> & ->).
  cbn [default from_option id py_bind Dyn.as_str Dyn.as_float Dyn.as_dict].
  rewrite as_str_list_of_str_list, time_mode_of_name, as_opt_str_of_opt_str.
  cbn [py_bind].
  assert (Hjs : ∀ s, Dyn.truthy (VStr (JoinStrategy.name s)) = true)
    by apply join_strategy_name_truthy.
  destruct js as [s|];
    [rewrite Hjs; cbn [Dyn.as_str py_bind]; rewrite join_strategy_of_name
    |cbn [Dyn.truthy]];
    cbn [py_bind].
  all: unfold DataFile.__post_init__, DataFile.with_dataframe.
  all: cbn [DataFile.id DataFile.filepath DataFile.filename DataFile.delimiter
       DataFile.encoding DataFile.headers DataFile.channel_metadata
       DataFile.dataframe DataFile.time_column DataFile.time_mode
       DataFile.time_offset DataFile.time_scale DataFile.join_strategy
       DataFile.join_key DataFile.join_tolerance].
  all: destruct (Str.truthy fn); cbn [negb];
    unfold DataFile.with_filename;
    cbn [DataFile.id DataFile.filepath DataFile.filename DataFile.delimiter
         DataFile.encoding DataFile.headers DataFile.channel_metadata
         DataFile.dataframe DataFile.time_column DataFile.time_mode
         DataFile.time_offset DataFile.time_scale DataFile.join_strategy
         DataFile.join_key DataFile.join_tolerance];
    rewrite (read_items_fmap _ _ meta ∅ channel_metadata_of_val);
    cbn [py_bind]; by rewrite (right_id_L ∅ (∪)).
Qed.

Lemma read_files_roundtrip (uuids : nat → string) (k : nat) (files : list DataFile.t) :
  Test.read_files uuids k ((λ df, VDict (DataFile.to_dict df)) <$> files)
  = Ok ((λ df, DataFile.__post_init__ (DataFile.with_dataframe None df)) <$> files).
Proof.
  revert k. induction files as [|df files IH]; intros k; [done|].
  rewrite !fmap_cons. cbn [Test.read_files Dyn.as_dict py_bind].
  rewrite data_file_roundtrip. cbn [py_bind]. by rewrite IH.
Qed.

Lemma test_roundtrip (uuids : nat → string) (t : Test.t) :
  Test.from_dict uuids (Test.to_dict t)
  = Ok (Test.with_data_files
          ((λ df, DataFile.__post_init__ (DataFile.with_dataframe None df))
             <$> Test.data_files t) t).
Proof.
  destruct t as [i n desc files hs meta tc fs off col].
  unfold Test.from_dict, Test.to_dict, Dyn.get.
  cbn [Test.id Test.name Test.description Test.data_files Test.canonical_headers
       Test.canonical_metadata Test.primary_time_column Test.filter_state
       Test.compare_time_offset Test.color].
  destruct (test_dict_entries (VStr i) (VStr n) (VStr desc)
              (VList ((λ df, VDict (DataFile.to_dict df)) <$> files))
              (Dyn.of_str_list hs)
              (VDict ((λ v, VDict (ChannelMetadata.to_dict v)) <$> meta))
              (VStr tc) (VDict (FilterState.to_dict fs)) (VFloat off) (VStr col))
    as (-> & -> & -> & -> & -> & -> & -> & -> & -> & ->).
  cbn [default from_option id py_bind Dyn.as_str Dyn.as_float Dyn.as_dict].
  rewrite as_str_list_of_str_list. cbn [py_bind].
  rewrite read_files_roundtrip. cbn [py_bind].
  unfold Test.with_data_files, Test.with_canonical, Test.with_filter_state.
  cbn [Test.id Test.name Test.description Test.data_files Test.canonical_headers
       Test.canonical_metadata Test.primary_time_column Test.filter_state
       Test.compare_time_offset Test.color].
  rewrite (read_items_fmap _ _ meta ∅ channel_metadata_of_val). cbn [py_bind].
  rewrite filter_state_roundtrip. cbn [py_bind].
  by rewrite (right_id_L ∅ (∪)).
Qed.

(** C8.  Reading back what [to_dict] wrote gives the same object: the same
    FilterState; the same DataFile but for its table, which is not written
    (and for an empty [filename], which the constructor replaces by the
    name of the path as it does for every DataFile it builds); the same
    Test, its files read back in that way. *)
Theorem to_dict_from_dict_roundtrip :
  (∀ fs, FilterState.from_dict (FilterState.to_dict fs) = Ok fs)
  ∧ (∀ uuid d,
       DataFile.from_dict uuid (DataFile.to_dict d)
       = Ok (DataFile.__post_init__ (DataFile.with_dataframe None d)))
  ∧ (∀ d, DataFile.filename d ≠ "" → DataFile.__post_init__ d = d)
  ∧ (∀ uuid d,
       let built := DataFile.__post_init__ d in
       DataFile.from_dict uuid (DataFile.to_dict built)
       = Ok (DataFile.with_dataframe None built))
  ∧ (∀ uuids t,
       Test.from_dict uuids (Test.to_dict t)
       = Ok (Test.with_data_files
               ((λ df, DataFile.__post_init__ (DataFile.with_dataframe None df))
                  <$> Test.data_files t) t)).
Proof.
  split; [apply filter_state_roundtrip|].
  split; [apply data_file_roundtrip|].
  split; [apply post_init_named|].
  split; [|apply test_roundtrip].
  intros uuid d built. rewrite data_file_roundtrip. f_equal.
  unfold built.
  replace (DataFile.with_dataframe None (DataFile.__post_init__ d))
    with (DataFile.__post_init__ (DataFile.with_dataframe None d)).
  - change (DataFile.__post_init__ (DataFile.with_dataframe None d))
      with (DataFile.__post_init__ (DataFile.with_dataframe None d)).
    unfold DataFile.__post_init__. simpl.
    destruct (Str.truthy (DataFile.filename d)) eqn:E; simpl.
    + by rewrite E.
    + by destruct (Str.truthy (DataFile.path_name (DataFile.filepath d))).
  - unfold DataFile.__post_init__. simpl.
    by destruct (Str.truthy (DataFile.filename d)).
Qed.

(** ** The merge: columns *)





Lemma sort_values_columns (df sorted : DataFrame) (by_ : string) :
  sort_values df by_ = Ok sorted → columns sorted = columns df.
Proof.
  unfold sort_values. destruct (index_of by_ (columns df)); [|done].
  by intros [= <-].
Qed.

Lemma apply_to_dataframe_columns (fs : FilterState.t) (df : DataFrame)
    (time_column : string) :
  columns (FilterState.apply_to_dataframe fs df time_column) = columns df.
Proof.
  unfold FilterState.apply_to_dataframe.
  by destruct (negb (FilterState.enabled fs) || Pandas.empty df).
Qed.



Lemma merge_default_ok (result temp_df : DataFrame) :
  PLOT_TIME ∈ columns result → PLOT_TIME ∈ columns temp_df →
  NoDup (right_labels result temp_df PLOT_TIME "_dup") →
  ∃ merged, Test.merge_default result temp_df = Ok merged.
Proof.
  intros [i Hi]%index_of_elem [j Hj]%index_of_elem Hnd.
  unfold Test.merge_default, merge_outer. rewrite Hi, Hj.
  rewrite bool_decide_true by done. cbn [py_bind]. by eexists.
Qed.




Lemma py_foldl_app {A B} (f : A → B → PyResult A) (a : A) (l k : list B) :
  py_foldl f a (l ++ k) = let! a' := py_foldl f a l in py_foldl f a' k.
Proof.
  revert a. induction l as [|x l IH]; intros a; [done|].
  cbn [app py_foldl]. destruct (f a x); [|done]. cbn [py_bind]. apply IH.
Qed.



(** The last steps of [get_merged_dataframe] keep the columns. *)
Lemma get_merged_dataframe_columns (t : Test.t) (apply_filter : bool)
    (r : DataFrame) (first : DataFile.t) (rest : list DataFile.t) :
  Test.data_files t = first :: rest →
  Test.get_merged_dataframe t apply_filter = Ok r →
  ∃ result,
    py_foldl (Test.merge_file (time_col_of t first)) None (Test.data_files t)
    = Ok result
    ∧ columns r = columns (default empty_frame result).
Proof.
  intros Hfiles. unfold Test.get_merged_dataframe. rewrite Hfiles.
  fold (time_col_of t first).
  destruct (py_foldl _ None (first :: rest)) as [result|]; [|done].
  cbn [py_bind]. intros Hr. exists result. split; [done|].
  destruct result as [result|]; [|by injection Hr as <-].
  cbn [default from_option id].
  destruct (has_column PLOT_TIME result).
  - destruct (sort_values result PLOT_TIME) as [sorted|] eqn:Es; [|done].
    cbn [py_bind] in Hr. apply sort_values_columns in Es.
    destruct (apply_filter && FilterState.enabled (Test.filter_state t));
      injection Hr as <-; [by rewrite apply_to_dataframe_columns|done].
  - cbn [py_bind] in Hr.
    destruct (apply_filter && FilterState.enabled (Test.filter_state t));
      injection Hr as <-; [by rewrite apply_to_dataframe_columns|done].
Qed.



(** ** The merge: files appended as segments *)

Lemma index_of_lookup (c : string) (cols : list string) (i : nat) :
  index_of c cols = Some i → cols !! i = Some c.
Proof.
  revert i. induction cols as [|c' cols IH]; intros i; simpl; [done|].
  destruct (decide (c' = c)) as [->|Hne]; [by intros [= <-]|].
  destruct (index_of c cols) as [j|]; [|done].
  intros [= <-]. simpl. by apply IH.
Qed.


Lemma insert_row_perm (i : nat) (r : list pyfloat) (l : list (list pyfloat)) :
  insert_row i r l ≡ₚ r :: l.
Proof.
  induction l as [|r' l IH]; simpl; [done|].
  destruct (key_le (cell r i) (cell r' i)); [done|].
  rewrite IH. apply Permutation_swap.
Qed.

Lemma sort_rows_perm (i : nat) (l : list (list pyfloat)) : sort_rows i l ≡ₚ l.
Proof.
  unfold sort_rows. induction l as [|r l IH]; simpl; [done|].
  by rewrite insert_row_perm, IH.
Qed.














(** ** The merge: the alternative key *)

Lemma merge_file_join_key (time_col : string) (result : option DataFrame)
    (df : DataFile.t) (key : option string) :
  Test.merge_file time_col result
    (DataFile.with_join (DataFile.join_strategy df) key (DataFile.join_tolerance df) df)
  = Test.merge_file time_col result df.
Proof. by destruct df. Qed.

Lemma merge_files_join_key (time_col : string) (key_of : DataFile.t → option string)
    (files : list DataFile.t) (result : option DataFrame) :
  py_foldl (Test.merge_file time_col) result
    ((λ df, DataFile.with_join (DataFile.join_strategy df) (key_of df)
                               (DataFile.join_tolerance df) df) <$> files)
  = py_foldl (Test.merge_file time_col) result files.
Proof.
  revert result. induction files as [|df files IH]; intros result; [done|].
  rewrite fmap_cons. cbn [py_foldl]. rewrite merge_file_join_key.
  destruct (Test.merge_file time_col result df); [|done]. cbn [py_bind]. apply IH.
Qed.

(** [get_merged_dataframe] does not read the join key of any file. *)
Lemma get_merged_dataframe_join_key (t : Test.t) (apply_filter : bool)
    (key_of : DataFile.t → option string) :
  Test.get_merged_dataframe (with_join_keys key_of t) apply_filter
  = Test.get_merged_dataframe t apply_filter.
Proof.
  unfold Test.get_merged_dataframe, with_join_keys.
  cbn [Test.data_files Test.with_data_files Test.primary_time_column
       Test.filter_state].
  destruct (Test.data_files t) as [|first rest]; [done|].
  set (g := λ df, DataFile.with_join (DataFile.join_strategy df) (key_of df)
                    (DataFile.join_tolerance df) df).
  change (g <$> first :: rest) with (g first :: (g <$> rest)).
  cbv iota.
  change (g first :: (g <$> rest)) with (g <$> first :: rest).
  replace (DataFile.time_column (g first)) with (DataFile.time_column first)
    by by destruct first.
  unfold g. by rewrite merge_files_join_key.
Qed.

(** C2 on the code: a file added with ALTERNATIVE_KEY is folded in by the
    default branch, an outer join on the plot time, and its join key is not
    read.  Two files sharing the key column ["ID"] are not joined on it: the
    merged table has their four rows, where [merge_on_alternative_key] on
    ["ID"] joins them into two. *)
Theorem alternative_key_not_used :
  (∀ t apply_filter key_of,
     Test.get_merged_dataframe (with_join_keys key_of t) apply_filter
     = Test.get_merged_dataframe t apply_filter)
  ∧ (∀ df result temp_df,
       DataFile.join_strategy df = Some JoinStrategy.ALTERNATIVE_KEY →
       Test.merge_step df result temp_df = Test.merge_default result temp_df)
  ∧ plot_tables Examples.keyed_test
    = [Examples.keyed_base_plot; Examples.keyed_new_plot]
  ∧ Test.get_merged_dataframe Examples.keyed_test false
    = Ok (mkDataFrame ["ID"; "Time"; "A"; "_plot_time_"; "B"]
            [[Examples.q 1; Examples.q 0; Examples.q 10; Examples.q 0; NaN];
             [Examples.q 2; Examples.q 1; Examples.q 20; Examples.q 1; NaN];
             [NaN; NaN; NaN; Examples.q 5; Examples.q 200];
             [NaN; NaN; NaN; Examples.q 6; Examples.q 100]])
  ∧ DataMerger.merge_on_alternative_key
      Examples.keyed_base_plot Examples.keyed_new_plot "ID"
    = Ok (mkDataFrame ["ID"; "Time"; "A"; "_plot_time_"; "B"]
            [[Examples.q 1; Examples.q 0; Examples.q 10; Examples.q 0; Examples.q 100];
             [Examples.q 2; Examples.q 1; Examples.q 20; Examples.q 1; Examples.q 200]]).
Proof.
  split; [apply get_merged_dataframe_join_key|].
  split; [by intros df result temp_df; unfold Test.merge_step; intros ->|].
  repeat split; vm_compute; reflexivity.
Qed.

(** ** Comparison of tests *)

Lemma enumerate_from_cons {A} (k : nat) (x : A) (l : list A) :
  enumerate_from k (x :: l) = (k, x) :: enumerate_from (S k) l.
Proof. done. Qed.

Lemma enumerate_from_app {A} (k : nat) (l1 l2 : list A) :
  enumerate_from k (l1 ++ l2)
  = enumerate_from k l1 ++ enumerate_from (k + length l1) l2.
Proof.
  revert k. induction l1 as [|x l1 IH]; intros k.
  - cbn [app length]. by rewrite Nat.add_0_r.
  - cbn [app]. rewrite !enumerate_from_cons, IH. cbn [app length].
    by rewrite Nat.add_succ_r.
Qed.

Lemma concatenate_step_empty (self : TestComparer.t) (sel : list string)
    (state : gmap string DataFrame * pyfloat) (i : nat) (test : Test.t)
    (df : DataFrame) :
  Test.get_merged_dataframe test true = Ok df → Pandas.empty df = true →
  TestComparer.concatenate_step self sel state (i, test) = Ok state.
Proof.
  intros Hdf He. unfold TestComparer.concatenate_step. destruct state as [res off].
  rewrite Hdf. cbn [py_bind]. by rewrite He.
Qed.

Lemma concatenate_step_later (self : TestComparer.t) (sel : list string)
    (state : gmap string DataFrame * pyfloat) (i j : nat) (test : Test.t) :
  TestComparer.concatenate_step self sel state (S i, test)
  = TestComparer.concatenate_step self sel state (S j, test).
Proof.
  unfold TestComparer.concatenate_step. destruct state as [res off].
  destruct (decide (0 < S i)%nat), (decide (0 < S j)%nat); try lia. done.
Qed.

Lemma setitem_same (df : DataFrame) (c : string) (i : nat) :
  index_of c (columns df) = Some i →
  setitem df c (map (λ x, Float.add x Float.zero) (column_at df i)) = Ok df.
Proof.
  intros Hi. unfold setitem. rewrite Hi.
  rewrite decide_True by (unfold column_at; by rewrite !length_map).
  f_equal. destruct df as [cols rs]. cbn [columns rows]. f_equal.
  unfold column_at. cbn [rows]. rewrite map_map.
  induction rs as [|r rs IH]; [done|]. cbn [map zip_with]. rewrite IH by done.
  f_equal.
  rewrite Float_add_zero. unfold cell.
  destruct (r !! i) as [x|] eqn:Ex.
  - by apply list_insert_id.
  - apply list_insert_ge. by apply lookup_ge_None.
Qed.

Lemma select_columns_columns (df selected : DataFrame) (cols : list string) :
  select_columns df cols = Ok selected → columns selected = cols.
Proof.
  unfold select_columns. destruct (list_find _ cols) as [[? ?]|]; [done|].
  by intros [= <-].
Qed.

(** With no offset accumulated yet, shifting by it changes nothing. *)
Lemma concatenate_step_first (self : TestComparer.t) (sel : list string)
    (result : gmap string DataFrame) (test : Test.t) :
  TestComparer.concatenate_step self sel (result, Float.zero) (1%nat, test)
  = TestComparer.concatenate_step self sel (result, Float.zero) (0%nat, test).
Proof.
  unfold TestComparer.concatenate_step.
  destruct (Test.get_merged_dataframe test true) as [df|]; [|done].
  cbn [py_bind]. destruct (Pandas.empty df); [done|].
  destruct (select_columns df _) as [df_copy|] eqn:Es; [|done]. cbn [py_bind].
  destruct (decide (0 < 1)%nat), (decide (0 < 0)%nat); try lia.
  unfold getitem.
  (* the selection starts with the plot time *)
  apply select_columns_columns in Es.
  assert (Ek : index_of PLOT_TIME (columns df_copy) = Some 0%nat).
  { rewrite Es. unfold TestComparer.cols_to_keep. cbn [index_of].
    by rewrite decide_True. }
  rewrite Ek. cbn [py_bind]. by rewrite setitem_same.
Qed.

Lemma concatenate_later (self : TestComparer.t) (sel : list string)
    (tests : list Test.t) (state : gmap string DataFrame * pyfloat) (i j : nat) :
  py_foldl (TestComparer.concatenate_step self sel) state
           (enumerate_from (S i) tests)
  = py_foldl (TestComparer.concatenate_step self sel) state
             (enumerate_from (S j) tests).
Proof.
  revert state i j. induction tests as [|test tests IH]; intros state i j; [done|].
  rewrite !enumerate_from_cons. cbn [py_foldl].
  rewrite (concatenate_step_later self sel state i j).
  destruct (TestComparer.concatenate_step self sel state (S j, test)); [|done].
  cbn [py_bind]. apply IH.
Qed.

Lemma concatenate_first (self : TestComparer.t) (sel : list string)
    (tests : list Test.t) (result : gmap string DataFrame) :
  py_foldl (TestComparer.concatenate_step self sel) (result, Float.zero)
           (enumerate_from 1 tests)
  = py_foldl (TestComparer.concatenate_step self sel) (result, Float.zero)
             (enumerate_from 0 tests).
Proof.
  destruct tests as [|test tests]; [done|].
  rewrite !enumerate_from_cons. cbn [py_foldl].
  rewrite concatenate_step_first.
  destruct (TestComparer.concatenate_step self sel _ (0%nat, test)); [|done].
  cbn [py_bind]. apply concatenate_later.
Qed.

(** In the concatenate mode, a test whose merged table is empty leaves no
    trace in the prepared tables. *)
Lemma prepare_skips_empty_test (self : TestComparer.t)
    (tests1 tests2 : list Test.t) (test : Test.t) (sel : list string)
    (df : DataFrame) :
  TestComparer.mode self = CompareMode.CONCATENATE →
  Test.get_merged_dataframe test true = Ok df → Pandas.empty df = true →
  TestComparer.prepare_tests_for_comparison self (tests1 ++ test :: tests2) sel
  = TestComparer.prepare_tests_for_comparison self (tests1 ++ tests2) sel.
Proof.
  intros Hmode Hdf He. unfold TestComparer.prepare_tests_for_comparison.
  rewrite Hmode. f_equal.
  change (enumerate (tests1 ++ test :: tests2))
    with (enumerate_from 0 (tests1 ++ test :: tests2)).
  change (enumerate (tests1 ++ tests2)) with (enumerate_from 0 (tests1 ++ tests2)).
  rewrite !enumerate_from_app, !py_foldl_app, enumerate_from_cons.
  destruct (py_foldl _ _ (enumerate_from 0 tests1)) as [state|] eqn:E1; [|done].
  cbn [py_bind py_foldl].
  rewrite (concatenate_step_empty self sel state _ test df Hdf He). cbn [py_bind].
  destruct tests1 as [|t1 tests1].
  - cbn in E1. injection E1 as <-. apply concatenate_first.
  - cbn [length Nat.add]. apply concatenate_later.
Qed.

(** C7 on the code.  [prepare_tests_for_comparison] skips a test whose
    merged table is empty: the prepared tables are those of the list without
    it.  [get_combined_time_range] does not: for a test of 10 seconds, a test
    with no file and a test of 8 seconds, with a gap of 1, it gives
    [(0, 20)], and [(0, 19)] for the list without the empty test. *)
Theorem combined_time_range_counts_empty_test :
  (∀ self tests1 tests2 test sel df,
     TestComparer.mode self = CompareMode.CONCATENATE →
     Test.get_merged_dataframe test true = Ok df → Pandas.empty df = true →
     TestComparer.prepare_tests_for_comparison self (tests1 ++ test :: tests2) sel
     = TestComparer.prepare_tests_for_comparison self (tests1 ++ tests2) sel)
  ∧ Test.get_merged_dataframe Examples.test_none true = Ok empty_frame
  ∧ Pandas.empty empty_frame = true
  ∧ TestComparer.get_combined_time_range Examples.concatenate_gap_1
      [Examples.test_10; Examples.test_none; Examples.test_8]
    = (Examples.q 0, Examples.q 20)
  ∧ TestComparer.get_combined_time_range Examples.concatenate_gap_1
      [Examples.test_10; Examples.test_8]
    = (Examples.q 0, Examples.q 19).
Proof.
  split; [apply prepare_skips_empty_test|].
  repeat split; vm_compute; reflexivity.
Qed.
(** ** Grouping the channels *)

Lemma file_header_under (t : Test.t)
    (result : gmap string (gmap string (list string))) (h c u : string) :
  channels_under (TestChannels.file_header t result h) c u
  = if decide (TestChannels.group_of t h = (c, u))
    then Some (default [] (channels_under result c u) ++ [h])
    else channels_under result c u.
Proof.
  unfold TestChannels.file_header, channels_under.
  destruct (TestChannels.group_of t h) as [category unit] eqn:Eg.
  destruct (decide (category = c)) as [->|Hc].
  - rewrite lookup_insert_eq. simpl.
    destruct (decide (unit = u)) as [->|Hu].
    + rewrite lookup_insert_eq.
      destruct (decide ((c, u) = (c, u))); [|done]. f_equal. f_equal.
      destruct (result !! c) as [units|] eqn:Er; simpl;
        repeat case_decide; try done;
        rewrite ?Er, ?lookup_insert_eq in *; simpl in *;
        repeat case_decide; rewrite ?lookup_insert_eq; try done.
      by rewrite H.
    + rewrite lookup_insert_ne by done.
      destruct (decide ((c, unit) = (c, u))); [congruence|].
      destruct (result !! c) as [units|] eqn:Er; simpl;
        repeat case_decide; try done;
        rewrite ?Er, ?lookup_insert_eq in *; simpl in *;
        repeat case_decide; rewrite ?lookup_insert_ne by done; try done.
  - rewrite lookup_insert_ne by done.
    destruct (decide ((category, unit) = (c, u))); [congruence|].
    destruct (decide (result !! category = None)); [|done].
    by rewrite lookup_insert_ne.
Qed.

Lemma file_header_inhabited (t : Test.t)
    (result : gmap string (gmap string (list string))) (h : string) :
  (∀ c units, result !! c = Some units → units ≠ ∅) →
  ∀ c units, TestChannels.file_header t result h !! c = Some units → units ≠ ∅.
Proof.
  intros Hinv c units. unfold TestChannels.file_header.
  destruct (TestChannels.group_of t h) as [category unit].
  destruct (decide (category = c)) as [->|Hc].
  - rewrite lookup_insert_eq. intros [= <-]. apply insert_non_empty.
  - rewrite lookup_insert_ne by done.
    destruct (decide (result !! category = None)).
    + rewrite lookup_insert_ne by done. apply Hinv.
    + apply Hinv.
Qed.

(** X1: [get_channels_by_category] files every canonical header once, under
    the category and the unit of its metadata (["Unknown"] and ["No Unit"]
    when the metadata has none or the header has no metadata): the names
    under a category and a unit are the canonical headers of that group, in
    canonical order, and no category or unit is listed without a header. *)
Theorem channels_by_category_partition (t : Test.t) :
  let groups := TestChannels.get_channels_by_category t in
  (∀ category unit,
     channels_under groups category unit
     = let names := filter (λ h, TestChannels.group_of t h = (category, unit))
                           (Test.canonical_headers t) in
       if decide (names = []) then None else Some names)
  ∧ (∀ category units, groups !! category = Some units → units ≠ ∅).
Proof.
  unfold TestChannels.get_channels_by_category.
  induction (Test.canonical_headers t) as [|h l IH] using rev_ind.
  - simpl. split.
    + intros c u. unfold channels_under. by rewrite lookup_empty.
    + intros c units. by rewrite lookup_empty.
  - rewrite foldl_app. simpl. destruct IH as [IH1 IH2]. split.
    + intros c u. rewrite file_header_under, IH1. simpl.
      rewrite filter_app, filter_cons, filter_nil.
      destruct (decide (TestChannels.group_of t h = (c, u))).
      * destruct (decide (filter _ l = [])) as [->|Hne]; simpl.
        -- done.
        -- case_decide as Hnil; [|done]. by apply app_eq_nil in Hnil as [? _].
      * by rewrite app_nil_r.
    + by apply file_header_inhabited.
Qed.

(** ** The files of a test *)

Lemma find_file_cons (file_id : string) (df : DataFile.t) (l : list DataFile.t) :
  find_file file_id (df :: l)
  = if decide (DataFile.id df = file_id) then Some df else find_file file_id l.
Proof.
  unfold find_file. simpl. destruct (decide (DataFile.id df = file_id)); [done|].
  by destruct (list_find _ l) as [[? ?]|].
Qed.

Lemma find_file_app (file_id : string) (l k : list DataFile.t) :
  find_file file_id (l ++ k)
  = match find_file file_id l with
    | Some g => Some g
    | None => find_file file_id k
    end.
Proof.
  induction l as [|df l IH]; [done|].
  rewrite <- app_comm_cons, !find_file_cons.
  by destruct (decide (DataFile.id df = file_id)).
Qed.

Lemma find_file_None (file_id : string) (l : list DataFile.t) :
  find_file file_id l = None ↔ file_id ∉ DataFile.id <$> l.
Proof.
  induction l as [|df l IH].
  - split; [intros _; apply not_elem_of_nil|done].
  - rewrite find_file_cons, fmap_cons, not_elem_of_cons.
    destruct (decide (DataFile.id df = file_id)); naive_solver.
Qed.

Lemma pop_first_find (file_id : string) (l : list DataFile.t) :
  is_Some (Test.pop_first file_id l) ↔ is_Some (find_file file_id l).
Proof.
  induction l as [|df l IH]; simpl.
  - unfold find_file. simpl. split; intros [? [=]].
  - rewrite find_file_cons. destruct (decide (DataFile.id df = file_id)).
    + split; intros _; eauto.
    + rewrite <- IH. by rewrite fmap_is_Some.
Qed.

Lemma pop_first_other (file_id other : string) (l l' : list DataFile.t) :
  Test.pop_first file_id l = Some l' → other ≠ file_id →
  find_file other l' = find_file other l.
Proof.
  revert l'. induction l as [|df l IH]; intros l'; simpl; [done|].
  destruct (decide (DataFile.id df = file_id)) as [E|E].
  - intros [= ->] Hne. rewrite find_file_cons.
    destruct (decide (DataFile.id df = other)); [congruence|done].
  - destruct (Test.pop_first file_id l) as [r|]; simpl; [|done].
    intros [= <-] Hne. rewrite !find_file_cons. by rewrite (IH r).
Qed.

Lemma pop_first_removed (file_id : string) (l l' : list DataFile.t) :
  Test.pop_first file_id l = Some l' →
  length l = S (length l')
  ∧ (NoDup (DataFile.id <$> l) → find_file file_id l' = None).
Proof.
  revert l'. induction l as [|df l IH]; intros l'; simpl; [done|].
  destruct (decide (DataFile.id df = file_id)) as [E|E].
  - intros [= ->]. split; [done|]. rewrite NoDup_cons. intros [Hni _].
    apply find_file_None. by rewrite <- E.
  - destruct (Test.pop_first file_id l) as [r|]; simpl; [|done].
    intros [= <-]. destruct (IH r eq_refl) as [Hlen Hnd]. split.
    + simpl. by rewrite Hlen.
    + rewrite NoDup_cons. intros [_ Hl]. rewrite find_file_cons.
      destruct (decide (DataFile.id df = file_id)); [done|]. by apply Hnd.
Qed.

(** X2: after [add_data_file], [get_data_file] finds the files it found
    before, and finds the added file under its id unless an earlier file of
    the test has the same id (the earlier file is then the one returned). *)
Theorem get_data_file_after_add (set_order : list string → list string)
    (t : Test.t) (data_file : DataFile.t) (file_id : string) :
  Test.get_data_file (Test.add_data_file set_order t data_file) file_id
  = match Test.get_data_file t file_id with
    | Some found => Some found
    | None => if decide (DataFile.id data_file = file_id)
              then Some data_file else None
    end.
Proof.
  unfold Test.get_data_file, Test.add_data_file.
  rewrite ?update_canonical_headers_files. simpl.
  change (find_file file_id (Test.data_files t ++ [data_file])
          = match find_file file_id (Test.data_files t) with
            | Some found => Some found
            | None => if decide (DataFile.id data_file = file_id)
                      then Some data_file else None
            end).
  rewrite find_file_app, find_file_cons. unfold find_file at 2. simpl.
  by destruct (decide (DataFile.id data_file = file_id)).
Qed.

(** X3: [remove_data_file] returns [True] exactly when the test has a file
    of the given id; when it returns [False] the test is unchanged; when it
    returns [True] one file is gone, the files of every other id are found
    as before, and, the ids of the files being distinct, no file of the
    given id is left. *)
Theorem remove_data_file_spec (set_order : list string → list string)
    (t : Test.t) (file_id : string) :
  let after := (Test.remove_data_file set_order t file_id).1 in
  let removed := (Test.remove_data_file set_order t file_id).2 in
  removed = bool_decide (is_Some (Test.get_data_file t file_id))
  ∧ (removed = false → after = t)
  ∧ (removed = true →
     length (Test.data_files t) = S (length (Test.data_files after))
     ∧ (NoDup (DataFile.id <$> Test.data_files t) →
        Test.get_data_file after file_id = None))
  ∧ (∀ other, other ≠ file_id →
       Test.get_data_file after other = Test.get_data_file t other).
Proof.
  unfold Test.remove_data_file.
  pose proof (pop_first_find file_id (Test.data_files t)) as Hfind.
  destruct (Test.pop_first file_id (Test.data_files t)) as [l|] eqn:Epop; simpl.
  - assert (is_Some (find_file file_id (Test.data_files t))) as Hs
      by (apply Hfind; eauto).
    split; [|split; [|split]].
    + symmetry. by apply bool_decide_eq_true.
    + done.
    + intros _. rewrite ?update_canonical_headers_files. simpl.
      apply pop_first_removed in Epop as [Hlen Hnone]. split; [done|].
      intros Hnd. unfold Test.get_data_file.
      rewrite ?update_canonical_headers_files. simpl. by apply Hnone.
    + intros other Hne. unfold Test.get_data_file.
      rewrite ?update_canonical_headers_files. simpl.
      by apply (pop_first_other file_id).
  - assert (¬ is_Some (find_file file_id (Test.data_files t))) as Hs.
    { intros H. apply Hfind in H as [? [=]]. }
    split; [|split; [|split]]; try done.
    symmetry. by apply bool_decide_eq_false.
Qed.

(** ** Time ranges *)

Lemma Float_lt_le (x y : pyfloat) : Float.lt x y = true → Float.le x y = true.
Proof.
  destruct x as [a| | |], y as [b| | |]; simpl; try done.
  rewrite negb_true_iff. intros H. apply Qle_bool_iff.
  destruct (Qlt_le_dec a b) as [Hlt|Hle]; [by apply Qlt_le_weak|].
  apply Qle_bool_iff in Hle. congruence.
Qed.

Lemma Float_not_lt_le (x y : pyfloat) :
  Float.isnan x = false → Float.isnan y = false →
  Float.lt x y = false → Float.le y x = true.
Proof.
  destruct x as [a| | |], y as [b| | |]; simpl; try done.
  intros _ _. by rewrite negb_false_iff.
Qed.

Lemma py_min_fold (l : list pyfloat) (acc : pyfloat) :
  Float.isnan acc = false → Spec.no_nan l →
  let m := foldl Float.py_min acc l in
  m ∈ acc :: l ∧ Float.le m acc = true ∧ ∀ y, y ∈ l → Float.le m y = true.
Proof.
  revert acc. induction l as [|x l IH]; intros acc Hacc Hl; simpl.
  - split; [left|]. split; [by apply Float_le_refl|]. by intros y ?%elem_of_nil.
  - apply Forall_cons in Hl as [Hx Hl]. 
    change (Float.py_min acc x) with (if Float.lt x acc then x else acc).
    destruct (Float.lt x acc) eqn:E.
    + destruct (IH x Hx Hl) as (Hin & Hle & Hall). split; [by right|].
      split; [apply (Float_le_trans _ x); [exact Hle|by apply Float_lt_le]|].
      intros y [->|Hy]%elem_of_cons; [done|by apply Hall].
    + destruct (IH acc Hacc Hl) as (Hin & Hle & Hall). split.
      { apply elem_of_cons in Hin as [->|Hin]; [left|right; by right]. }
      split; [done|].
      intros y [->|Hy]%elem_of_cons; [|by apply Hall].
      apply (Float_le_trans _ acc); [exact Hle|]. by apply Float_not_lt_le.
Qed.

Lemma py_max_fold (l : list pyfloat) (acc : pyfloat) :
  Float.isnan acc = false → Spec.no_nan l →
  let m := foldl Float.py_max acc l in
  m ∈ acc :: l ∧ Float.le acc m = true ∧ ∀ y, y ∈ l → Float.le y m = true.
Proof.
  revert acc. induction l as [|x l IH]; intros acc Hacc Hl; simpl.
  - split; [left|]. split; [by apply Float_le_refl|]. by intros y ?%elem_of_nil.
  - apply Forall_cons in Hl as [Hx Hl]. 
    change (Float.py_max acc x) with (if Float.lt acc x then x else acc).
    destruct (Float.lt acc x) eqn:E.
    + destruct (IH x Hx Hl) as (Hin & Hle & Hall). split; [by right|].
      split; [apply (Float_le_trans _ x); [by apply Float_lt_le|exact Hle]|].
      intros y [->|Hy]%elem_of_cons; [done|by apply Hall].
    + destruct (IH acc Hacc Hl) as (Hin & Hle & Hall). split.
      { apply elem_of_cons in Hin as [->|Hin]; [left|right; by right]. }
      split; [done|].
      intros y [->|Hy]%elem_of_cons; [|by apply Hall].
      apply (Float_le_trans _ acc); [|exact Hle]. by apply Float_not_lt_le.
Qed.

Lemma range_fold_split {A} (range : A → pyfloat * pyfloat) (l : list A)
    (acc : pyfloat * pyfloat) :
  foldl (λ acc x, (Float.py_min acc.1 (range x).1, Float.py_max acc.2 (range x).2))
        acc l
  = (foldl Float.py_min acc.1 ((λ x, (range x).1) <$> l),
     foldl Float.py_max acc.2 ((λ x, (range x).2) <$> l)).
Proof.
  revert acc. induction l as [|x l IH]; intros [lo hi]; simpl; [done|].
  by rewrite IH.
Qed.

(** The union of finite ranges: both ends are ends of one of the ranges, and
    every range lies within. *)
Lemma range_fold_union {A} (range : A → pyfloat * pyfloat) (l : list A) :
  l ≠ [] → Forall (λ x, finite_range (range x)) l →
  let r := foldl (λ acc x, (Float.py_min acc.1 (range x).1,
                            Float.py_max acc.2 (range x).2))
                 (PInf, NInf) l in
  (∃ x, x ∈ l ∧ r.1 = (range x).1)
  ∧ (∃ x, x ∈ l ∧ r.2 = (range x).2)
  ∧ ∀ x, x ∈ l →
      Float.le r.1 (range x).1 = true ∧ Float.le (range x).2 r.2 = true.
Proof.
  intros Hne Hfin. rewrite range_fold_split. simpl.
  assert (Spec.no_nan ((λ x, (range x).1) <$> l)) as Hlo.
  { apply Forall_fmap. eapply Forall_impl; [done|].
    intros x (a & b & E). simpl. by rewrite E. }
  assert (Spec.no_nan ((λ x, (range x).2) <$> l)) as Hhi.
  { apply Forall_fmap. eapply Forall_impl; [done|].
    intros x (a & b & E). simpl. by rewrite E. }
  destruct (py_min_fold _ PInf eq_refl Hlo) as (Hin1 & _ & Hall1).
  destruct (py_max_fold _ NInf eq_refl Hhi) as (Hin2 & _ & Hall2).
  destruct l as [|x0 l]; [done|].
  assert (x0 ∈ x0 :: l) as Hx0 by left.
  rewrite Forall_forall in Hfin.
  split; [|split].
  - apply elem_of_cons in Hin1 as [E|Hin1].
    + exfalso. destruct (Hfin x0 Hx0) as (a & b & Er).
      specialize (Hall1 (range x0).1).
      rewrite E, Er in Hall1. simpl in Hall1.
      assert (Fin a ∈ (λ x, (range x).1) <$> x0 :: l) as Hm.
      { rewrite fmap_cons, Er. left. }
      by specialize (Hall1 Hm).
    + apply list_elem_of_fmap in Hin1 as (x & E & Hx). eauto.
  - apply elem_of_cons in Hin2 as [E|Hin2].
    + exfalso. destruct (Hfin x0 Hx0) as (a & b & Er).
      specialize (Hall2 (range x0).2).
      rewrite E, Er in Hall2. simpl in Hall2.
      assert (Fin b ∈ (λ x, (range x).2) <$> x0 :: l) as Hm.
      { rewrite fmap_cons, Er. left. }
      by specialize (Hall2 Hm).
    + apply list_elem_of_fmap in Hin2 as (x & E & Hx). eauto.
  - intros x Hx. split.
    + apply Hall1. apply list_elem_of_fmap. eauto.
    + apply Hall2. apply list_elem_of_fmap. eauto.
Qed.

(** X4: [Test.get_time_range] is (0, 0) for a test without files; for a
    test whose files have finite ranges it is the union of the ranges of
    the files: its ends are ends of files' ranges and every file's range
    lies within.  A file without time data counts with its range (0, 0). *)
Theorem test_time_range_union (t : Test.t) :
  (Test.data_files t = [] → Test.get_time_range t = (Float.zero, Float.zero))
  ∧ (Test.data_files t ≠ [] →
     Forall (λ df, finite_range (DataFile.get_time_range df)) (Test.data_files t) →
     let r := Test.get_time_range t in
     (∃ df, df ∈ Test.data_files t ∧ r.1 = (DataFile.get_time_range df).1)
     ∧ (∃ df, df ∈ Test.data_files t ∧ r.2 = (DataFile.get_time_range df).2)
     ∧ (∀ df, df ∈ Test.data_files t →
          Float.le r.1 (DataFile.get_time_range df).1 = true
          ∧ Float.le (DataFile.get_time_range df).2 r.2 = true)
     ∧ (∀ df, df ∈ Test.data_files t → DataFile.get_time_data df = None →
          Float.le r.1 Float.zero = true ∧ Float.le Float.zero r.2 = true)).
Proof.
  unfold Test.get_time_range. split.
  - by intros ->.
  - intros Hne Hfin.
    destruct (range_fold_union DataFile.get_time_range _ Hne Hfin)
      as ((d1 & Hd1 & E1) & (d2 & Hd2 & E2) & Hall).
    set (range := foldl _ _ _) in *.
    assert (Float.eqb range.1 PInf = false) as Hfinite.
    { rewrite Forall_forall in Hfin. destruct (Hfin d1 Hd1) as (a & b & Er).
      rewrite E1, Er. done. }
    rewrite Hfinite. simpl. split; [eauto|]. split; [eauto|]. split; [done|].
    intros df Hdf Hnone. specialize (Hall df Hdf).
    unfold DataFile.get_time_range in Hall. by rewrite Hnone in Hall.
Qed.

(** X5: in OVERLAY mode [get_combined_time_range] is (0, 1) for no test
    and otherwise, the tests having finite ranges, the union of the ranges
    of the tests: its ends are ends of tests' ranges and every test's range
    lies within. *)
Theorem overlay_time_range_union (self : TestComparer.t) (tests : list Test.t) :
  TestComparer.get_combined_time_range self [] = (Float.zero, Float.one)
  ∧ (TestComparer.mode self = CompareMode.OVERLAY → tests ≠ [] →
     Forall (λ test, finite_range (Test.get_time_range test)) tests →
     let r := TestComparer.get_combined_time_range self tests in
     (∃ test, test ∈ tests ∧ r.1 = (Test.get_time_range test).1)
     ∧ (∃ test, test ∈ tests ∧ r.2 = (Test.get_time_range test).2)
     ∧ ∀ test, test ∈ tests →
         Float.le r.1 (Test.get_time_range test).1 = true
         ∧ Float.le (Test.get_time_range test).2 r.2 = true).
Proof.
  split; [done|]. intros Hmode Hne Hfin.
  unfold TestComparer.get_combined_time_range. rewrite Hmode.
  destruct tests as [|test0 tests0] eqn:Et; [done|]. rewrite <- Et in *.
  by apply (range_fold_union Test.get_time_range).
Qed.

(** ** The order of the merged rows *)

Lemma key_le_trans (x y z : pyfloat) :
  key_le x y = true → key_le y z = true → key_le x z = true.
Proof.
  unfold key_le.
  destruct (Float.isnan z) eqn:Ez; [done|].
  destruct (Float.isnan y) eqn:Ey; [done|].
  destruct (Float.isnan x) eqn:Ex; [done|].
  apply Float_le_trans.
Qed.

Lemma key_le_total (x y : pyfloat) : key_le x y = true ∨ key_le y x = true.
Proof.
  unfold key_le.
  destruct (Float.isnan y) eqn:Ey; [by left|].
  destruct (Float.isnan x) eqn:Ex; [by right|].
  by apply Float_le_total.
Qed.

Lemma insert_row_sorted (i : nat) (r : list pyfloat) (l : list (list pyfloat)) :
  sorted_by i l → sorted_by i (insert_row i r l).
Proof.
  unfold sorted_by. induction l as [|r' l IH]; intros Hs; simpl.
  - by repeat constructor.
  - apply StronglySorted_inv in Hs as [Hl Hall].
    destruct (key_le (cell r i) (cell r' i)) eqn:E.
    + constructor; [by constructor|]. constructor; [done|].
      eapply Forall_impl; [done|]. intros a Ha. simpl in *.
      by apply (key_le_trans _ (cell r' i)).
    + constructor; [by apply IH|].
      rewrite insert_row_perm. constructor; [|done].
      destruct (key_le_total (cell r i) (cell r' i)); [congruence|done].
Qed.

Lemma sort_rows_sorted (i : nat) (l : list (list pyfloat)) :
  sorted_by i (sort_rows i l).
Proof.
  unfold sort_rows. induction l as [|r l IH]; simpl; [constructor|].
  by apply insert_row_sorted.
Qed.

Lemma sorted_by_filter (i : nat) (P : list pyfloat → Prop)
    `{∀ r, Decision (P r)} (l : list (list pyfloat)) :
  sorted_by i l → sorted_by i (filter P l).
Proof.
  unfold sorted_by. induction l as [|r l IH]; intros Hs; [done|].
  apply StronglySorted_inv in Hs as [Hl Hall]. rewrite filter_cons.
  destruct (decide (P r)); [|by apply IH].
  constructor; [by apply IH|].
  eapply Forall_forall. intros a [_ Ha]%list_elem_of_filter.
  rewrite Forall_forall in Hall. by apply Hall.
Qed.

(** The rows [apply_to_dataframe] keeps are the rows a test on the row
    accepts, in their order, and the columns are unchanged. *)
Lemma apply_to_dataframe_rows (fs : FilterState.t) (df : DataFrame)
    (time_column : string) :
  ∃ p : list pyfloat → bool,
    FilterState.apply_to_dataframe fs df time_column
    = mkDataFrame (columns df) (filter (λ r, p r = true) (rows df)).
Proof.
  unfold FilterState.apply_to_dataframe.
  destruct (negb (FilterState.enabled fs) || Pandas.empty df).
  - exists (λ _, true). destruct df as [cols rs]. simpl. f_equal.
    symmetry. by apply filter_all.
  - rewrite all_true_map.
    destruct (index_of time_column (columns df)) as [i|].
    + rewrite range_mask_map, channel_masks_map, select_rows_map. eauto.
    + rewrite channel_masks_map, select_rows_map. eauto.
Qed.

(** X6: whenever [get_merged_dataframe] returns a table that has the
    [_plot_time_] column, its rows are in ascending order of plot time, the
    rows without a plot time last, with the filter applied or not. *)
Theorem merged_rows_sorted (t : Test.t) (apply_filter : bool) (r : DataFrame)
    (i : nat) :
  Test.get_merged_dataframe t apply_filter = Ok r →
  index_of PLOT_TIME (columns r) = Some i →
  sorted_by i (rows r).
Proof.
  unfold Test.get_merged_dataframe.
  destruct (Test.data_files t) as [|first rest]; [by intros [= <-]|].
  destruct (py_foldl _ None (first :: rest)) as [[result|]|]; simpl;
    [|by intros [= <-]|done].
  unfold has_column. case_bool_decide as Hin; simpl.
  - unfold sort_values.
    destruct (index_of PLOT_TIME (columns result)) as [j|] eqn:Ej; simpl; [|done].
    destruct (apply_filter && FilterState.enabled (Test.filter_state t)).
    + destruct (apply_to_dataframe_rows (Test.filter_state t)
                  (mkDataFrame (columns result) (sort_rows j (rows result)))
                  PLOT_TIME) as [p ->].
      simpl. intros [= <-]. simpl. intros Ei.
      assert (i = j) as -> by congruence.
      apply sorted_by_filter, sort_rows_sorted.
    + intros [= <-]. simpl. intros Ei. assert (i = j) as -> by congruence.
      apply sort_rows_sorted.
  - destruct (apply_filter && FilterState.enabled (Test.filter_state t)).
    + intros [= <-]. rewrite apply_to_dataframe_columns.
      intros ?%index_of_Some_elem. done.
    + intros [= <-]. intros ?%index_of_Some_elem. done.
Qed.

Lemma merged_rows_sorted_witness :
  ∃ r, Test.get_merged_dataframe Samples.unordered_test true = Ok r
       ∧ columns r = ["Time"; "Temp"; "_plot_time_"]
       ∧ sorted_by 2 (rows r).
Proof.
  eexists. split; [vm_compute; reflexivity|]. split; [reflexivity|].
  apply (merged_rows_sorted Samples.unordered_test true); vm_compute; reflexivity.
Defined.

(** ** Time alignment *)

Lemma Float_sub_self (a : Q) :
  Float.eqb (Float.sub (Fin a) (Fin a)) Float.zero = true.
Proof. simpl. apply Qeq_bool_iff. ring. Qed.

(** X7: [compute_relative_time] leaves an empty array as it is, subtracts
    a reference other than 0.0 from every value, and with the reference 0.0
    subtracts the first value instead, so that a series with a finite first
    value then starts at 0: a reference of 0.0 cannot be asked for. *)
Theorem compute_relative_time_spec (time_data : list pyfloat)
    (reference_start : pyfloat) :
  TimeAligner.compute_relative_time [] reference_start = []
  ∧ length (TimeAligner.compute_relative_time time_data reference_start)
    = length time_data
  ∧ (time_data ≠ [] → Float.eqb reference_start Float.zero = false →
     TimeAligner.compute_relative_time time_data reference_start
     = map (λ x, Float.sub x reference_start) time_data)
  ∧ (∀ first rest, time_data = first :: rest →
       Float.eqb reference_start Float.zero = true →
       TimeAligner.compute_relative_time time_data reference_start
       = map (λ x, Float.sub x first) time_data
       ∧ ∀ a, first = Fin a →
           ∃ start rest',
             TimeAligner.compute_relative_time time_data reference_start
             = start :: rest'
             ∧ Float.eqb start Float.zero = true).
Proof.
  split; [done|]. split; [|split].
  - destruct time_data; [done|]. simpl. by rewrite length_map.
  - destruct time_data as [|first rest]; [done|]. intros _ Href.
    unfold TimeAligner.compute_relative_time. by rewrite Href.
  - intros first rest -> Href. unfold TimeAligner.compute_relative_time.
    rewrite Href. simpl. split; [done|].
    intros a ->. eexists _, _. split; [done|]. apply Float_sub_self.
Qed.

(** X8: the time pipeline of a file is the composition of the three steps
    of [TimeAligner] on the values of its time column: the relative time
    from the first value when the mode is RELATIVE, then [apply_offset],
    then [apply_scale]; and there is no time data exactly when
    [get_channel_data] finds no time column. *)
Theorem time_data_by_aligner (d : DataFile.t) :
  DataFile.get_time_data d
  = (λ raw,
       TimeAligner.apply_scale
         (TimeAligner.apply_offset
            (if decide (DataFile.time_mode d = TimeMode.RELATIVE)
             then TimeAligner.compute_relative_time raw Float.zero
             else raw)
            (DataFile.time_offset d))
         (DataFile.time_scale d))
    <$> DataFileData.get_channel_data d (DataFile.time_column d).
Proof.
  unfold DataFile.get_time_data, DataFileData.get_channel_data.
  destruct (DataFile.dataframe d) as [frame|]; [|done].
  destruct (index_of _ _) as [i|]; [|done]. simpl. f_equal.
  unfold TimeAligner.apply_scale, TimeAligner.apply_offset.
  rewrite map_map.
  destruct (decide (DataFile.time_mode d = TimeMode.RELATIVE)); [|done].
  by destruct (column_at frame i).
Qed.

(** ** The merges of [DataMerger] *)

Lemma index_of_app_l (c : string) (l k : list string) (i : nat) :
  index_of c l = Some i → index_of c (l ++ k) = Some i.
Proof.
  revert i. induction l as [|c' l IH]; intros i; simpl; [done|].
  destruct (decide (c' = c)); [done|].
  destruct (index_of c l) as [j|]; simpl; [|done].
  intros [= <-]. by rewrite (IH j).
Qed.

Lemma select_columns_ok (df : DataFrame) (cols : list string) :
  (∀ c, c ∈ cols → c ∈ columns df) →
  select_columns df cols
  = Ok (mkDataFrame cols (map (reindex (columns df) cols) (rows df))).
Proof.
  intros Hall. unfold select_columns.
  destruct (list_find _ cols) as [[k c]|] eqn:E; [|done].
  apply list_find_Some in E as (Hk & Hc & _).
  destruct Hc. apply Hall. by eapply list_elem_of_lookup_2.
Qed.

Lemma select_columns_first_missing (df : DataFrame) (c : string)
    (cols : list string) :
  c ∉ columns df → select_columns df (c :: cols) = Raise (KeyError c).
Proof.
  intros Hc. unfold select_columns. simpl. by rewrite decide_True.
Qed.

Lemma added_columns_spec (base_df new_df : DataFrame) (key c : string) :
  c ∈ added_columns base_df new_df key
  ↔ c ∈ columns new_df ∧ c ≠ key ∧ c ∉ columns base_df.
Proof. unfold added_columns. rewrite list_elem_of_filter. naive_solver. Qed.

Lemma added_columns_NoDup (base_df new_df : DataFrame) (key : string) :
  NoDup (columns new_df) → NoDup (added_columns base_df new_df key).
Proof. apply NoDup_filter. Qed.

(** The labels of added columns need no suffix. *)
Lemma added_labels (base_cols cols : list string) (suffix : string) :
  (∀ c, c ∈ cols → c ∉ base_cols) →
  map (λ c, if bool_decide (c ∈ base_cols) then c +:+ suffix else c) cols = cols.
Proof.
  intros Hall. induction cols as [|c cols IH]; [done|]. simpl.
  rewrite bool_decide_eq_false_2 by (apply Hall; left).
  f_equal. apply IH. intros c' Hc'. apply Hall. by right.
Qed.

Lemma filter_filter_same {A} (P : A → Prop) `{∀ x, Decision (P x)} (l : list A) :
  filter P (filter P l) = filter P l.
Proof. apply filter_all. by intros x [? _]%list_elem_of_filter. Qed.

Lemma right_columns_added (base_df new_df : DataFrame) (key : string)
    (rows' : list (list pyfloat)) :
  right_columns (mkDataFrame (key :: added_columns base_df new_df key) rows') key
  = added_columns base_df new_df key.
Proof.
  unfold right_columns. simpl. rewrite filter_cons, decide_False by naive_solver.
  apply filter_all. by intros c (_ & ? & _)%added_columns_spec.
Qed.

(** X9: [merge_on_time_exact] raises [KeyError] when the time column is
    missing from one of the two tables; otherwise (the labels of the new
    table being distinct) it returns a table whose columns are those of the
    base followed by the columns of the new table the base does not have, so
    that the base wins and no label gets a suffix, with its rows sorted by
    the time column. *)
Theorem merge_on_time_exact_spec (base_df new_df : DataFrame)
    (time_column : string) :
  (time_column ∉ columns base_df ∨ time_column ∉ columns new_df →
   DataMergerTime.merge_on_time_exact base_df new_df time_column
   = Raise (KeyError time_column))
  ∧ (∀ i, index_of time_column (columns base_df) = Some i →
       time_column ∈ columns new_df → NoDup (columns new_df) →
       ∃ r, DataMergerTime.merge_on_time_exact base_df new_df time_column = Ok r
            ∧ columns r
              = columns base_df ++ added_columns base_df new_df time_column
            ∧ index_of time_column (columns r) = Some i
            ∧ sorted_by i (rows r)).
Proof.
  unfold DataMergerTime.merge_on_time_exact.
  fold (added_columns base_df new_df time_column).
  split.
  - intros Hmissing.
    destruct (decide (time_column ∈ columns new_df)) as [Hnew|Hnew];
      [|by rewrite select_columns_first_missing].
    destruct Hmissing as [Hbase|]; [|done].
    rewrite select_columns_ok; simpl.
    + unfold merge_outer. apply index_of_None_iff in Hbase. by rewrite Hbase.
    + intros c [->|Hc%added_columns_spec]%elem_of_cons; [done|]. by destruct Hc.
  - intros i Hi Hnew Hnd. rewrite select_columns_ok; simpl.
    2:{ intros c [->|Hc%added_columns_spec]%elem_of_cons; [done|].
        by destruct Hc. }
    unfold merge_outer. rewrite Hi. simpl.
    rewrite decide_True by done.
    unfold right_labels. rewrite right_columns_added.
    rewrite added_labels by (by intros c (_ & _ & ?)%added_columns_spec).
    rewrite bool_decide_eq_true_2 by (by apply added_columns_NoDup).
    simpl. unfold sort_values. simpl.
    rewrite (index_of_app_l _ _ _ i) by done.
    eexists. split; [done|]. simpl. split; [done|].
    split; [by apply index_of_app_l|]. apply sort_rows_sorted.
Qed.

Lemma cell_reindex (from to : list string) (r : list pyfloat) (k : nat)
    (c : string) :
  to !! k = Some c → cell (reindex from to r) k = value from r c.
Proof.
  intros Hk. unfold cell, reindex, value.
  rewrite list_lookup_fmap, Hk. done.
Qed.

Lemma kept_columns_added (base_df new_df : DataFrame) (key : string) :
  filter (λ c, c ≠ key)
         (filter (λ col, col = key ∨ col ∉ columns base_df) (columns new_df))
  = added_columns base_df new_df key.
Proof.
  unfold added_columns. rewrite list_filter_filter.
  apply list_filter_iff. naive_solver.
Qed.

Lemma kept_labels (cols others : list string) (suffix : string) :
  (∀ c, c ∈ cols → c ∉ others) →
  map (λ c, if bool_decide (c ∈ others) then c +:+ suffix else c) cols = cols.
Proof. apply added_labels. Qed.

(** X10: [merge_on_time_nearest] raises [KeyError] when the time column is
    missing from one of the two tables.  When both have it, with distinct
    labels, no missing time and a tolerance that is not negative, it
    returns a table whose columns are those of the base followed by the
    columns of the new table the base does not have, and whose rows are the
    rows of the base in time order, each one extended by as many values as
    there are added columns: no base row is lost and none is added. *)
Theorem merge_on_time_nearest_spec (base_df new_df : DataFrame)
    (time_column : string) (tolerance : pyfloat) :
  (time_column ∉ columns base_df ∨ time_column ∉ columns new_df →
   DataMergerTime.merge_on_time_nearest base_df new_df time_column tolerance
   = Raise (KeyError time_column))
  ∧ (∀ i j,
       index_of time_column (columns base_df) = Some i →
       index_of time_column (columns new_df) = Some j →
       NoDup (columns base_df) → NoDup (columns new_df) →
       Forall (λ r, Float.isnan (cell r i) = false) (rows base_df) →
       Forall (λ r, Float.isnan (cell r j) = false) (rows new_df) →
       Float.lt tolerance Float.zero = false →
       ∃ r, DataMergerTime.merge_on_time_nearest base_df new_df time_column
              tolerance = Ok r
            ∧ columns r
              = columns base_df ++ added_columns base_df new_df time_column
            ∧ Forall2 (λ l r', ∃ ext,
                         r' = l ++ ext
                         ∧ length ext
                           = length (added_columns base_df new_df time_column))
                      (sort_rows i (rows base_df)) (rows r)).
Proof.
  unfold DataMergerTime.merge_on_time_nearest, sort_values. split.
  - intros [Hm|Hm]; apply index_of_None_iff in Hm.
    + by rewrite Hm.
    + rewrite Hm. by destruct (index_of time_column (columns base_df)).
  - intros i j Hi Hj Hndb Hndn Hnanb Hnann Htol. rewrite Hi, Hj. simpl.
    set (new_cols := filter _ (columns new_df)).
    assert (time_column ∈ new_cols) as Hin.
    { apply list_elem_of_filter. split; [by left|by eapply index_of_Some_elem]. }
    rewrite select_columns_ok; simpl.
    2:{ by intros c [_ ?]%list_elem_of_filter. }
    destruct (index_of_elem _ _ Hin) as [k Hk].
    unfold merge_asof. simpl. rewrite Hi, Hk.
    rewrite bool_decide_eq_false_2.
    2:{ intros [Hex|Hex]; apply Exists_exists in Hex as (r & Hr & Hnan).
        - rewrite sort_rows_perm in Hr. rewrite Forall_forall in Hnanb.
          rewrite (Hnanb r Hr) in Hnan. done.
        - apply list_elem_of_fmap in Hr as (r0 & -> & Hr0).
          rewrite sort_rows_perm in Hr0. rewrite Forall_forall in Hnann.
          rewrite (cell_reindex _ _ _ _ time_column) in Hnan
            by (by apply index_of_lookup).
          unfold value in Hnan. rewrite Hj in Hnan.
          rewrite (Hnann r0 Hr0) in Hnan. done. }
    rewrite Htol.
    unfold left_labels, right_labels, right_columns. simpl.
    subst new_cols. rewrite kept_columns_added.
    rewrite (kept_labels (columns base_df))
      by (intros c Hc (_ & _ & ?)%added_columns_spec; done).
    rewrite added_labels by (by intros c (_ & _ & ?)%added_columns_spec).
    rewrite bool_decide_eq_true_2
      by (split; [done|by apply added_columns_NoDup]).
    eexists. split; [done|]. simpl. split; [done|].
    apply Forall2_fmap_r, Forall_Forall2_diag, Forall_forall.
    intros l _. simpl.
    match goal with
    | |- context [asof_nearest ?a ?b ?c ?d] => destruct (asof_nearest a b c d)
    end.
    + eexists. split; [done|]. unfold reindex. by rewrite length_map.
    + eexists. split; [done|]. by rewrite length_replicate.
Qed.


Lemma concat_rows_length (a b : DataFrame) :
  length (rows (concat a b)) = (length (rows a) + length (rows b))%nat.
Proof. unfold concat. simpl. by rewrite length_app, !length_map. Qed.


(** ** The nearest-time branch of the merge of a test *)

Lemma setitem_columns (df df' : DataFrame) (c : string) (values : list pyfloat) :
  setitem df c values = Ok df' → ∀ c', c' ∈ columns df → c' ∈ columns df'.
Proof.
  unfold setitem. destruct (decide _); [|done].
  destruct (index_of c (columns df)); intros [= <-] c' Hc'; simpl; [done|].
  apply elem_of_app. by left.
Qed.

Lemma with_plot_time_columns (time_col : string) (df : DataFile.t)
    (frame temp_df : DataFrame) :
  Test.with_plot_time time_col df frame = Ok temp_df →
  ∀ c, c ∈ columns frame → c ∈ columns temp_df.
Proof.
  unfold Test.with_plot_time.
  destruct (index_of time_col (columns frame)); [|by intros [= <-]].
  destruct (DataFile.get_plot_time df); apply setitem_columns.
Qed.

Lemma merge_asof_columns (left right merged : DataFrame) (on : string)
    (tolerance : pyfloat) :
  merge_asof left right on tolerance = Ok merged →
  columns merged
  = left_labels left right on "_x" ++ right_labels left right on "_y".
Proof.
  unfold merge_asof.
  destruct (index_of on (columns left)); [|done].
  destruct (index_of on (columns right)); [|done].
  repeat case_match; try done. by intros [= <-].
Qed.

(** X12: in the nearest-time branch of [get_merged_dataframe] a column the
    two tables share, other than the plot time, is not merged into one: the
    result holds it twice, under its name followed by ["_x"] (the values of
    the first table) and by ["_y"] (those of the second). *)
Theorem nearest_branch_suffixes (t : Test.t) (apply_filter : bool)
    (first second : DataFile.t) (frame1 frame2 r : DataFrame) (c : string) :
  Test.data_files t = [first; second] →
  DataFile.dataframe first = Some frame1 →
  DataFile.dataframe second = Some frame2 →
  DataFile.join_strategy second = Some JoinStrategy.TIME_NEAREST →
  c ∈ columns frame1 → c ∈ columns frame2 → c ≠ PLOT_TIME →
  Test.get_merged_dataframe t apply_filter = Ok r →
  c +:+ "_x" ∈ columns r ∧ c +:+ "_y" ∈ columns r.
Proof.
  intros Hfiles Hf1 Hf2 Hjoin Hc1 Hc2 Hne Hr.
  destruct (get_merged_dataframe_columns t apply_filter r first [second] Hfiles Hr)
    as (result & Hfold & ->).
  rewrite Hfiles in Hfold. simpl in Hfold.
  unfold Test.merge_file in Hfold. rewrite Hf1, Hf2 in Hfold.
  destruct (Test.with_plot_time _ first frame1) as [temp1|] eqn:E1; [|done].
  simpl in Hfold.
  destruct (Test.with_plot_time _ second frame2) as [temp2|] eqn:E2; [|done].
  simpl in Hfold. unfold Test.merge_step in Hfold. rewrite Hjoin in Hfold.
  destruct (sort_values temp1 PLOT_TIME) as [l|] eqn:El; [|done].
  destruct (sort_values temp2 PLOT_TIME) as [k|] eqn:Ek; [|done].
  simpl in Hfold.
  destruct (merge_asof l k PLOT_TIME _) as [merged|] eqn:Em; [|done].
  simpl in Hfold. injection Hfold as <-. simpl.
  rewrite (merge_asof_columns _ _ _ _ _ Em).
  apply sort_values_columns in El, Ek.
  pose proof (with_plot_time_columns _ _ _ _ E1 c Hc1) as H1.
  pose proof (with_plot_time_columns _ _ _ _ E2 c Hc2) as H2.
  rewrite <- El in H1. rewrite <- Ek in H2.
  assert (c ∈ right_columns k PLOT_TIME) as Hrc.
  { unfold right_columns. by apply list_elem_of_filter. }
  split; apply elem_of_app; [left|right].
  - unfold left_labels. apply list_elem_of_fmap. exists c.
    by rewrite bool_decide_eq_true_2.
  - unfold right_labels. apply list_elem_of_fmap. exists c.
    by rewrite bool_decide_eq_true_2.
Qed.

Lemma nearest_branch_suffixes_witness :
  ∃ r, Test.get_merged_dataframe Samples.nearest_test false = Ok r
       ∧ columns r = ["Time_x"; "Temp"; "_plot_time_"; "Time_y"; "Volt"]
       ∧ "Time_x" ∈ columns r ∧ "Time_y" ∈ columns r.
Proof.
  eexists. split; [vm_compute; reflexivity|]. split; [reflexivity|].
  apply (nearest_branch_suffixes Samples.nearest_test false
           Examples.base_file Samples.volt_file
           Examples.base_table Samples.volt_table _ "Time");
    try reflexivity; try (vm_compute; reflexivity).
  - left.
  - left.
  - discriminate.
Defined.

(** ** Preparing tests for comparison *)

Lemma py_foldl_raises {A B} (f : A → B → PyResult A) (l : list B) (x : B) :
  x ∈ l → (∀ a, ∃ e, f a x = Raise e) → ∀ a, ∃ e, py_foldl f a l = Raise e.
Proof.
  intros Hx Hraise. induction l as [|y l IH]; intros a.
  - by apply elem_of_nil in Hx.
  - simpl. destruct (f a y) as [a'|e] eqn:E; simpl; [|eauto].
    apply elem_of_cons in Hx as [->|Hx]; [|by apply IH].
    destruct (Hraise a) as [e He]. congruence.
Qed.

Lemma enumerate_from_elem {A} (k : nat) (l : list A) (x : A) :
  x ∈ l → ∃ i, (i, x) ∈ enumerate_from k l.
Proof.
  revert k. induction l as [|y l IH]; intros k Hx.
  - by apply elem_of_nil in Hx.
  - rewrite enumerate_from_cons. apply elem_of_cons in Hx as [->|Hx].
    + exists k. left.
    + destruct (IH (S k) Hx) as [i Hi]. exists i. by right.
Qed.

(** X13: [prepare_tests_for_comparison] raises, in both modes, as soon as
    one of the tests has a merged table that is not empty and has no
    [_plot_time_] column (its time column is not a column of its data):
    the column is selected without a test for it. *)
Theorem prepare_raises_without_plot_time (self : TestComparer.t)
    (tests : list Test.t) (selected_channels : list string) (test : Test.t)
    (df : DataFrame) :
  test ∈ tests →
  Test.get_merged_dataframe test true = Ok df →
  Pandas.empty df = false →
  PLOT_TIME ∉ columns df →
  ∃ e, TestComparer.prepare_tests_for_comparison self tests selected_channels
       = Raise e.
Proof.
  intros Hin Hdf Hne Hcol. unfold TestComparer.prepare_tests_for_comparison.
  destruct (TestComparer.mode self).
  - apply (py_foldl_raises _ _ test); [done|]. intros result.
    unfold TestComparer.overlay_step. rewrite Hdf. simpl. rewrite Hne.
    unfold TestComparer.cols_to_keep.
    rewrite select_columns_first_missing by done. simpl. eauto.
  - destruct (enumerate_from_elem 0 tests test Hin) as [i Hi].
    destruct (py_foldl_raises
                (TestComparer.concatenate_step self selected_channels)
                (enumerate tests) (i, test) Hi) with (a := (∅ : gmap string DataFrame, Float.zero))
      as [e He].
    + intros [result offset]. unfold TestComparer.concatenate_step.
      rewrite Hdf. simpl. rewrite Hne. unfold TestComparer.cols_to_keep.
      rewrite select_columns_first_missing by done. simpl. eauto.
    + rewrite He. simpl. eauto.
Qed.

Lemma prepare_raises_without_plot_time_witness :
  Test.get_merged_dataframe Samples.untimed_only true = Ok Examples.untimed_table
  ∧ ∃ e, TestComparer.prepare_tests_for_comparison Samples.overlay
           [Examples.test_10; Samples.untimed_only] ["Volt"] = Raise e.
Proof.
  split; [vm_compute; reflexivity|].
  apply (prepare_raises_without_plot_time Samples.overlay _ _
           Samples.untimed_only Examples.untimed_table).
  - right. left.
  - vm_compute. reflexivity.
  - reflexivity.
  - intros H. by apply list_elem_of_singleton in H.
Defined.

Lemma getitem_reindexed (df : DataFrame) (cols : list string) (c : string) :
  c ∈ cols → c ∈ columns df →
  getitem (mkDataFrame cols (map (reindex (columns df) cols) (rows df))) c
  = getitem df c.
Proof.
  intros [k Hk]%index_of_elem [i Hi]%index_of_elem.
  unfold getitem. simpl. rewrite Hk, Hi. f_equal.
  unfold column_at. simpl. rewrite map_map. apply map_ext. intros r.
  rewrite (cell_reindex _ _ _ _ c) by (by apply index_of_lookup).
  unfold value. by rewrite Hi.
Qed.

Lemma overlay_fold (selected_channels : list string) (tests : list Test.t)
    (acc : gmap string DataFrame) :
  NoDup (Test.id <$> tests) →
  (∀ test, test ∈ tests →
     ∃ df, Test.get_merged_dataframe test true = Ok df
           ∧ (Pandas.empty df = true ∨ PLOT_TIME ∈ columns df)) →
  ∃ result,
    py_foldl (TestComparer.overlay_step selected_channels) acc tests = Ok result
    ∧ (∀ test df, test ∈ tests →
         Test.get_merged_dataframe test true = Ok df →
         result !! Test.id test
         = if Pandas.empty df then acc !! Test.id test
           else Some (prepared_table df selected_channels))
    ∧ (∀ test_id, test_id ∉ Test.id <$> tests → result !! test_id = acc !! test_id).
Proof.
  revert acc. induction tests as [|t0 tests IH]; intros acc Hnd Hall.
  - exists acc. split; [done|]. split; [|done]. by intros ? ? ?%elem_of_nil.
  - rewrite fmap_cons in Hnd. apply NoDup_cons in Hnd as [Hfresh Hnd].
    destruct (Hall t0) as (df0 & Hdf0 & Hplot); [left|].
    assert (∃ acc',
              TestComparer.overlay_step selected_channels acc t0 = Ok acc'
              ∧ acc' !! Test.id t0
                = (if Pandas.empty df0 then acc !! Test.id t0
                   else Some (prepared_table df0 selected_channels))
              ∧ ∀ test_id, test_id ≠ Test.id t0 → acc' !! test_id = acc !! test_id)
      as (acc' & Hstep & Hat & Hother).
    { unfold TestComparer.overlay_step. rewrite Hdf0. simpl.
      destruct (Pandas.empty df0) eqn:Ee; [by exists acc|].
      destruct Hplot as [|Hplot]; [done|].
      rewrite select_columns_ok.
      - simpl. eexists. split; [done|]. split; [by rewrite lookup_insert_eq|].
        intros test_id Hne. by rewrite lookup_insert_ne.
      - intros c [->|[Hc _]%list_elem_of_filter]%elem_of_cons; done. }
    destruct (IH acc' Hnd) as (result & Hfold & Hin & Hout).
    { intros test Htest. apply Hall. by right. }
    exists result. simpl. rewrite Hstep. simpl. split; [done|]. split.
    + intros test df [->|Htest]%elem_of_cons Hdf.
      * assert (df = df0) as -> by congruence.
        rewrite Hout by done. by rewrite Hat.
      * rewrite (Hin test df Htest Hdf). rewrite Hother; [done|].
        intros E. apply Hfresh. rewrite <- E. apply list_elem_of_fmap. eauto.
    + intros test_id [Hne Hni]%not_elem_of_cons.
      rewrite Hout by done. by apply Hother.
Qed.

(** X14: in OVERLAY mode, for tests with distinct ids whose merged tables
    are empty or have the [_plot_time_] column, [prepare_tests_for_comparison]
    returns one table for each test with a non-empty merged table and none
    for the others: the plot time and the selected channels the merged table
    has, with the values of the merged table; no time is moved and a
    selected channel the table does not have is left out. *)
Theorem overlay_prepare_spec (self : TestComparer.t) (tests : list Test.t)
    (selected_channels : list string) :
  TestComparer.mode self = CompareMode.OVERLAY →
  NoDup (Test.id <$> tests) →
  (∀ test, test ∈ tests →
     ∃ df, Test.get_merged_dataframe test true = Ok df
           ∧ (Pandas.empty df = true ∨ PLOT_TIME ∈ columns df)) →
  ∃ result,
    TestComparer.prepare_tests_for_comparison self tests selected_channels
    = Ok result
    ∧ (∀ test df, test ∈ tests →
         Test.get_merged_dataframe test true = Ok df →
         result !! Test.id test
         = if Pandas.empty df then None
           else Some (prepared_table df selected_channels))
    ∧ (∀ test_id, test_id ∉ Test.id <$> tests → result !! test_id = None)
    ∧ (∀ df c, PLOT_TIME ∈ columns df →
         c = PLOT_TIME ∨ (c ∈ selected_channels ∧ c ∈ columns df) →
         getitem (prepared_table df selected_channels) c = getitem df c)
    ∧ (∀ df, columns (prepared_table df selected_channels)
             = PLOT_TIME :: filter (λ ch, ch ∈ columns df) selected_channels).
Proof.
  intros Hmode Hnd Hall. unfold TestComparer.prepare_tests_for_comparison.
  rewrite Hmode.
  destruct (overlay_fold selected_channels tests ∅ Hnd Hall)
    as (result & Hfold & Hin & Hout).
  exists result. split; [done|]. split; [|split; [|split]].
  - intros test df Htest Hdf. rewrite (Hin test df Htest Hdf).
    by rewrite lookup_empty.
  - intros test_id Hni. by rewrite Hout.
  - intros df c Hplot Hc. apply getitem_reindexed.
    + unfold TestComparer.cols_to_keep. destruct Hc as [->|[Hsel Hcol]]; [left|].
      right. by apply list_elem_of_filter.
    + by destruct Hc as [->|[_ ?]].
  - done.
Qed.

Lemma overlay_prepare_spec_witness :
  ∃ result,
    TestComparer.prepare_tests_for_comparison Samples.overlay
      [Examples.test_10; Examples.test_none; Examples.test_8] ["Channel_A"; "Volt"]
    = Ok result
    ∧ result !! "E" = None
    ∧ (columns <$> result !! "B") = Some ["_plot_time_"; "Channel_A"].
Proof.
  destruct (overlay_prepare_spec Samples.overlay
              [Examples.test_10; Examples.test_none; Examples.test_8]
              ["Channel_A"; "Volt"]) as (result & Hr & Hin & _).
  - reflexivity.
  - refine (bool_decide_unpack _ _); vm_compute; reflexivity.
  - intros test Htest.
    apply elem_of_cons in Htest as [->|Htest];
      [|apply elem_of_cons in Htest as [->|Htest];
        [|apply list_elem_of_singleton in Htest as ->]];
      eexists; (split; [vm_compute; reflexivity|]).
    + right. refine (bool_decide_unpack _ _); vm_compute; reflexivity.
    + left. reflexivity.
    + right. refine (bool_decide_unpack _ _); vm_compute; reflexivity.
  - exists result. split; [done|]. split.
    + refine (Hin Examples.test_none empty_frame _ _); [right; left|].
      vm_compute. reflexivity.
    + eassert (Test.get_merged_dataframe Examples.test_8 true = Ok _) as H8
        by (vm_compute; reflexivity).
      apply Hin in H8; [|right; right; left].
      change (Test.id Examples.test_8) with "B" in H8. rewrite H8. reflexivity.
Defined.

(** ** The filter manager *)

Lemma select_rows_all (df : DataFrame) : select_rows df (all_true df) = df.
Proof.
  rewrite all_true_map, select_rows_map.
  destruct df as [cols rs]. simpl. f_equal. by apply filter_all.
Qed.

(** A filter with a time window and nothing else. *)
Lemma apply_time_window (fs : FilterState.t) (df : DataFrame)
    (time_column : string) :
  FilterState.enabled fs = true → FilterState.channel_filters fs = ∅ →
  FilterState.apply_to_dataframe fs df time_column
  = if Pandas.empty df then df
    else mkDataFrame (columns df)
           (filter (λ r, match index_of time_column (columns df) with
                         | Some i =>
                             Spec.in_range (FilterState.time_min fs)
                                           (FilterState.time_max fs) (cell r i)
                         | None => true
                         end = true)
                   (rows df)).
Proof.
  intros He Hc. unfold FilterState.apply_to_dataframe. rewrite He, Hc. simpl.
  destruct (Pandas.empty df); [done|].
  rewrite map_to_list_empty. simpl. rewrite all_true_map.
  destruct (index_of time_column (columns df)) as [i|].
  - by rewrite range_mask_map, select_rows_map.
  - by rewrite select_rows_map.
Qed.

Lemma channel_passes_new (test : Test.t) (ch : string) :
  FilterManager.channel_passes (Test.with_filter_state FilterState.new test) ch
  = true.
Proof. done. Qed.

Section filter_signals.
Context {L : Type} `{EqDecision L}.

Local Abbreviation tests_of self := (FilterManager._tests (FilterSignals.manager self)).

Lemma change_filter_spec (self : FilterSignals.t L) (test_id : string)
    (change : FilterState.t → FilterState.t) :
  match tests_of self !! test_id with
  | None => FilterSignals.change_filter self test_id change = (self, [])
  | Some test =>
      FilterSignals.change_filter self test_id change
      = (FilterSignals.mk
           (FilterManager.mk
              (<[test_id := Test.with_filter_state (change (Test.filter_state test)) test]>
                 (tests_of self)))
           (FilterSignals._listeners self),
         FilterSignals._emit_change self test_id)
  end.
Proof.
  unfold FilterSignals.change_filter.
  by destruct (tests_of self !! test_id).
Qed.

(** X15: a setter of [FilterManager] on an id that is not registered
    changes nothing and emits nothing.  On a registered test it emits
    [filter_changed] with the id, then [any_filter_changed], then calls
    every listener once in the order they were added; the test keeps all
    its fields but the filter state, and the other tests and the listeners
    are as before. *)
Theorem setter_frame (self : FilterSignals.t L) (test_id : string)
    (setter : FilterSignals.Setter) :
  let after := (FilterSignals.call self test_id setter).1 in
  let emitted := (FilterSignals.call self test_id setter).2 in
  (tests_of self !! test_id = None → after = self ∧ emitted = [])
  ∧ (∀ test, tests_of self !! test_id = Some test →
       emitted
       = FilterSignals.filter_changed test_id
         :: FilterSignals.any_filter_changed
         :: map (λ listener, FilterSignals.called listener test_id)
                (FilterSignals._listeners self)
       ∧ ∃ filter_state,
           tests_of after !! test_id
           = Some (Test.with_filter_state filter_state test))
  ∧ (∀ other, other ≠ test_id → tests_of after !! other = tests_of self !! other)
  ∧ FilterSignals._listeners after = FilterSignals._listeners self.
Proof.
  assert (∀ change,
            let after := (FilterSignals.change_filter self test_id change).1 in
            let emitted := (FilterSignals.change_filter self test_id change).2 in
            (tests_of self !! test_id = None → after = self ∧ emitted = [])
            ∧ (∀ test, tests_of self !! test_id = Some test →
                 emitted
                 = FilterSignals.filter_changed test_id
                   :: FilterSignals.any_filter_changed
                   :: map (λ listener, FilterSignals.called listener test_id)
                          (FilterSignals._listeners self)
                 ∧ ∃ filter_state,
                     tests_of after !! test_id
                     = Some (Test.with_filter_state filter_state test))
            ∧ (∀ other, other ≠ test_id →
                 tests_of after !! other = tests_of self !! other)
            ∧ FilterSignals._listeners after = FilterSignals._listeners self)
    as Hchange.
  { intros change. pose proof (change_filter_spec self test_id change) as Hspec.
    destruct (tests_of self !! test_id) as [test|] eqn:Et; simpl; rewrite Hspec.
    - split; [done|]. split; [|split; [|done]].
      + intros ? [= <-]. split; [done|]. simpl. rewrite lookup_insert_eq. eauto.
      + intros other Hne. simpl. by rewrite lookup_insert_ne.
    - split; [done|]. split; [done|]. done. }
  destruct setter; apply Hchange.
Qed.

(** X16: [set_channel_filter] on a registered test stores the bounds
    under the channel, replacing earlier ones, and removes the entry of the
    channel when both bounds are [None]; the bounds of the other channels
    and the other fields of the filter are unchanged. *)
Theorem set_channel_filter_lookup (self : FilterSignals.t L) (test_id : string)
    (test : Test.t) (channel : string) (min_val max_val : option pyfloat) :
  tests_of self !! test_id = Some test →
  ∃ filter_state,
    FilterSignals.get_filter_state
      (FilterSignals.set_channel_filter self test_id channel min_val max_val).1
      test_id = Some filter_state
    ∧ FilterState.channel_filters filter_state !! channel
      = (if bool_decide (min_val = None ∧ max_val = None) then None
         else Some (min_val, max_val))
    ∧ (∀ other, other ≠ channel →
         FilterState.channel_filters filter_state !! other
         = FilterState.channel_filters (Test.filter_state test) !! other)
    ∧ FilterState.time_min filter_state
      = FilterState.time_min (Test.filter_state test)
    ∧ FilterState.time_max filter_state
      = FilterState.time_max (Test.filter_state test)
    ∧ FilterState.text_search filter_state
      = FilterState.text_search (Test.filter_state test)
    ∧ FilterState.category_filter filter_state
      = FilterState.category_filter (Test.filter_state test)
    ∧ FilterState.unit_filter filter_state
      = FilterState.unit_filter (Test.filter_state test)
    ∧ FilterState.enabled filter_state
      = FilterState.enabled (Test.filter_state test).
Proof.
  intros Ht. unfold FilterSignals.set_channel_filter.
  pose proof (change_filter_spec self test_id) as Hspec.
  rewrite Ht in Hspec. rewrite Hspec.
  unfold FilterSignals.get_filter_state. simpl. rewrite lookup_insert_eq.
  eexists. split; [done|]. simpl.
  destruct min_val as [lo|], max_val as [hi|]; simpl;
    rewrite ?lookup_insert_eq, ?lookup_delete_eq;
    (split; [done|]); (split; [|done]); intros other Hne;
    by rewrite ?lookup_insert_ne, ?lookup_delete_ne.
Qed.

(** X17: after [clear_filters] nothing is filtered for the test, be it
    registered or not: [get_filtered_channels] returns every channel and
    [apply_filter_to_dataframe] returns the table it is given. *)
Theorem clear_filters_passes_all (self : FilterSignals.t L) (test_id : string)
    (all_channels : list string) (df : DataFrame) (time_column : string) :
  let after := (FilterSignals.clear_filters self test_id).1 in
  FilterManager.get_filtered_channels (FilterSignals.manager after) test_id
    all_channels = all_channels
  ∧ FilterSignals.apply_filter_to_dataframe after test_id df time_column = df.
Proof.
  unfold FilterSignals.clear_filters.
  pose proof (change_filter_spec self test_id (λ _, FilterState.new)) as Hspec.
  unfold FilterManager.get_filtered_channels,
    FilterSignals.apply_filter_to_dataframe, FilterSignals.get_filter_state.
  destruct (tests_of self !! test_id) as [test|] eqn:Et; rewrite Hspec; simpl.
  - rewrite lookup_insert_eq. split.
    + apply filter_all. intros ch _. apply channel_passes_new.
    + simpl. rewrite apply_time_window by done. simpl.
      destruct (Pandas.empty df); [done|].
      destruct df as [cols rs]. simpl. f_equal.
      apply filter_all. intros r _. by destruct (index_of _ _).
  - by rewrite Et.
Qed.

(** X18: once [set_filter_enabled] has switched the filter of a registered
    test off, [apply_filter_to_dataframe] returns the table it is given, and
    the merged table of the test with the filter asked for is the one
    without it. *)
Theorem disabled_filter_is_off (self : FilterSignals.t L) (test_id : string)
    (test : Test.t) (df : DataFrame) (time_column : string) :
  tests_of self !! test_id = Some test →
  let after := (FilterSignals.set_filter_enabled self test_id false).1 in
  FilterSignals.apply_filter_to_dataframe after test_id df time_column = df
  ∧ ∃ test',
      FilterManager.get_test (FilterSignals.manager after) test_id = Some test'
      ∧ Test.get_merged_dataframe test' true
        = Test.get_merged_dataframe test false.
Proof.
  intros Ht. unfold FilterSignals.set_filter_enabled.
  pose proof (change_filter_spec self test_id) as Hspec.
  rewrite Ht in Hspec. rewrite Hspec. simpl.
  unfold FilterSignals.apply_filter_to_dataframe, FilterSignals.get_filter_state,
    FilterManager.get_test.
  simpl. rewrite lookup_insert_eq. simpl. split; [done|].
  eexists. split; [done|].
  unfold Test.get_merged_dataframe. simpl.
  by destruct (Test.data_files test).
Qed.

(** X19: after [clear_filters] and [set_time_range] on a registered test,
    [apply_filter_to_dataframe] returns an empty table as it is and
    otherwise keeps, in their order, exactly the rows whose time is at
    least [time_min] and at most [time_max], for the bounds that are set;
    every row when the table has no such time column. *)
Theorem time_range_filter (self : FilterSignals.t L) (test_id : string)
    (test : Test.t) (time_min time_max : option pyfloat) (df : DataFrame)
    (time_column : string) :
  tests_of self !! test_id = Some test →
  let after :=
    (FilterSignals.set_time_range (FilterSignals.clear_filters self test_id).1
       test_id time_min time_max).1 in
  FilterSignals.apply_filter_to_dataframe after test_id df time_column
  = if Pandas.empty df then df
    else mkDataFrame (columns df)
           (filter (λ r, match index_of time_column (columns df) with
                         | Some i => Spec.in_range time_min time_max (cell r i)
                         | None => true
                         end = true)
                   (rows df)).
Proof.
  intros Ht. unfold FilterSignals.clear_filters.
  pose proof (change_filter_spec self test_id (λ _, FilterState.new)) as Hclear.
  rewrite Ht in Hclear. rewrite Hclear. simpl.
  unfold FilterSignals.set_time_range.
  match goal with
  | |- context [FilterSignals.change_filter ?s ?i ?c] =>
      pose proof (change_filter_spec s i c) as Hset
  end.
  simpl in Hset. rewrite lookup_insert_eq in Hset. rewrite Hset. simpl.
  unfold FilterSignals.apply_filter_to_dataframe, FilterSignals.get_filter_state.
  simpl. rewrite lookup_insert_eq. simpl.
  by rewrite apply_time_window.
Qed.

End filter_signals.

Lemma set_channel_filter_lookup_witness :
  ∃ filter_state,
    FilterSignals.get_filter_state
      (FilterSignals.set_channel_filter Samples.manager "t2" "TC_1 [C]"
         (Some (Float.of_Z 20)) None).1 "t2" = Some filter_state
    ∧ FilterState.channel_filters filter_state !! "TC_1 [C]"
      = Some (Some (Float.of_Z 20), None).
Proof.
  destruct (set_channel_filter_lookup Samples.manager "t2" Examples.described_test
              "TC_1 [C]" (Some (Float.of_Z 20)) None)
    as (filter_state & Hget & Hat & _).
  - vm_compute. reflexivity.
  - exists filter_state. split; [exact Hget|exact Hat].
Defined.

Lemma disabled_filter_is_off_witness :
  FilterSignals.apply_filter_to_dataframe
    (FilterSignals.set_filter_enabled Samples.manager "t2" false).1 "t2"
    Examples.clock_table "Time"
  = Examples.clock_table.
Proof.
  apply (disabled_filter_is_off Samples.manager "t2" Examples.described_test).
  vm_compute. reflexivity.
Defined.

Lemma time_range_filter_witness :
  FilterSignals.apply_filter_to_dataframe
    (FilterSignals.set_time_range
       (FilterSignals.clear_filters Samples.manager "t2").1 "t2"
       (Some (Float.of_Z 101)) (Some (Float.of_Z 101))).1
    "t2" Examples.clock_table "Time"
  = mkDataFrame ["Time"; "Temp"] [[Float.of_Z 101; Float.of_Z 21]].
Proof.
  rewrite (time_range_filter Samples.manager "t2" Examples.described_test)
    by (vm_compute; reflexivity).
  vm_compute. reflexivity.
Defined.

(** X20: the registry of the filter manager: [get_test] finds a test under
    its id once it is registered, the last one registered under an id, and
    none once the id is unregistered; the other ids are not touched,
    unregistering an unknown id changes nothing, and for an unregistered id
    [get_filtered_channels] returns every channel. *)
Theorem registry_lookup (self : FilterManager.t) (test : Test.t)
    (test_id other : string) (all_channels : list string) :
  FilterManager.get_test (FilterManager.register_test self test) other
  = (if decide (other = Test.id test) then Some test
     else FilterManager.get_test self other)
  ∧ FilterManager.get_test (FilterManager.unregister_test self test_id) other
    = (if decide (other = test_id) then None
       else FilterManager.get_test self other)
  ∧ (FilterManager.get_test self test_id = None →
     FilterManager.unregister_test self test_id = self)
  ∧ FilterManager.get_filtered_channels
      (FilterManager.unregister_test self test_id) test_id all_channels
    = all_channels.
Proof.
  unfold FilterManager.get_test, FilterManager.register_test,
    FilterManager.unregister_test, FilterManager.get_filtered_channels.
  simpl. split; [|split; [|split]].
  - destruct (decide (other = Test.id test)) as [->|].
    + by rewrite lookup_insert_eq.
    + by rewrite lookup_insert_ne.
  - destruct (decide (other = test_id)) as [->|].
    + by rewrite lookup_delete_eq.
    + by rewrite lookup_delete_ne.
  - intros Hnone. destruct self as [tests]. simpl in *. f_equal.
    by apply delete_id.
  - by rewrite lookup_delete_eq.
Qed.

(** X21: the listeners of the filter manager: [remove_listener] takes out
    the first registration of a callback and leaves the manager alone when
    the callback is not registered.  Removing a callback right after adding
    it gives back the manager when it was not registered before; when it
    was, the same listeners are left, in another order of calls: the
    earlier registration is the one removed. *)
Theorem listeners_add_remove {L : Type} `{EqDecision L}
    (self : FilterSignals.t L) (callback : L) :
  (callback ∉ FilterSignals._listeners self →
   FilterSignals.remove_listener self callback = self
   ∧ FilterSignals.remove_listener (FilterSignals.add_listener self callback)
       callback = self)
  ∧ (callback ∈ FilterSignals._listeners self →
     FilterSignals._listeners
       (FilterSignals.remove_listener (FilterSignals.add_listener self callback)
          callback)
     = FilterSignals.remove_first callback (FilterSignals._listeners self)
       ++ [callback]
     ∧ FilterSignals._listeners
         (FilterSignals.remove_listener (FilterSignals.add_listener self callback)
            callback)
       ≡ₚ FilterSignals._listeners self)
  ∧ FilterSignals.manager
      (FilterSignals.remove_listener (FilterSignals.add_listener self callback)
         callback)
    = FilterSignals.manager self.
Proof.
  assert (∀ l : list L, callback ∉ l →
            FilterSignals.remove_first callback (l ++ [callback]) = l) as Hfresh.
  { induction l as [|y l IH]; intros Hni; simpl.
    - by rewrite decide_True.
    - apply not_elem_of_cons in Hni as [Hne Hni].
      rewrite decide_False by done. by rewrite IH. }
  assert (∀ l k : list L, callback ∈ l →
            FilterSignals.remove_first callback (l ++ k)
            = FilterSignals.remove_first callback l ++ k) as Hin.
  { induction l as [|y l IH]; intros k Hl; simpl.
    - by apply elem_of_nil in Hl.
    - destruct (decide (y = callback)); [done|].
      apply elem_of_cons in Hl as [->|Hl]; [done|]. by rewrite IH. }
  assert (∀ l : list L, callback ∈ l →
            callback :: FilterSignals.remove_first callback l ≡ₚ l) as Hperm.
  { induction l as [|y l IH]; intros Hl; simpl.
    - by apply elem_of_nil in Hl.
    - destruct (decide (y = callback)) as [->|Hne]; [done|].
      apply elem_of_cons in Hl as [->|Hl]; [done|].
      rewrite Permutation_swap. by rewrite IH. }
  unfold FilterSignals.remove_listener, FilterSignals.add_listener. simpl.
  split; [|split].
  - intros Hni. split; [by rewrite decide_False|].
    rewrite decide_True by (apply elem_of_app; right; left).
    rewrite Hfresh by done. by destruct self.
  - intros Hl. rewrite decide_True by (apply elem_of_app; by left). simpl.
    rewrite Hin by done. split; [done|].
    rewrite <- Permutation_cons_append. by apply Hperm.
  - by destruct (decide _).
Qed.

